(** * Multiplexed MLX90393 sensor array: acquisition loop and framing

    Shallow embedding of the two Arduino sketches of the repository:

    - [V1]: [MuxMultiSensor.ino], twenty boards of five sensors, readings
      printed while they are taken;
    - [V2]: the "Multi-Sensor Control V2" sketch, a board table with a sensor
      count per board, a snapshot buffer filled first and printed afterwards.

    Global arrays are lists of rows updated by index, the sketch's global
    state is passed explicitly, and what the sketch does to the outside (bus
    writes, driver calls, delays), together with its verdicts on the
    endpoints, is appended to a trace. *)

From Stdlib Require Import ZArith NArith List String Ascii Bool Lia.
From stdpp Require Import base list sorting strings pretty.
Import ListNotations.

(** ** Characters and text of the serial sink *)

Definition TAB : ascii := "009"%char.
Definition CR : ascii := "013"%char.
Definition LF : ascii := "010"%char.

Definition str (c : ascii) : string := String c EmptyString.

(** [Print::println] terminates a line with carriage return and line feed. *)
Definition CRLF : string := String CR (String LF EmptyString).

(** [Serial.print] of an unsigned value ([byte], [uint8_t]) in base ten. *)
Definition print_uint (n : nat) : string := pretty (N.of_nat n).

(** [Serial.print] of a signed integer in base ten. *)
Definition print_int (v : Z) : string := pretty v.

(** [Serial.print(v, HEX)] of an 8-bit value: upper-case digits, no padding. *)
Definition hex_digit (d : Z) : ascii :=
  ascii_of_N (Z.to_N (if (d <? 10)%Z then d + 48 else d + 55)%Z).

Definition print_hex (v : Z) : string :=
  if (v <? 16)%Z then str (hex_digit v)
  else String (hex_digit (v / 16)%Z) (str (hex_digit (v mod 16)%Z)).

(** A text in which a given character does not occur. *)
Fixpoint lacks (c : ascii) (s : string) : bool :=
  match s with
  | EmptyString => true
  | String c' r => negb (Ascii.eqb c' c) && lacks c r
  end.

(** A piece of text that holds no tab and no line break. *)
Definition plain (s : string) : bool := lacks TAB s && lacks CR s && lacks LF s.

(** A character that is none of the ten digits. *)
Definition numeral_char (c : ascii) : Prop :=
  forall d, pretty_N_char d <> c.

(** Cutting a text at every occurrence of a separator. *)
Fixpoint split_on (sep : ascii) (s : string) : list string :=
  match s with
  | EmptyString => [EmptyString]
  | String c r =>
      if Ascii.eqb c sep then EmptyString :: split_on sep r
      else match split_on sep r with
           | [] => [str c]
           | f :: fs => String c f :: fs
           end
  end.

(** The text in front of the first occurrence of a character. *)
Fixpoint before (stop : ascii) (s : string) : string :=
  match s with
  | EmptyString => EmptyString
  | String c r => if Ascii.eqb c stop then EmptyString else String c (before stop r)
  end.

(** Whether a text begins with a given one. *)
Fixpoint starts_with (p s : string) : bool :=
  match p, s with
  | EmptyString, _ => true
  | String a p', String b s' => Ascii.eqb a b && starts_with p' s'
  | String _ _, EmptyString => false
  end.

(** ** Counted loops

    [for (byte i = lo; i < hi; i++) body] over a state [S]. *)

Fixpoint for_loop {S : Type} (lo n : nat) (body : nat -> S -> S) (st : S) : S :=
  match n with
  | O => st
  | Datatypes.S k => for_loop (Datatypes.S lo) k body (body lo st)
  end.

Definition for_range {S : Type} (lo hi : nat) (body : nat -> S -> S) (st : S) : S :=
  for_loop lo (hi - lo) body st.

(** ** Two-dimensional arrays

    A global [T a[N][M]] is a list of [N] rows of [M] elements. An index
    outside the array is undefined behaviour in the sketch; here such a read
    gives a default and such a write does nothing, and the properties below
    are stated for tables and states with every index in range ([shape],
    [wf_config], [wf_state]). *)

Definition get2 {A : Type} (d : A) (a : list (list A)) (b s : nat) : A :=
  default d (a !! b ≫= (.!! s)).

Definition set2 {A : Type} (a : list (list A)) (b s : nat) (v : A) : list (list A) :=
  alter (<[s := v]>) b a.

Definition shape {A : Type} (n m : nat) (a : list (list A)) : Prop :=
  length a = n /\ Forall (fun row => length row = m) a.

Definition new2 {A : Type} (n m : nat) (v : A) : list (list A) :=
  replicate n (replicate m v).

(** ** Readings *)

(** Modelled from the spec: [MLX90393::txyz] is declared by the sensor driver,
    which is not part of the repository; a reading is the three signed
    integer components x, y, z the sketch assigns and prints. *)
Record txyz : Type := Txyz { x : Z; y : Z; z : Z }.

Definition set_x (v : Z) (r : txyz) : txyz := {| x := v; y := y r; z := z r |}.
Definition set_y (v : Z) (r : txyz) : txyz := {| x := x r; y := v; z := z r |}.
Definition set_z (v : Z) (r : txyz) : txyz := {| x := x r; y := y r; z := v |}.

Definition zero_txyz : txyz := Txyz 0 0 0.

(** ** The outside world: bus, multiplexer, driver, serial sink *)

Definition TCAADDR : Z := 0x70.

Inductive Event : Type :=
  | EvWire (addr : Z) (bytes : list Z)
      (** one completed bus transmission of [Wire1] *)
  | EvDelay (us : Z)
      (** [delay] and [delayMicroseconds], in microseconds *)
  | EvBegin (board slot : nat) (addr status : Z)
      (** [mlx[board][slot].begin(addr, -1, Wire1)] and the status it gave *)
  | EvStartBurst (board slot : nat) (mask : Z)
      (** [mlx[board][slot].startBurst(mask)] *)
  | EvRead (board slot : nat) (chan : Z) (sample : txyz)
      (** [mlx[board][slot].readBurstData(..)], the multiplexer register at
          the time of the call and the sample returned *)
  | EvFlag (board slot : nat) (v : bool).
      (** the assignment [sensorIsInitialized[board][slot] = v] *)

Record World : Type := mkWorld {
  mux_reg : Z;          (** control register of the multiplexer *)
  wire_addr : Z;        (** address of the transmission being assembled *)
  wire_buf : list Z;    (** bytes queued for it *)
  trace : list Event;   (** what the sketch did so far, oldest first *)
  serial : string       (** every character printed so far *)
}.

Definition log (e : Event) (w : World) : World :=
  mkWorld (mux_reg w) (wire_addr w) (wire_buf w) (trace w ++ [e]) (serial w).

Definition Serial_print (s : string) (w : World) : World :=
  mkWorld (mux_reg w) (wire_addr w) (wire_buf w) (trace w) (serial w +:+ s).

Definition Serial_println (s : string) (w : World) : World :=
  Serial_print CRLF (Serial_print s w).

Definition delay (ms : Z) (w : World) : World := log (EvDelay (1000 * ms)) w.
Definition delayMicroseconds (us : Z) (w : World) : World := log (EvDelay us) w.

Definition Wire1_beginTransmission (addr : Z) (w : World) : World :=
  mkWorld (mux_reg w) addr [] (trace w) (serial w).

(** [Wire1.write(int)] queues the low eight bits of its argument. *)
Definition Wire1_write (v : Z) (w : World) : World :=
  mkWorld (mux_reg w) (wire_addr w) (wire_buf w ++ [v mod 256]%Z) (trace w) (serial w).

(** Modelled from the spec: the multiplexer is an external device with a
    single 8-bit register at a fixed bus address; a byte written to that
    address becomes the register, the last one when several are sent. *)
Definition mux_receive (addr : Z) (bytes : list Z) (reg : Z) : Z :=
  if (addr =? TCAADDR)%Z then default reg (last bytes) else reg.

Definition Wire1_endTransmission (w : World) : World :=
  mkWorld (mux_receive (wire_addr w) (wire_buf w) (mux_reg w))
          (wire_addr w) []
          (trace w ++ [EvWire (wire_addr w) (wire_buf w)]) (serial w).

(** [void tcaSelect(uint8_t i)]; [i] is the value of the 8-bit parameter. *)
Definition tcaSelect (i : Z) (w : World) : World :=
  if (7 <? i)%Z then w
  else Wire1_endTransmission
         (Wire1_write (Z.shiftl 1 i) (Wire1_beginTransmission TCAADDR w)).

(** Modelled from the spec: the sensor driver is an external collaborator;
    [drv_begin board slot chan addr] is the status the device handle
    [mlx[board][slot]] returns from [begin] for bus address [addr] while the
    multiplexer register holds [chan], and [drv_read board slot chan] the
    sample its [readBurstData] hands back during the cycle at hand. *)
Record Driver : Type := mkDriver {
  drv_begin : nat -> nat -> Z -> Z -> Z;
  drv_read : nat -> nat -> Z -> txyz
}.

(** [byte status = mlx[b][s].begin(addr, -1, Wire1)]: the status as stored
    in the 8-bit local, and the call recorded. *)
Definition status_byte (drv : Driver) (b s : nat) (addr : Z) (w : World) : Z :=
  (drv_begin drv b s (mux_reg w) addr mod 256)%Z.

Definition mlx_begin (drv : Driver) (b s : nat) (addr : Z) (w : World) : World :=
  log (EvBegin b s addr (status_byte drv b s addr w)) w.

Definition mlx_startBurst (b s : nat) (mask : Z) (w : World) : World :=
  log (EvStartBurst b s mask) w.

Definition sample_of (drv : Driver) (b s : nat) (w : World) : txyz :=
  drv_read drv b s (mux_reg w).

Definition mlx_readBurstData (drv : Driver) (b s : nat) (w : World) : World :=
  log (EvRead b s (mux_reg w) (sample_of drv b s w)) w.

(** ** Second sketch: board table, snapshot buffer, frame printed afterwards *)

Module V2.

(** [struct SensorBoard]. *)
Record SensorBoard : Type := mkBoard {
  boardType : Z;
  numSensors : nat;
  addresses : list Z;
  classification : string
}.

(** The table compiled into the sketch; address slots the initialiser leaves
    out are zero. *)
Definition boardConfig : list SensorBoard :=
  [ mkBoard 5 5 [0x0C; 0x13; 0x12; 0x10; 0x11]%Z "5X";
    mkBoard 5 5 [0x0C; 0x13; 0x12; 0x10; 0x11]%Z "5X";
    mkBoard 5 5 [0x0C; 0x13; 0x12; 0x10; 0x11]%Z "5X";
    mkBoard 1 1 [0x0C; 0; 0; 0; 0]%Z "1XC";
    mkBoard 1 1 [0x0F; 0; 0; 0; 0]%Z "1XF";
    mkBoard 1 1 [0x0C; 0; 0; 0; 0]%Z "1XC";
    mkBoard 1 1 [0x0F; 0; 0; 0; 0]%Z "1XF";
    mkBoard 1 1 [0x0F; 0; 0; 0; 0]%Z "1XF" ].

(** Slots per board of every global array ([mlx[..][5]] and the others). *)
Definition MAX_SENSORS : nat := 5.

(** [struct AllSensorReadings]. *)
Record AllSensorReadings : Type := mkReadings {
  readings : list (list txyz);
  isValid : list (list bool)
}.

Record State : Type := mkState {
  world : World;
  sensorIsInitialized : list (list bool);
  allReadings : AllSensorReadings
}.

(** The sketch is written against a table [cfg] of [NUMBER_OF_BOARDS]
    entries; [boardConfig] above is the one in the repository. *)
Section Sketch.

Variable cfg : list SensorBoard.
Variable drv : Driver.

Definition NUMBER_OF_BOARDS : nat := length cfg.

Definition board_at (board : nat) : SensorBoard :=
  default (mkBoard 0 0 [] EmptyString) (cfg !! board).

Definition count_at (board : nat) : nat := numSensors (board_at board).

Definition address_at (board sensor : nat) : Z :=
  default 0%Z (addresses (board_at board) !! sensor).

Definition on_world (f : World -> World) (st : State) : State :=
  mkState (f (world st)) (sensorIsInitialized st) (allReadings st).

Definition set_initialized (board sensor : nat) (v : bool) (st : State) : State :=
  mkState (log (EvFlag board sensor v) (world st))
          (set2 (sensorIsInitialized st) board sensor v) (allReadings st).

Definition put_reading (board sensor : nat) (r : txyz) (st : State) : State :=
  mkState (world st) (sensorIsInitialized st)
    (mkReadings (set2 (readings (allReadings st)) board sensor r)
                (isValid (allReadings st))).

Definition upd_reading (board sensor : nat) (f : txyz -> txyz) (st : State) : State :=
  put_reading board sensor
    (f (get2 zero_txyz (readings (allReadings st)) board sensor)) st.

Definition set_valid (board sensor : nat) (v : bool) (st : State) : State :=
  mkState (world st) (sensorIsInitialized st)
    (mkReadings (readings (allReadings st))
                (set2 (isValid (allReadings st)) board sensor v)).

(** The four assignments that clear one cell of [allReadings]. *)
Definition clear_cell (board sensor : nat) (st : State) : State :=
  let st := upd_reading board sensor (set_x 0) st in
  let st := upd_reading board sensor (set_y 0) st in
  let st := upd_reading board sensor (set_z 0) st in
  set_valid board sensor false st.

(** *** [setup]

    [Serial.begin], [Wire1.begin] and [Wire1.setClock] configure the two
    ports and change nothing the model keeps. *)

Definition print_board_line (board : nat) (w : World) : World :=
  let w := Serial_print "Board " w in
  let w := Serial_print (print_uint board) w in
  let w := Serial_print ": Type " w in
  let w := Serial_print (classification (board_at board)) w in
  let w := Serial_print ", Sensors: " w in
  let w := Serial_print (print_uint (count_at board)) w in
  let w := Serial_print ", Addresses: " w in
  let w := for_range 0 (count_at board) (fun i w =>
             let w := Serial_print "0x" w in
             let w := Serial_print (print_hex (address_at board i)) w in
             if (Z.of_nat i <? Z.of_nat (count_at board) - 1)%Z
             then Serial_print ", " w else w) w in
  Serial_print CRLF w.

Definition init_sensor (board sensor : nat) (st : State) : State :=
  let st := on_world (Serial_print "  Sensor ") st in
  let st := on_world (Serial_print (print_uint sensor)) st in
  let st := on_world (Serial_print " @ 0x") st in
  let st := on_world (Serial_print (print_hex (address_at board sensor))) st in
  let st := on_world (Serial_print ": ") st in
  let status := status_byte drv board sensor (address_at board sensor) (world st) in
  let st := on_world (mlx_begin drv board sensor (address_at board sensor)) st in
  let st :=
    if (status =? 0)%Z then
      let st := on_world (Serial_println "OK") st in
      let st := on_world (mlx_startBurst board sensor 0xF) st in
      set_initialized board sensor true st
    else
      let st := on_world (Serial_print "FAILED (") st in
      let st := on_world (Serial_print (print_int status)) st in
      let st := on_world (Serial_println ")") st in
      set_initialized board sensor false st in
  on_world (delay 5) st.

Definition init_board (board : nat) (st : State) : State :=
  let st := on_world (tcaSelect (Z.of_nat board)) st in
  let st := on_world (delay 20) st in
  let st := on_world (Serial_print "--- Initializing Board ") st in
  let st := on_world (Serial_print (print_uint board)) st in
  let st := on_world (Serial_print " (") st in
  let st := on_world (Serial_print (classification (board_at board))) st in
  let st := on_world (Serial_print ") - ") st in
  let st := on_world (Serial_print (print_uint (count_at board))) st in
  let st := on_world (Serial_println " sensor(s) ---") st in
  let st := for_range 0 (count_at board) (init_sensor board) st in
  for_range (count_at board) 5
    (fun sensor st => set_initialized board sensor false st) st.

(** The part of [setup] that initialises the sensors of all boards. *)
Definition initializeAll (st : State) : State :=
  for_range 0 NUMBER_OF_BOARDS init_board st.

Definition setup (st : State) : State :=
  let st := on_world (Serial_println
    "Qwiic Mux Shield Multi-Sensor V2 - All Boards Simultaneous Reading") st in
  let st := on_world (delay 10) st in
  let st := on_world (Serial_println "Board Configuration:") st in
  let st := on_world (for_range 0 NUMBER_OF_BOARDS print_board_line) st in
  let st := on_world (Serial_println "------------------------------------") st in
  let st := initializeAll st in
  let st := on_world (Serial_println "All sensors initialized. Mux Shield online.") st in
  let st := for_range 0 NUMBER_OF_BOARDS (fun board st =>
              for_range 0 5 (clear_cell board) st) st in
  let st := on_world (Serial_println "All sensor readings initialized to zero.") st in
  let st := on_world (Serial_println
    (String LF "Data Format: Board#_Sensor#_X, Board#_Sensor#_Y, Board#_Sensor#_Z")) st in
  on_world (Serial_println ("Starting continuous readings..." +:+ str LF)) st.

(** *** [loop], step 1: collect all readings *)

Definition collect_sensor (board sensor : nat) (st : State) : State :=
  if get2 false (sensorIsInitialized st) board sensor then
    let r := sample_of drv board sensor (world st) in
    let st := on_world (mlx_readBurstData drv board sensor) st in
    let st := put_reading board sensor r st in
    set_valid board sensor true st
  else clear_cell board sensor st.

Definition collect_board (board : nat) (st : State) : State :=
  let st := on_world (tcaSelect (Z.of_nat board)) st in
  let st := on_world (delayMicroseconds 100) st in
  let st := for_range 0 (count_at board) (collect_sensor board) st in
  for_range (count_at board) 5 (clear_cell board) st.

Definition collect (st : State) : State :=
  for_range 0 NUMBER_OF_BOARDS collect_board st.

(** *** [loop], step 2: print the frame *)

Inductive Axis : Type := X | Y | Z_.

Definition axis_name (a : Axis) : string :=
  match a with X => "X" | Y => "Y" | Z_ => "Z" end.

Definition axis_of (a : Axis) (r : txyz) : Z :=
  match a with X => x r | Y => y r | Z_ => z r end.

(** The five [Serial.print] calls that write one tag, and the value after it. *)
Definition print_axis (board sensor : nat) (a : Axis) (st : State) : State :=
  let st := on_world (Serial_print "Board") st in
  let st := on_world (Serial_print (print_uint board)) st in
  let st := on_world (Serial_print "Sensor") st in
  let st := on_world (Serial_print (print_uint sensor)) st in
  let st := on_world (Serial_print (axis_name a +:+ ":")) st in
  on_world (Serial_print
    (print_int (axis_of a (get2 zero_txyz (readings (allReadings st)) board sensor)))) st.

(** The local [firstValue] travels with the state. *)
Definition emit_sensor (board sensor : nat) (fst_st : bool * State) : bool * State :=
  let '(firstValue, st) := fst_st in
  let st := if negb firstValue then on_world (Serial_print (str TAB)) st else st in
  let firstValue := false in
  let st := print_axis board sensor X st in
  let st := on_world (Serial_print (str TAB)) st in
  let st := print_axis board sensor Y st in
  let st := on_world (Serial_print (str TAB)) st in
  let st := print_axis board sensor Z_ st in
  (firstValue, st).

Definition emit (st : State) : State :=
  let '(_, st) :=
    for_range 0 NUMBER_OF_BOARDS (fun board acc =>
      for_range 0 (count_at board) (emit_sensor board) acc) (true, st) in
  on_world (Serial_print CRLF) st.

Definition loop (st : State) : State := emit (collect st).

(** *** [printBoardConfig] *)

Definition printBoardConfig (w : World) : World :=
  let w := Serial_println "Current Board Configuration:" w in
  for_range 0 NUMBER_OF_BOARDS (fun board w =>
    let w := Serial_print "Board " w in
    let w := Serial_print (print_uint board) w in
    let w := Serial_print ": " w in
    let w := Serial_print (classification (board_at board)) w in
    let w := Serial_print " (" w in
    let w := Serial_print (print_uint (count_at board)) w in
    let w := Serial_print " sensors)" w in
    Serial_print CRLF w) w.

End Sketch.

(** The globals at power-on: zero-initialised arrays, nothing selected. *)
Definition power_on (cfg : list SensorBoard) : State :=
  mkState (mkWorld 0 0 [] [] EmptyString)
          (new2 (length cfg) 5 false)
          (mkReadings (new2 (length cfg) 5 zero_txyz) (new2 (length cfg) 5 false)).

(** A table the sketch can be compiled with: board indices fit a [byte] and
    no board claims more sensors than the arrays have slots. *)
Definition wf_config (cfg : list SensorBoard) : Prop :=
  length cfg <= 255 /\
  Forall (fun B => numSensors B <= 5 /\ length (addresses B) = 5) cfg.

Definition wf_state (cfg : list SensorBoard) (st : State) : Prop :=
  shape (length cfg) 5 (sensorIsInitialized st) /\
  shape (length cfg) 5 (readings (allReadings st)) /\
  shape (length cfg) 5 (isValid (allReadings st)).

End V2.

(** ** First sketch: uniform boards, readings printed as they are taken *)

Module V1.

Definition NUMBER_OF_BOARDS : nat := 20.
Definition NUMBER_OF_SENSORS_PER_BOARD : nat := 5.

Definition sensorAddresses : list Z := [0x0C; 0x13; 0x12; 0x10; 0x11]%Z.

Definition address_at (sensor : nat) : Z := default 0%Z (sensorAddresses !! sensor).

Record State : Type := mkState {
  world : World;
  data : list (list txyz);
  sensorIsInitialized : list (list bool);
  yOffsets : list Z
}.

Definition on_world (f : World -> World) (st : State) : State :=
  mkState (f (world st)) (data st) (sensorIsInitialized st) (yOffsets st).

Definition set_initialized (board sensor : nat) (v : bool) (st : State) : State :=
  mkState (log (EvFlag board sensor v) (world st)) (data st)
          (set2 (sensorIsInitialized st) board sensor v) (yOffsets st).

Definition put_data (board sensor : nat) (r : txyz) (st : State) : State :=
  mkState (world st) (set2 (data st) board sensor r) (sensorIsInitialized st)
          (yOffsets st).

Section Sketch.

Variable drv : Driver.

(** *** [setup]

    [Serial.begin], [Wire1.begin] and [Wire1.setClock] configure the two
    ports and change nothing the model keeps. *)

Definition init_sensor (board sensor : nat) (st : State) : State :=
  let st := on_world (Serial_print "Attempting to initialize Sensor ") st in
  let st := on_world (Serial_print (print_uint sensor)) st in
  let st := on_world (Serial_print " at address 0x") st in
  let st := on_world (Serial_println (print_hex (address_at sensor))) st in
  let status := status_byte drv board sensor (address_at sensor) (world st) in
  let st := on_world (mlx_begin drv board sensor (address_at sensor)) st in
  let st :=
    if (status =? 0)%Z then
      let st := on_world (Serial_println "Initialization successful!") st in
      let st := on_world (mlx_startBurst board sensor 0xF) st in
      set_initialized board sensor true st
    else
      let st := on_world (Serial_print "Initialization FAILED! Status: ") st in
      let st := on_world (Serial_println (print_int status)) st in
      set_initialized board sensor false st in
  on_world (delay 10) st.

Definition init_board (board : nat) (st : State) : State :=
  let st := on_world (tcaSelect (Z.of_nat board)) st in
  let st := on_world (delay 50) st in
  let st := on_world (Serial_print "--- Initializing sensors on Board ") st in
  let st := on_world (Serial_print (print_uint board)) st in
  let st := on_world (Serial_println " ---") st in
  let st := for_range 0 NUMBER_OF_SENSORS_PER_BOARD (init_sensor board) st in
  on_world (Serial_println "------------------------------------") st.

(** The part of [setup] that initialises the sensors of all boards. *)
Definition initializeAll (st : State) : State :=
  for_range 0 NUMBER_OF_BOARDS init_board st.

Definition setup (st : State) : State :=
  let st := on_world (Serial_println
    "Qwiic Mux Shield Read Example - Single Board Version") st in
  let st := on_world (delay 10) st in
  let st := initializeAll st in
  on_world (Serial_println "All sensors initialized. Mux Shield online.") st.

(** *** [loop] *)

(** ["Board" + String(board) + "SensorX:"] and its two siblings. *)
Definition tag (board : nat) (axis : string) : string :=
  "Board" +:+ print_uint board +:+ "Sensor" +:+ axis +:+ ":".

Definition read_and_print (board sensor : nat) (st : State) : State :=
  let r := sample_of drv board sensor (world st) in
  let st := on_world (mlx_readBurstData drv board sensor) st in
  let st := put_data board sensor r st in
  let st := on_world (Serial_print (tag board "X")) st in
  let st := on_world (Serial_print
              (print_int (x (get2 zero_txyz (data st) board sensor)))) st in
  let st := on_world (Serial_print (str TAB)) st in
  let st := on_world (Serial_print (tag board "Y")) st in
  let st := on_world (Serial_print
              (print_int (y (get2 zero_txyz (data st) board sensor)))) st in
  let st := on_world (Serial_print (str TAB)) st in
  let st := on_world (Serial_print (tag board "Z")) st in
  let st := on_world (Serial_print
              (print_int (z (get2 zero_txyz (data st) board sensor)))) st in
  on_world (Serial_print (str TAB)) st.

Definition print_placeholder (board : nat) (st : State) : State :=
  let st := on_world (Serial_print (print_int 0)) st in
  let st := on_world (Serial_print (str TAB)) st in
  let st := on_world (Serial_print (print_int (default 0%Z (yOffsets st !! board)))) st in
  let st := on_world (Serial_print (str TAB)) st in
  let st := on_world (Serial_print (print_int 0)) st in
  on_world (Serial_print (str TAB)) st.

Definition loop_sensor (board sensor : nat) (st : State) : State :=
  if get2 false (sensorIsInitialized st) board sensor
  then read_and_print board sensor st
  else print_placeholder board st.

Definition loop_board (board : nat) (st : State) : State :=
  let st := on_world (tcaSelect (Z.of_nat board)) st in
  let st := on_world (delay 10) st in
  for_range 0 NUMBER_OF_SENSORS_PER_BOARD (loop_sensor board) st.

Definition loop (st : State) : State :=
  let st := for_range 0 NUMBER_OF_BOARDS loop_board st in
  let st := on_world (Serial_print CRLF) st in
  on_world (delayMicroseconds 500) st.

End Sketch.

(** The globals at power-on: zero-initialised arrays, [yOffsets] all zero. *)
Definition power_on : State :=
  mkState (mkWorld 0 0 [] [] EmptyString)
          (new2 NUMBER_OF_BOARDS NUMBER_OF_SENSORS_PER_BOARD zero_txyz)
          (new2 NUMBER_OF_BOARDS NUMBER_OF_SENSORS_PER_BOARD false)
          (replicate NUMBER_OF_BOARDS 0%Z).

Definition wf_state (st : State) : Prop :=
  shape NUMBER_OF_BOARDS NUMBER_OF_SENSORS_PER_BOARD (data st) /\
  shape NUMBER_OF_BOARDS NUMBER_OF_SENSORS_PER_BOARD (sensorIsInitialized st) /\
  yOffsets st = replicate NUMBER_OF_BOARDS 0%Z.

End V1.

(** ** Scenarios *)

(** A driver whose devices at address 0x0F do not answer. *)
Definition demo_driver : Driver :=
  mkDriver (fun b s chan addr => if (addr =? 0x0F)%Z then 1%Z else 0%Z)
           (fun b s chan => Txyz (Z.of_nat b + 1) (- Z.of_nat s) chan).

(** The registry of the scenario: two boards, two sensors and one sensor. *)
Definition two_boards : list V2.SensorBoard :=
  [ V2.mkBoard 5 2 [0x0C; 0x13; 0; 0; 0]%Z "2X";
    V2.mkBoard 1 1 [0x0F; 0; 0; 0; 0]%Z "1XF" ].

(** The scenario after [setup]: both sensors of board 0 answer, the sensor
    of board 1 does not. *)
Definition two_boards_ready : V2.State :=
  V2.setup two_boards demo_driver (V2.power_on two_boards).

(** The same flags with a buffer full of stale readings marked valid. *)
Definition two_boards_stale : V2.State :=
  V2.mkState (V2.world two_boards_ready)
             (V2.sensorIsInitialized two_boards_ready)
             (V2.mkReadings (new2 2 5 (Txyz 7 8 9)) (new2 2 5 true)).

(** A driver whose devices all answer, and a second set of readings. *)
Definition ok_driver : Driver :=
  mkDriver (fun b s chan addr => 0%Z) (fun b s chan => Txyz 1 2 3).

Definition other_driver : Driver :=
  mkDriver (fun b s chan addr => 0%Z) (fun b s chan => Txyz (-4) 5 600).

(** The first sketch after [setup] with every sensor answering. *)
Definition v1_ready : V1.State := V1.setup ok_driver V1.power_on.

(** A driver whose devices at address 0x13 report status 2. *)
Definition flaky_driver : Driver :=
  mkDriver (fun b s chan addr => if (addr =? 0x13)%Z then 2%Z else 0%Z)
           (fun b s chan => Txyz 10 (Z.of_nat s) (- chan)).

(** The first sketch after [setup] with slot 1 of every board failing. *)
Definition v1_mixed : V1.State := V1.setup flaky_driver V1.power_on.

(** ** Closed forms used in the statements *)

(** Mask in the multiplexer register while board [b] is served by a loop
    that selects the boards in ascending order from 0: boards above 7 are
    ignored by [tcaSelect], which leaves the mask of board 7 in place. *)
Definition chan (b : nat) : Z := (2 ^ Z.of_nat (Nat.min b 7))%Z.

(** What a call [tcaSelect(b)] puts on the bus. *)
Definition select_events (b : nat) : list Event :=
  if b <=? 7 then [EvWire TCAADDR [(2 ^ Z.of_nat b)%Z]] else [].

(** The first [n] slots of board [b], in ascending order. *)
Definition slots (b n : nat) : list (nat * nat) := map (pair b) (seq 0 n).

(** One field of a frame: tag, colon, value. *)
Definition tag_text (b s : nat) (a : V2.Axis) : string :=
  "Board" +:+ print_uint b +:+ "Sensor" +:+ print_uint s +:+ V2.axis_name a.

Definition field_text (b s : nat) (a : V2.Axis) (v : Z) : string :=
  tag_text b s a +:+ ":" +:+ print_int v.

(** The tag of a field is what stands in front of its colon. *)
Definition tag_of (field : string) : string := before ":"%char field.

(** The fields of a printed record: the text in front of the line break,
    cut at the tabs. *)
Definition record_fields (line : string) : list string :=
  split_on TAB (before CR line).

(** Initialisation of one slot: the attempt; on status 0 the burst is
    started and the flag set, otherwise the flag is cleared; then a pause of
    [d] microseconds. *)
Definition init_slot_events (d : Z) (b s : nat) (addr status : Z) : list Event :=
  EvBegin b s addr status ::
  (if (status =? 0)%Z then [EvStartBurst b s 0xF; EvFlag b s true]
   else [EvFlag b s false]) ++ [EvDelay d].

(** What initialisation does for board [b]: the channel is selected, the
    bus settles, the first [n] slots are tried in ascending order, and the
    flags of the slots from [n] up to [m] are cleared. *)
Definition setup_block (d1 d2 : Z) (b n m : nat) (addr status : nat -> Z) : list Event :=
  select_events b ++
  EvDelay d1 ::
  flat_map (fun s => init_slot_events d2 b s (addr s) (status s)) (seq 0 n) ++
  map (fun s => EvFlag b s false) (seq n (m - n)).

(** The endpoints whose initialisation was attempted along a trace. *)
Definition begin_key (e : Event) : option (nat * nat) :=
  match e with EvBegin b s _ _ => Some (b, s) | _ => None end.

Definition begins_of (t : list Event) : list (nat * nat) := omap begin_key t.

(** What one cycle does for board [b]: the channel is selected, the bus is
    given [d] microseconds to settle, and the initialised ones among the
    first [n] slots are read in ascending order. *)
Definition cycle_block (d : Z) (b n : nat) (init : nat -> bool)
    (sample : nat -> txyz) : list Event :=
  select_events b ++
  EvDelay d ::
  map (fun s => EvRead b s (chan b) (sample s)) (List.filter init (seq 0 n)).

(** The same blocks with everything that may differ from board to board
    given as a function of the board. *)
Definition board_cycle (d : nat -> Z) (n : nat -> nat) (init : nat -> nat -> bool)
    (sample : nat -> nat -> txyz) (b : nat) : list Event :=
  cycle_block (d b) b (n b) (init b) (sample b).

Definition board_setup (d1 d2 : Z) (n : nat -> nat) (m : nat)
    (addr status : nat -> nat -> Z) (b : nat) : list Event :=
  setup_block d1 d2 b (n b) m (addr b) (status b).




(** The masks written to the multiplexer along a trace. *)
Definition select_of (e : Event) : option Z :=
  match e with
  | EvWire a bytes => if (a =? TCAADDR)%Z then last bytes else None
  | _ => None
  end.

Definition selects_of (t : list Event) : list Z := omap select_of t.


Module V2Spec.
Import V2.

Section Closed.

Variable cfg : list SensorBoard.

(** A cell of the snapshot buffer. *)
Definition cell (st : State) (b s : nat) : txyz * bool :=
  (get2 zero_txyz (readings (allReadings st)) b s,
   get2 false (isValid (allReadings st)) b s).

Definition initialized (st : State) (b s : nat) : bool :=
  get2 false (sensorIsInitialized st) b s.

(** What a cycle leaves in the cell of slot [s] of board [b]. *)
Definition snapshot_cell (drv : Driver) (st : State) (b s : nat) : txyz * bool :=
  if (s <? count_at cfg b) && initialized st b s
  then (drv_read drv b s (chan b), true)
  else (zero_txyz, false).

(** Everything a cycle does for one board. *)
Definition board_block (drv : Driver) (st : State) (b : nat) : list Event :=
  cycle_block 100 b (count_at cfg b) (initialized st b)
    (fun s => drv_read drv b s (chan b)).

(** Status byte the sketch gets for slot [s] of board [b] while the board
    is being served. *)
Definition status_of (drv : Driver) (b s : nat) : Z :=
  (drv_begin drv b s (chan b) (address_at cfg b s) mod 256)%Z.

(** Flag of an endpoint after initialisation. *)
Definition init_flag (drv : Driver) (b s : nat) : bool :=
  (s <? count_at cfg b) && (status_of drv b s =? 0)%Z.

(** Everything initialisation does for one board. *)
Definition init_block (drv : Driver) (b : nat) : list Event :=
  setup_block 20000 5000 b (count_at cfg b) 5 (address_at cfg b) (status_of drv b).

(** The fields of a frame, board by board and slot by slot. *)
Definition sensor_fields (rd : list (list txyz)) (b s : nat) : list string :=
  map (fun a => field_text b s a (axis_of a (get2 zero_txyz rd b s))) [X; Y; Z_].

Definition frame_fields (rd : list (list txyz)) : list string :=
  flat_map (fun b => flat_map (sensor_fields rd b) (seq 0 (count_at cfg b)))
           (seq 0 (length cfg)).

Definition frame_line (rd : list (list txyz)) : string :=
  String.concat (str TAB) (frame_fields rd) +:+ CRLF.

(** The tags of a frame; they depend on the table alone. *)
Definition frame_tags : list string :=
  flat_map (fun b => flat_map (fun s => map (tag_text b s) [X; Y; Z_])
                              (seq 0 (count_at cfg b)))
           (seq 0 (length cfg)).

(** The local [firstValue] and the state while [loop] prints, after the
    fields [done] have gone out. *)
Definition printed_state (st : State) (done : list string) : bool * State :=
  (match done with [] => true | _ => false end,
   on_world (Serial_print (String.concat (str TAB) done)) st).

(** Several cycles in a row, each with the device readings of its own. *)
Definition cycles (ds : list Driver) (st : State) : State :=
  fold_left (fun st d => loop cfg d st) ds st.

End Closed.
End V2Spec.

Module V1Spec.
Import V1.

Definition initialized (st : State) (b s : nat) : bool :=
  get2 false (sensorIsInitialized st) b s.

Definition status_of (drv : Driver) (b s : nat) : Z :=
  (drv_begin drv b s (chan b) (address_at s) mod 256)%Z.

Definition init_flag (drv : Driver) (b s : nat) : bool :=
  (status_of drv b s =? 0)%Z.

(** Everything initialisation does for one board. *)
Definition init_block (drv : Driver) (b : nat) : list Event :=
  setup_block 50000 10000 b NUMBER_OF_SENSORS_PER_BOARD NUMBER_OF_SENSORS_PER_BOARD
    address_at (status_of drv b).

(** Everything a cycle does on the bus for one board. *)
Definition board_block (drv : Driver) (st : State) (b : nat) : list Event :=
  cycle_block 10000 b NUMBER_OF_SENSORS_PER_BOARD (initialized st b)
    (fun s => drv_read drv b s (chan b)).

(** The three fields an endpoint contributes to a line. *)
Definition sensor_fields (drv : Driver) (st : State) (b s : nat) : list string :=
  if initialized st b s then
    [ tag b "X" +:+ print_int (x (drv_read drv b s (chan b)));
      tag b "Y" +:+ print_int (y (drv_read drv b s (chan b)));
      tag b "Z" +:+ print_int (z (drv_read drv b s (chan b))) ]
  else
    [ print_int 0; print_int (default 0%Z (yOffsets st !! b)); print_int 0 ].

Definition frame_fields (drv : Driver) (st : State) : list string :=
  flat_map (fun b => flat_map (sensor_fields drv st b)
                              (seq 0 NUMBER_OF_SENSORS_PER_BOARD))
           (seq 0 NUMBER_OF_BOARDS).

(** What stands in front of the colon in these fields, or the whole field
    when it has no colon. *)
Definition sensor_tags (st : State) (b s : nat) : list string :=
  if initialized st b s then
    [ "Board" +:+ print_uint b +:+ "SensorX";
      "Board" +:+ print_uint b +:+ "SensorY";
      "Board" +:+ print_uint b +:+ "SensorZ" ]
  else [ "0"; "0"; "0" ].

Definition frame_tags (st : State) : list string :=
  flat_map (fun b => flat_map (sensor_tags st b)
                              (seq 0 NUMBER_OF_SENSORS_PER_BOARD))
           (seq 0 NUMBER_OF_BOARDS).

(** Fields each followed by a tab. *)
Fixpoint tab_terminated (fs : list string) : string :=
  match fs with
  | [] => EmptyString
  | f :: r => f +:+ str TAB +:+ tab_terminated r
  end.

Definition frame_line (drv : Driver) (st : State) : string :=
  tab_terminated (frame_fields drv st) +:+ CRLF.

End V1Spec.

(** What a sketch printed between two states of the world. *)
Fixpoint drop_chars (k : nat) (s : string) : string :=
  match k, s with
  | Datatypes.S k', String _ r => drop_chars k' r
  | _, _ => s
  end.

Definition printed_since (before after : World) : string :=
  drop_chars (String.length (serial before)) (serial after).

(** What a sketch did between two states of the world. *)
Definition events_since (before after : World) : list Event :=
  drop (length (trace before)) (trace after).

(** ** Bus writes, pauses and flag assignments along a trace *)

(** Every transmission on the bus: address and bytes. *)
Definition wire_of (e : Event) : option (Z * list Z) :=
  match e with EvWire a bytes => Some (a, bytes) | _ => None end.

Definition wires_of (t : list Event) : list (Z * list Z) := omap wire_of t.

(** The transmission that enables channel [b] of the multiplexer alone. *)
Definition select_wire (b : nat) : Z * list Z := (TCAADDR, [(2 ^ Z.of_nat b)%Z]).

(** Time spent in [delay] and [delayMicroseconds], in microseconds. *)
Definition pause_of (e : Event) : Z :=
  match e with EvDelay us => us | _ => 0%Z end.

Definition total_pause (t : list Event) : Z :=
  fold_right (fun e acc => (pause_of e + acc)%Z) 0%Z t.

(** The endpoints whose flag was assigned along a trace. *)
Definition flag_key (e : Event) : option (nat * nat) :=
  match e with EvFlag b s _ => Some (b, s) | _ => None end.

Definition flags_of (t : list Event) : list (nat * nat) := omap flag_key t.

(** What belongs to initialisation, and what to acquisition. *)
Definition init_event (e : Event) : bool :=
  match e with
  | EvBegin _ _ _ _ | EvStartBurst _ _ _ | EvFlag _ _ _ => true
  | _ => false
  end.

Definition read_event (e : Event) : bool :=
  match e with EvRead _ _ _ _ => true | _ => false end.

(** A register value with exactly one of the eight channels enabled. *)
Definition one_hot (r : Z) : Prop :=
  exists i, (0 <= i <= 7)%Z /\ r = (2 ^ i)%Z.

(** A run of calls of [tcaSelect]. *)
Definition select_all (calls : list Z) (w : World) : World :=
  fold_left (fun w i => tcaSelect i w) calls w.

(** The channel indices of a run that [tcaSelect] acts on. *)
Definition in_range (calls : list Z) : list Z :=
  List.filter (fun i => negb (7 <? i)%Z) calls.

(** Sum of the values of [f] at 0, ..., [k] - 1. *)
Fixpoint sum_upto (f : nat -> Z) (k : nat) : Z :=
  match k with
  | O => 0%Z
  | Datatypes.S j => (sum_upto f j + f j)%Z
  end.

(** Pieces of text one after the other. *)
Definition text_of (l : list string) : string :=
  fold_right String.append EmptyString l.

(** ** The reports of the second sketch *)

Module V2Report.
Import V2.

Section Texts.

Variable cfg : list SensorBoard.

(** One line of [printBoardConfig]. *)
Definition summary_line (b : nat) : string :=
  "Board " +:+ print_uint b +:+ ": " +:+ classification (board_at cfg b) +:+
  " (" +:+ print_uint (count_at cfg b) +:+ " sensors)" +:+ CRLF.

Definition summary_text : string :=
  "Current Board Configuration:" +:+ CRLF +:+
  text_of (map summary_line (seq 0 (length cfg))).

(** One address of the table as [setup] prints it. *)
Definition address_text (b i : nat) : string :=
  "0x" +:+ print_hex (address_at cfg b i).

(** The line of [setup] that describes one board. *)
Definition config_line (b : nat) : string :=
  "Board " +:+ print_uint b +:+ ": Type " +:+ classification (board_at cfg b) +:+
  ", Sensors: " +:+ print_uint (count_at cfg b) +:+ ", Addresses: " +:+
  String.concat ", " (map (address_text b) (seq 0 (count_at cfg b))) +:+ CRLF.

(** What [setup] prints before it touches the bus. *)
Definition banner_text : string :=
  "Qwiic Mux Shield Multi-Sensor V2 - All Boards Simultaneous Reading" +:+ CRLF +:+
  "Board Configuration:" +:+ CRLF +:+
  text_of (map config_line (seq 0 (length cfg))) +:+
  "------------------------------------" +:+ CRLF.

(** The line of [setup] on the attempt to initialise one slot. *)
Definition slot_report (b s : nat) (status : Z) : string :=
  "  Sensor " +:+ print_uint s +:+ " @ 0x" +:+ print_hex (address_at cfg b s) +:+
  ": " +:+
  (if (status =? 0)%Z then "OK" +:+ CRLF
   else "FAILED (" +:+ print_int status +:+ ")" +:+ CRLF).

(** Heading and slot lines of one board. *)
Definition board_report (status : nat -> Z) (b : nat) : string :=
  "--- Initializing Board " +:+ print_uint b +:+ " (" +:+
  classification (board_at cfg b) +:+ ") - " +:+ print_uint (count_at cfg b) +:+
  " sensor(s) ---" +:+ CRLF +:+
  text_of (map (fun s => slot_report b s (status s)) (seq 0 (count_at cfg b))).

(** What [setup] prints after the last board. *)
Definition closing_text : string :=
  "All sensors initialized. Mux Shield online." +:+ CRLF +:+
  "All sensor readings initialized to zero." +:+ CRLF +:+
  String LF "Data Format: Board#_Sensor#_X, Board#_Sensor#_Y, Board#_Sensor#_Z" +:+ CRLF +:+
  "Starting continuous readings..." +:+ str LF +:+ CRLF.

(** Everything [setup] prints. *)
Definition setup_text (drv : Driver) : string :=
  banner_text +:+
  text_of (map (fun b => board_report (V2Spec.status_of cfg drv b) b)
               (seq 0 (length cfg))) +:+
  closing_text.

(** Sensors in the table, all boards together. *)
Definition sensor_total : nat :=
  fold_right (fun B acc => numSensors B + acc) 0 cfg.

End Texts.
End V2Report.

(** ** The reports of the first sketch *)

Module V1Report.
Import V1.

Definition slot_report (s : nat) (status : Z) : string :=
  "Attempting to initialize Sensor " +:+ print_uint s +:+ " at address 0x" +:+
  print_hex (address_at s) +:+ CRLF +:+
  (if (status =? 0)%Z then "Initialization successful!" +:+ CRLF
   else "Initialization FAILED! Status: " +:+ print_int status +:+ CRLF).

Definition board_report (status : nat -> Z) (b : nat) : string :=
  "--- Initializing sensors on Board " +:+ print_uint b +:+ " ---" +:+ CRLF +:+
  text_of (map (fun s => slot_report s (status s))
               (seq 0 NUMBER_OF_SENSORS_PER_BOARD)) +:+
  "------------------------------------" +:+ CRLF.

Definition setup_text (drv : Driver) : string :=
  "Qwiic Mux Shield Read Example - Single Board Version" +:+ CRLF +:+
  text_of (map (fun b => board_report (V1Spec.status_of drv b) b)
               (seq 0 NUMBER_OF_BOARDS)) +:+
  "All sensors initialized. Mux Shield online." +:+ CRLF.

(** Several cycles in a row, each with the device readings of its own. *)
Definition cycles (ds : list Driver) (st : State) : State :=
  fold_left (fun st d => loop d st) ds st.

(** An entry of the array [data]. *)
Definition datum (st : State) (b s : nat) : txyz :=
  get2 zero_txyz (data st) b s.

End V1Report.

(** * Properties *)

(** ** Counted loops *)

Lemma for_loop_snoc {S : Type} (body : nat -> S -> S) n lo st :
  for_loop lo (Datatypes.S n) body st = body (lo + n) (for_loop lo n body st).
Proof.
  revert lo st. induction n as [|n IH]; intros lo st.
  - simpl. by rewrite Nat.add_0_r.
  - change (for_loop lo (Datatypes.S (Datatypes.S n)) body st)
      with (for_loop (Datatypes.S lo) (Datatypes.S n) body (body lo st)).
    rewrite IH. simpl. by rewrite Nat.add_succ_r.
Qed.

Lemma for_range_empty {S : Type} (body : nat -> S -> S) lo hi st :
  hi <= lo -> for_range lo hi body st = st.
Proof. intros H. unfold for_range. by replace (hi - lo) with 0 by lia. Qed.

Lemma for_range_snoc {S : Type} (body : nat -> S -> S) lo hi st :
  lo <= hi ->
  for_range lo (Datatypes.S hi) body st = body hi (for_range lo hi body st).
Proof.
  intros H. unfold for_range.
  replace (Datatypes.S hi - lo) with (Datatypes.S (hi - lo)) by lia.
  rewrite for_loop_snoc. by replace (lo + (hi - lo)) with hi by lia.
Qed.

(** The loop invariant rule. *)
Lemma for_range_inv {S : Type} (P : nat -> S -> Prop) (body : nat -> S -> S) lo hi st :
  lo <= hi ->
  P lo st ->
  (forall i s, lo <= i < hi -> P i s -> P (Datatypes.S i) (body i s)) ->
  P hi (for_range lo hi body st).
Proof.
  intros Hle H0 Hstep. induction hi as [|hi IH].
  - assert (lo = 0) as -> by lia. by rewrite for_range_empty.
  - destruct (decide (lo = Datatypes.S hi)) as [->|Hne].
    + by rewrite for_range_empty.
    + rewrite for_range_snoc by lia. apply Hstep; [lia|].
      apply IH; [lia|]. intros i s Hi. apply Hstep. lia.
Qed.

Lemma flat_map_seq_S {A : Type} (f : nat -> list A) n :
  flat_map f (seq 0 (Datatypes.S n)) = flat_map f (seq 0 n) ++ f n.
Proof.
  rewrite seq_S, flat_map_app. cbn [flat_map Nat.add]. by rewrite app_nil_r.
Qed.

(** ** Two-dimensional arrays *)

Lemma shape_set2 {A : Type} n m (a : list (list A)) b s v :
  shape n m a -> shape n m (set2 a b s v).
Proof.
  intros [Hn Hm]. split.
  - unfold set2. by rewrite length_alter.
  - apply Forall_lookup. intros i row Hi.
    unfold set2 in Hi. destruct (decide (b = i)) as [->|Hne].
    + rewrite list_lookup_alter_eq in Hi.
      destruct (a !! i) as [r|] eqn:Hr; simplify_eq/=.
      rewrite length_insert.
      exact (Forall_lookup_1 (fun row => length row = m) a i r Hm Hr).
    + rewrite list_lookup_alter_ne in Hi by done.
      exact (Forall_lookup_1 (fun row => length row = m) a i row Hm Hi).
Qed.

Lemma shape_new2 {A : Type} n m (v : A) : shape n m (new2 n m v).
Proof.
  split; unfold new2.
  - apply length_replicate.
  - apply Forall_lookup. intros i row Hi.
    apply lookup_replicate in Hi as [-> _]. apply length_replicate.
Qed.

Lemma shape_row {A : Type} n m (a : list (list A)) b :
  shape n m a -> b < n -> exists row, a !! b = Some row /\ length row = m.
Proof.
  intros [Hn Hm] Hb. destruct (lookup_lt_is_Some_2 a b) as [row Hrow]; [lia|].
  exists row. split; [done|].
  exact (Forall_lookup_1 (fun row => length row = m) a b row Hm Hrow).
Qed.

Lemma get2_set2_eq {A : Type} n m (d : A) (a : list (list A)) b s v :
  shape n m a -> b < n -> s < m -> get2 d (set2 a b s v) b s = v.
Proof.
  intros Hs Hb Hlt. destruct (shape_row n m a b Hs Hb) as (row & Hrow & Hlen).
  unfold get2, set2. rewrite list_lookup_alter_eq, Hrow. simpl.
  rewrite list_lookup_insert_eq by lia. done.
Qed.

Lemma get2_set2_ne {A : Type} (d : A) (a : list (list A)) b s v b' s' :
  (b', s') <> (b, s) -> get2 d (set2 a b s v) b' s' = get2 d a b' s'.
Proof.
  intros Hne. unfold get2, set2. destruct (decide (b = b')) as [->|Hb].
  - rewrite list_lookup_alter_eq. destruct (a !! b') as [row|]; [|done]. simpl.
    rewrite list_lookup_insert_ne; [done|]. congruence.
  - by rewrite list_lookup_alter_ne.
Qed.

Lemma get2_new2 {A : Type} n m (d v : A) b s :
  b < n -> s < m -> get2 d (new2 n m v) b s = v.
Proof.
  intros Hb Hs. unfold get2, new2.
  rewrite lookup_replicate_2 by done. simpl. by rewrite lookup_replicate_2.
Qed.

(** ** Text *)

Lemma sapp_cons c a b : String c a +:+ b = String c (a +:+ b).
Proof. reflexivity. Qed.

Lemma sapp_nil_l a : EmptyString +:+ a = a.
Proof. reflexivity. Qed.

Lemma sapp_nil_r a : a +:+ EmptyString = a.
Proof. induction a as [|c a IH]; [done|]. by rewrite sapp_cons, IH. Qed.

Lemma sapp_assoc a b c : (a +:+ b) +:+ c = a +:+ (b +:+ c).
Proof. induction a as [|h a IH]; [done|]. by rewrite !sapp_cons, IH. Qed.

Lemma lacks_app c a b : lacks c (a +:+ b) = lacks c a && lacks c b.
Proof.
  induction a as [|h a IH]; [done|].
  rewrite sapp_cons. simpl. rewrite IH. by rewrite andb_assoc.
Qed.

Lemma plain_app a b : plain a = true -> plain b = true -> plain (a +:+ b) = true.
Proof.
  unfold plain. rewrite !lacks_app, !andb_true_iff. tauto.
Qed.

Lemma split_on_nonempty sep s : split_on sep s <> [].
Proof.
  destruct s as [|c r]; simpl; [done|].
  destruct (Ascii.eqb c sep); [done|]. by destruct (split_on sep r).
Qed.

Lemma split_on_sep sep a r :
  lacks sep a = true ->
  split_on sep (a +:+ String sep r) = a :: split_on sep r.
Proof.
  induction a as [|c a IH]; intros Ha.
  - rewrite sapp_nil_l. simpl. by rewrite Ascii.eqb_refl.
  - simpl in Ha. apply andb_true_iff in Ha as [Hc Ha].
    rewrite sapp_cons. simpl. apply negb_true_iff in Hc. rewrite Hc.
    by rewrite IH.
Qed.

Lemma split_on_lacks sep a : lacks sep a = true -> split_on sep a = [a].
Proof.
  induction a as [|c a IH]; intros Ha; [done|].
  simpl in Ha. apply andb_true_iff in Ha as [Hc Ha].
  simpl. apply negb_true_iff in Hc. rewrite Hc. by rewrite IH.
Qed.

Lemma before_stop stop a r :
  lacks stop a = true -> before stop (a +:+ String stop r) = a.
Proof.
  induction a as [|c a IH]; intros Ha.
  - rewrite sapp_nil_l. simpl. by rewrite Ascii.eqb_refl.
  - simpl in Ha. apply andb_true_iff in Ha as [Hc Ha].
    rewrite sapp_cons. simpl. apply negb_true_iff in Hc. rewrite Hc.
    by rewrite IH.
Qed.

Lemma lacks_cons_ne c h r :
  h <> c -> lacks c r = true -> lacks c (String h r) = true.
Proof.
  intros Hne Hr. change (negb (Ascii.eqb h c) && lacks c r = true).
  rewrite Hr, andb_true_r. by apply negb_true_iff, Ascii.eqb_neq.
Qed.

Lemma pretty_N_go_lacks c n s :
  numeral_char c -> lacks c s = true -> lacks c (pretty_N_go n s) = true.
Proof.
  intros Hc. revert s. induction (N.lt_wf_0 n) as [n _ IH]; intros s Hs.
  destruct (decide (n = 0)%N) as [->|Hn].
  - by rewrite pretty_N_go_0.
  - rewrite pretty_N_go_step by lia. apply IH.
    + apply N.div_lt; lia.
    + by apply lacks_cons_ne.
Qed.

Lemma pretty_N_lacks c (n : N) :
  numeral_char c -> c <> "0"%char -> lacks c (pretty n) = true.
Proof.
  intros Hc H0. unfold pretty, pretty_N. case_decide.
  - apply lacks_cons_ne; [congruence|done].
  - by apply pretty_N_go_lacks.
Qed.

Lemma print_uint_lacks c n :
  numeral_char c -> c <> "0"%char -> lacks c (print_uint n) = true.
Proof. intros. by apply pretty_N_lacks. Qed.

Lemma print_int_lacks c v :
  numeral_char c -> c <> "0"%char -> c <> "-"%char -> lacks c (print_int v) = true.
Proof.
  intros Hc H0 Hm. unfold print_int. destruct v as [|p|p].
  - apply lacks_cons_ne; [congruence|done].
  - by apply (pretty_N_lacks c (N.pos p)).
  - change (lacks c ("-" +:+ pretty (N.pos p)) = true).
    rewrite lacks_app, (pretty_N_lacks c (N.pos p)) by done.
    rewrite andb_true_r. apply lacks_cons_ne; [congruence|done].
Qed.

Lemma numeral_char_TAB : numeral_char TAB.
Proof. intros d. unfold pretty_N_char. by repeat case_match. Qed.
Lemma numeral_char_CR : numeral_char CR.
Proof. intros d. unfold pretty_N_char. by repeat case_match. Qed.
Lemma numeral_char_LF : numeral_char LF.
Proof. intros d. unfold pretty_N_char. by repeat case_match. Qed.
Lemma numeral_char_colon : numeral_char ":"%char.
Proof. intros d. unfold pretty_N_char. by repeat case_match. Qed.

Lemma print_uint_plain n : plain (print_uint n) = true.
Proof.
  unfold plain.
  rewrite !print_uint_lacks;
    auto using numeral_char_TAB, numeral_char_CR, numeral_char_LF.
Qed.

Lemma print_int_plain v : plain (print_int v) = true.
Proof.
  unfold plain.
  rewrite !print_int_lacks;
    auto using numeral_char_TAB, numeral_char_CR, numeral_char_LF.
Qed.

(** ** The channel selector *)

Lemma shiftl_1_byte i : (0 <= i <= 7)%Z -> (Z.shiftl 1 i mod 256 = 2 ^ i)%Z.
Proof.
  intros Hi. rewrite Z.shiftl_1_l. apply Z.mod_small. split; [lia|].
  apply Z.lt_le_trans with (2 ^ 8)%Z; [|done].
  apply Z.pow_lt_mono_r; lia.
Qed.

Lemma tcaSelect_low i w :
  (0 <= i <= 7)%Z ->
  tcaSelect i w =
  mkWorld (2 ^ i)%Z TCAADDR [] (trace w ++ [EvWire TCAADDR [(2 ^ i)%Z]]) (serial w).
Proof.
  intros Hi. unfold tcaSelect.
  destruct (7 <? i)%Z eqn:Hlt; [lia|].
  unfold Wire1_endTransmission, Wire1_write, Wire1_beginTransmission. simpl.
  rewrite shiftl_1_byte by done. unfold mux_receive. by rewrite Z.eqb_refl.
Qed.

Lemma tcaSelect_high i w : (7 < i)%Z -> tcaSelect i w = w.
Proof. intros Hi. unfold tcaSelect. by destruct (7 <? i)%Z eqn:Hlt; [|lia]. Qed.

(** C2: for every channel index above 7 (an 8-bit value), [tcaSelect] puts
    nothing on the bus and leaves the register of the multiplexer, hence the
    active channel, as it was; so does [tcaSelect(9)] in particular. *)
Theorem tcaSelect_out_of_range_ignored (i : Z) (w : World) :
  (7 < i < 256)%Z ->
  tcaSelect i w = w /\
  trace (tcaSelect i w) = trace w /\
  mux_reg (tcaSelect i w) = mux_reg w /\
  mux_reg (tcaSelect 9 w) = mux_reg w.
Proof.
  intros [Hi _]. rewrite (tcaSelect_high i) by done.
  rewrite (tcaSelect_high 9) by done. done.
Qed.

Lemma tcaSelect_out_of_range_witness :
  let w := tcaSelect 3 (mkWorld 0 0 [] [] EmptyString) in
  mux_reg w = 8%Z /\ mux_reg (tcaSelect 9 w) = 8%Z /\ tcaSelect 200 w = w.
Proof.
  intros w.
  destruct (tcaSelect_out_of_range_ignored 200 w ltac:(lia)) as (H1 & _ & _ & H4).
  split; [reflexivity|]. split; [|exact H1].
  rewrite H4. reflexivity.
Defined.

(** C7: for a channel index from 0 to 7, [tcaSelect] sends the one byte
    [1 << i] to the multiplexer, after which the register has bit [i] set
    and every other bit clear. *)
Theorem tcaSelect_writes_single_bit (i : Z) (w : World) :
  (0 <= i <= 7)%Z ->
  trace (tcaSelect i w) = trace w ++ [EvWire TCAADDR [Z.shiftl 1 i]] /\
  (0 <= Z.shiftl 1 i < 256)%Z /\
  mux_reg (tcaSelect i w) = Z.shiftl 1 i /\
  (forall j, Z.testbit (mux_reg (tcaSelect i w)) j = (j =? i)%Z).
Proof.
  intros Hi. rewrite tcaSelect_low by done. rewrite Z.shiftl_1_l. simpl.
  split; [done|]. split.
  - split; [lia|]. apply Z.lt_le_trans with (2 ^ 8)%Z; [|done].
    apply Z.pow_lt_mono_r; lia.
  - split; [done|]. intros j. destruct (Z.ltb_spec j 0) as [Hj|Hj].
    + rewrite Z.testbit_neg_r by done. symmetry. apply Z.eqb_neq. lia.
    + rewrite Z.pow2_bits_eqb by lia. apply Z.eqb_sym.
Qed.

Lemma tcaSelect_writes_single_bit_witness :
  let w := tcaSelect 5 (mkWorld 1 0 [] [] EmptyString) in
  trace w = [EvWire 112 [32%Z]] /\ mux_reg w = 32%Z /\
  Z.testbit (mux_reg w) 5 = true /\ Z.testbit (mux_reg w) 0 = false.
Proof.
  intros w.
  destruct (tcaSelect_writes_single_bit 5 (mkWorld 1 0 [] [] EmptyString)
              ltac:(lia)) as (H1 & _ & H3 & H4).
  split; [exact H1|]. split; [exact H3|].
  split; [exact (H4 5%Z)|exact (H4 0%Z)].
Defined.

(** [tcaSelect] as the board loops call it. *)
Lemma tcaSelect_board b w :
  b <= 255 ->
  trace (tcaSelect (Z.of_nat b) w) = trace w ++ select_events b /\
  serial (tcaSelect (Z.of_nat b) w) = serial w /\
  mux_reg (tcaSelect (Z.of_nat b) w) =
    (if b <=? 7 then (2 ^ Z.of_nat b)%Z else mux_reg w).
Proof.
  intros Hb. unfold select_events. destruct (Nat.leb_spec b 7) as [Hle|Hgt].
  - by rewrite tcaSelect_low by lia.
  - rewrite tcaSelect_high by lia. by rewrite app_nil_r.
Qed.

Lemma chan_step b w :
  b <= 255 ->
  (b <> 0 -> mux_reg w = chan (b - 1)) ->
  mux_reg (tcaSelect (Z.of_nat b) w) = chan b.
Proof.
  intros Hb Hprev. destruct (tcaSelect_board b w Hb) as (_ & _ & ->).
  unfold chan in *. destruct (Nat.leb_spec b 7) as [Hle|Hgt].
  - by rewrite Nat.min_l by lia.
  - rewrite Hprev by lia. by rewrite !Nat.min_r by lia.
Qed.

(** ** Second sketch: one acquisition cycle *)

Section V2_cycle.
Import V2 V2Spec.

Variable cfg : list SensorBoard.
Variable drv : Driver.

Lemma v2_count_le b : wf_config cfg -> b < length cfg -> count_at cfg b <= 5.
Proof.
  intros [_ Hall] Hb. unfold count_at, board_at.
  destruct (lookup_lt_is_Some_2 cfg b Hb) as [B HB]. rewrite HB. simpl.
  exact (proj1 (Forall_lookup_1 _ cfg b B Hall HB)).
Qed.

Lemma v2_clear_cell_spec b s st :
  wf_state cfg st -> b < length cfg -> s < 5 ->
  world (clear_cell b s st) = world st /\
  sensorIsInitialized (clear_cell b s st) = sensorIsInitialized st /\
  wf_state cfg (clear_cell b s st) /\
  cell (clear_cell b s st) b s = (zero_txyz, false) /\
  (forall b' s', (b', s') <> (b, s) ->
     cell (clear_cell b s st) b' s' = cell st b' s').
Proof.
  intros (Hf & Hr & Hv) Hb Hs.
  unfold clear_cell, upd_reading, put_reading, set_valid, cell, wf_state. simpl.
  split; [done|]. split; [done|]. split.
  { split; [done|]. split; by repeat apply shape_set2. }
  split.
  - rewrite (get2_set2_eq (length cfg) 5) by (done || by repeat apply shape_set2).
    rewrite (get2_set2_eq (length cfg) 5) by (done || by repeat apply shape_set2).
    rewrite (get2_set2_eq (length cfg) 5) by (done || by repeat apply shape_set2).
    rewrite (get2_set2_eq (length cfg) 5) by done.
    done.
  - intros b' s' Hne. by rewrite !get2_set2_ne by done.
Qed.

Lemma v2_collect_sensor_spec b s st :
  wf_state cfg st -> b < length cfg -> s < 5 ->
  let st' := collect_sensor drv b s st in
  let c := mux_reg (world st) in
  sensorIsInitialized st' = sensorIsInitialized st /\
  wf_state cfg st' /\
  mux_reg (world st') = c /\
  serial (world st') = serial (world st) /\
  trace (world st') = trace (world st) ++
    (if initialized st b s then [EvRead b s c (drv_read drv b s c)] else []) /\
  cell st' b s =
    (if initialized st b s then (drv_read drv b s c, true) else (zero_txyz, false)) /\
  (forall b' s', (b', s') <> (b, s) -> cell st' b' s' = cell st b' s').
Proof.
  intros Hwf Hb Hs st' c. subst st' c. unfold collect_sensor, initialized.
  destruct (get2 false (sensorIsInitialized st) b s) eqn:Hinit.
  - destruct Hwf as (Hf & Hr & Hv).
    unfold put_reading, set_valid, cell, wf_state, sample_of. simpl.
    split; [done|]. split.
    { split; [done|]. split; by apply shape_set2. }
    split; [done|]. split; [done|]. split; [done|]. split.
    + by rewrite !(get2_set2_eq (length cfg) 5) by done.
    + intros b' s' Hne. by rewrite !get2_set2_ne by done.
  - destruct (v2_clear_cell_spec b s st Hwf Hb Hs) as (Hw & Hfl & Hwf' & Hc & Ho).
    rewrite Hw, app_nil_r. done.
Qed.

(** The loop over the configured slots of one board. *)
Lemma v2_collect_slots_spec b n st :
  wf_state cfg st -> b < length cfg -> n <= 5 ->
  let st' := for_range 0 n (collect_sensor drv b) st in
  let c := mux_reg (world st) in
  sensorIsInitialized st' = sensorIsInitialized st /\
  wf_state cfg st' /\
  mux_reg (world st') = c /\
  serial (world st') = serial (world st) /\
  trace (world st') = trace (world st) ++
    map (fun s => EvRead b s c (drv_read drv b s c))
        (List.filter (initialized st b) (seq 0 n)) /\
  (forall s, s < n -> cell st' b s =
     if initialized st b s then (drv_read drv b s c, true) else (zero_txyz, false)) /\
  (forall b' s', b' <> b \/ n <= s' -> cell st' b' s' = cell st b' s').
Proof.
  intros Hwf Hb Hn. simpl.
  apply (for_range_inv (fun j st' =>
    j <= n ->
    sensorIsInitialized st' = sensorIsInitialized st /\
    wf_state cfg st' /\
    mux_reg (world st') = mux_reg (world st) /\
    serial (world st') = serial (world st) /\
    trace (world st') = trace (world st) ++
      map (fun s => EvRead b s (mux_reg (world st))
                      (drv_read drv b s (mux_reg (world st))))
          (List.filter (initialized st b) (seq 0 j)) /\
    (forall s, s < j -> cell st' b s =
       if initialized st b s then (drv_read drv b s (mux_reg (world st)), true)
       else (zero_txyz, false)) /\
    (forall b' s', b' <> b \/ j <= s' -> cell st' b' s' = cell st b' s')));
    [lia| |  |lia].
  - intros _. simpl. rewrite app_nil_r. split_and!; try done. intros; lia.
  - intros j s [_ Hj] IH _.
    destruct IH as (Hfl & Hwf' & Hmux & Hser & Htr & Hdone & Hrest); [lia|].
    destruct (v2_collect_sensor_spec b j s Hwf' Hb ltac:(lia))
      as (Hfl1 & Hwf1 & Hmux1 & Hser1 & Htr1 & Hc1 & Ho1).
    assert (Hi : initialized s b j = initialized st b j).
    { unfold initialized. by rewrite Hfl. }
    rewrite Hi, Hmux in *.
    split_and!; try congruence.
    + rewrite Htr1, Htr, seq_S, List.filter_app, map_app, <- app_assoc. simpl.
      by destruct (initialized st b j).
    + intros s' Hs'. destruct (decide (s' = j)) as [->|Hne]; [done|].
      rewrite Ho1 by congruence. apply Hdone. lia.
    + intros b' s' Hcase. rewrite Ho1; [apply Hrest; lia|].
      intros [= -> ->]. lia.
Qed.

(** The loop that clears the slots a board does not have. *)
Lemma v2_clear_slots_spec b n st :
  wf_state cfg st -> b < length cfg -> n <= 5 ->
  let st' := for_range n 5 (clear_cell b) st in
  world st' = world st /\
  sensorIsInitialized st' = sensorIsInitialized st /\
  wf_state cfg st' /\
  (forall s, n <= s < 5 -> cell st' b s = (zero_txyz, false)) /\
  (forall b' s', b' <> b \/ s' < n \/ 5 <= s' -> cell st' b' s' = cell st b' s').
Proof.
  intros Hwf Hb Hn. simpl.
  apply (for_range_inv (fun j st' =>
    world st' = world st /\
    sensorIsInitialized st' = sensorIsInitialized st /\
    wf_state cfg st' /\
    (forall s, n <= s < j -> cell st' b s = (zero_txyz, false)) /\
    (forall b' s', b' <> b \/ s' < n \/ j <= s' -> cell st' b' s' = cell st b' s')));
    [lia| | ].
  - split_and!; try done. intros; lia.
  - intros j s Hj (Hw & Hfl & Hwf' & Hdone & Hrest).
    destruct (v2_clear_cell_spec b j s Hwf' Hb ltac:(lia))
      as (Hw1 & Hfl1 & Hwf1 & Hc1 & Ho1).
    split_and!; try congruence.
    + intros s' Hs'. destruct (decide (s' = j)) as [->|Hne]; [done|].
      rewrite Ho1 by congruence. apply Hdone. lia.
    + intros b' s' Hcase. rewrite Ho1; [apply Hrest; lia|].
      intros [= -> ->]. lia.
Qed.

Lemma v2_collect_board_spec b st :
  wf_config cfg -> wf_state cfg st -> b < length cfg ->
  (b <> 0 -> mux_reg (world st) = chan (b - 1)) ->
  let st' := collect_board cfg drv b st in
  sensorIsInitialized st' = sensorIsInitialized st /\
  wf_state cfg st' /\
  mux_reg (world st') = chan b /\
  serial (world st') = serial (world st) /\
  trace (world st') = trace (world st) ++ board_block cfg drv st b /\
  (forall s, s < 5 -> cell st' b s = snapshot_cell cfg drv st b s) /\
  (forall b' s', b' <> b -> cell st' b' s' = cell st b' s').
Proof.
  intros Hcfg Hwf Hb Hprev. simpl. unfold collect_board.
  assert (Hb255 : b <= 255) by (destruct Hcfg; lia).
  pose proof (v2_count_le b Hcfg Hb) as Hn.
  destruct (tcaSelect_board b (world st) Hb255) as (Htr0 & Hser0 & _).
  pose proof (chan_step b (world st) Hb255 Hprev) as Hmux0.
  set (st2 := on_world (delayMicroseconds 100)
                (on_world (tcaSelect (Z.of_nat b)) st)).
  assert (Hwf2 : wf_state cfg st2) by exact Hwf.
  destruct (v2_collect_slots_spec b (count_at cfg b) st2 Hwf2 Hb Hn)
    as (Hfl3 & Hwf3 & Hmux3 & Hser3 & Htr3 & Hc3 & Ho3).
  destruct (v2_clear_slots_spec b (count_at cfg b) _ Hwf3 Hb Hn)
    as (Hw4 & Hfl4 & Hwf4 & Hc4 & Ho4).
  assert (Hmux2 : mux_reg (world st2) = chan b) by exact Hmux0.
  rewrite Hmux2 in *.
  split_and!.
  - by rewrite Hfl4, Hfl3.
  - done.
  - by rewrite Hw4, Hmux3.
  - by rewrite Hw4, Hser3.
  - rewrite Hw4, Htr3. unfold board_block, cycle_block. simpl.
    rewrite Htr0, <- !app_assoc. done.
  - intros s Hs. unfold snapshot_cell.
    destruct (Nat.ltb_spec s (count_at cfg b)) as [Hlt|Hge]; simpl.
    + rewrite Ho4 by lia. by rewrite Hc3.
    + apply Hc4. lia.
  - intros b' s' Hne. rewrite Ho4 by tauto. apply Ho3. tauto.
Qed.

(** Closed form of step 1 of [loop]. *)
Lemma v2_collect_spec st :
  wf_config cfg -> wf_state cfg st ->
  let st' := collect cfg drv st in
  sensorIsInitialized st' = sensorIsInitialized st /\
  wf_state cfg st' /\
  serial (world st') = serial (world st) /\
  trace (world st') =
    trace (world st) ++ flat_map (board_block cfg drv st) (seq 0 (length cfg)) /\
  (forall b s, b < length cfg -> s < 5 ->
     cell st' b s = snapshot_cell cfg drv st b s).
Proof.
  intros Hcfg Hwf. simpl. unfold collect, NUMBER_OF_BOARDS.
  cut (length cfg <= length cfg ->
    sensorIsInitialized (for_range 0 (length cfg) (collect_board cfg drv) st)
      = sensorIsInitialized st /\
    wf_state cfg (for_range 0 (length cfg) (collect_board cfg drv) st) /\
    (length cfg <> 0 ->
       mux_reg (world (for_range 0 (length cfg) (collect_board cfg drv) st))
         = chan (length cfg - 1)) /\
    serial (world (for_range 0 (length cfg) (collect_board cfg drv) st))
      = serial (world st) /\
    trace (world (for_range 0 (length cfg) (collect_board cfg drv) st)) =
      trace (world st) ++
      flat_map (board_block cfg drv st) (seq 0 (length cfg)) /\
    (forall b s, b < length cfg -> s < 5 ->
       cell (for_range 0 (length cfg) (collect_board cfg drv) st) b s
         = snapshot_cell cfg drv st b s)).
  { intros H. destruct (H (le_n _)) as (? & ? & _ & ? & ? & ?). done. }
  apply (for_range_inv (fun k st' =>
    k <= length cfg ->
    sensorIsInitialized st' = sensorIsInitialized st /\
    wf_state cfg st' /\
    (k <> 0 -> mux_reg (world st') = chan (k - 1)) /\
    serial (world st') = serial (world st) /\
    trace (world st') =
      trace (world st) ++ flat_map (board_block cfg drv st) (seq 0 k) /\
    (forall b s, b < k -> s < 5 -> cell st' b s = snapshot_cell cfg drv st b s)));
    [lia| | ].
  - intros _. simpl. rewrite app_nil_r. split_and!; try done. intros; lia.
  - intros k s [_ Hk] IH _.
    destruct IH as (Hfl & Hwf' & Hmux & Hser & Htr & Hdone); [lia|].
    destruct (v2_collect_board_spec k s Hcfg Hwf' Hk Hmux)
      as (Hfl1 & Hwf1 & Hmux1 & Hser1 & Htr1 & Hc1 & Ho1).
    assert (Hblock : board_block cfg drv s k = board_block cfg drv st k).
    { unfold board_block, initialized. by rewrite Hfl. }
    assert (Hsnap : forall j, snapshot_cell cfg drv s k j = snapshot_cell cfg drv st k j).
    { intros j. unfold snapshot_cell, initialized. by rewrite Hfl. }
    split_and!; try congruence.
    + intros _. by replace (Datatypes.S k - 1) with k by lia.
    + by rewrite Htr1, Htr, Hblock, flat_map_seq_S, <- app_assoc.
    + intros b j Hbk Hj. destruct (decide (b = k)) as [->|Hne].
      * by rewrite Hc1, Hsnap.
      * rewrite Ho1 by done. apply Hdone; lia.
Qed.

End V2_cycle.

(** ** Second sketch: the frame *)

Lemma concat_snoc sep (l : list string) (f : string) :
  String.concat sep (l ++ [f]) =
  match l with [] => f | _ => String.concat sep l +:+ sep +:+ f end.
Proof.
  induction l as [|a l IH]; [done|].
  destruct l as [|b l]; [done|].
  change (a +:+ sep +:+ String.concat sep ((b :: l) ++ [f]) =
          (a +:+ sep +:+ String.concat sep (b :: l)) +:+ sep +:+ f).
  rewrite IH. by rewrite !sapp_assoc.
Qed.

Lemma concat_snoc_ne sep (l : list string) (f : string) :
  l <> [] -> String.concat sep (l ++ [f]) = String.concat sep l +:+ sep +:+ f.
Proof. intros Hl. rewrite concat_snoc. by destruct l. Qed.

Lemma snoc_not_nil {A : Type} (l : list A) (a : A) : l ++ [a] <> [].
Proof. by destruct l. Qed.

Section V2_frame.
Import V2 V2Spec.

Variable cfg : list SensorBoard.

Lemma v2_printed_nil st : printed_state st [] = (true, st).
Proof.
  unfold printed_state, on_world, Serial_print. simpl. rewrite sapp_nil_r.
  by destruct st as [[] ? ?].
Qed.

Lemma v2_print_print s1 s2 st :
  on_world (Serial_print s2) (on_world (Serial_print s1) st) =
  on_world (Serial_print (s1 +:+ s2)) st.
Proof. unfold on_world, Serial_print. simpl. by rewrite sapp_assoc. Qed.

Lemma v2_print_axis_printed b s a pre st :
  print_axis b s a (on_world (Serial_print pre) st) =
  on_world (Serial_print
    (pre +:+ field_text b s a
       (axis_of a (get2 zero_txyz (readings (allReadings st)) b s)))) st.
Proof.
  unfold print_axis. rewrite !v2_print_print.
  unfold field_text, tag_text. by rewrite !sapp_assoc.
Qed.

Lemma v2_emit_sensor_printed b s st done :
  emit_sensor b s (printed_state st done) =
  printed_state st (done ++ sensor_fields (readings (allReadings st)) b s).
Proof.
  unfold sensor_fields. cbn [map].
  set (f1 := field_text b s X _). set (f2 := field_text b s Y _).
  set (f3 := field_text b s Z_ _).
  replace (done ++ [f1; f2; f3]) with (((done ++ [f1]) ++ [f2]) ++ [f3])
    by (by rewrite <- !app_assoc).
  unfold printed_state at 2.
  rewrite 2!concat_snoc_ne by apply snoc_not_nil. rewrite concat_snoc.
  destruct (((done ++ [f1]) ++ [f2]) ++ [f3]) eqn:H3; [by apply snoc_not_nil in H3|].
  clear H3. subst f1 f2 f3.
  unfold printed_state, emit_sensor.
  destruct done as [|f0 done]; cbn [negb].
  - rewrite (v2_print_axis_printed b s X), v2_print_print.
    rewrite (v2_print_axis_printed b s Y), v2_print_print.
    rewrite (v2_print_axis_printed b s Z_).
    cbn [String.concat]. by rewrite !sapp_nil_l, !sapp_assoc.
  - rewrite v2_print_print.
    rewrite (v2_print_axis_printed b s X), v2_print_print.
    rewrite (v2_print_axis_printed b s Y), v2_print_print.
    rewrite (v2_print_axis_printed b s Z_).
    by rewrite !sapp_assoc.
Qed.

Lemma v2_emit_slots_printed b n st done :
  for_range 0 n (emit_sensor b) (printed_state st done) =
  printed_state st
    (done ++ flat_map (sensor_fields (readings (allReadings st)) b) (seq 0 n)).
Proof.
  induction n as [|n IH].
  - rewrite for_range_empty by lia. simpl. by rewrite app_nil_r.
  - rewrite for_range_snoc by lia. rewrite IH, v2_emit_sensor_printed.
    by rewrite flat_map_seq_S, <- app_assoc.
Qed.

Lemma v2_emit_boards_printed k st :
  for_range 0 k (fun board acc =>
      for_range 0 (count_at cfg board) (emit_sensor board) acc) (true, st) =
  printed_state st
    (flat_map (fun b => flat_map (sensor_fields (readings (allReadings st)) b)
                                 (seq 0 (count_at cfg b))) (seq 0 k)).
Proof.
  induction k as [|k IH].
  - rewrite for_range_empty by lia. simpl. by rewrite v2_printed_nil.
  - rewrite for_range_snoc by lia. rewrite IH, v2_emit_slots_printed.
    by rewrite flat_map_seq_S.
Qed.

(** Closed form of step 2 of [loop]: one line is appended to the sink and
    nothing else changes. *)
Lemma v2_emit_spec st :
  emit cfg st = on_world (Serial_print (frame_line cfg (readings (allReadings st)))) st.
Proof.
  unfold emit, NUMBER_OF_BOARDS. rewrite v2_emit_boards_printed.
  unfold printed_state, frame_line, frame_fields, on_world, Serial_print. simpl.
  by rewrite sapp_assoc.
Qed.

End V2_frame.

(** ** Order of the bus traffic of a cycle *)

Section Cycle_trace.

Variable d : nat -> Z.
Variable n : nat -> nat.
Variable init : nat -> nat -> bool.
Variable sample : nat -> nat -> txyz.

Local Abbreviation blk := (board_cycle d n init sample).


Lemma selects_of_reads b (l : list nat) :
  selects_of (map (fun s => EvRead b s (chan b) (sample b s)) l) = [].
Proof. by induction l. Qed.


Lemma selects_of_blk b :
  selects_of (blk b) = if b <=? 7 then [(2 ^ Z.of_nat b)%Z] else [].
Proof.
  unfold board_cycle, cycle_block, select_events, selects_of.
  destruct (b <=? 7); simpl; by rewrite (selects_of_reads b).
Qed.






(** Which reads a cycle holds. *)
Lemma read_in_cycle k b s c r :
  In (EvRead b s c r) (flat_map blk (seq 0 k)) <->
  b < k /\ s < n b /\ init b s = true /\ c = chan b /\ r = sample b s.
Proof.
  rewrite in_flat_map. split.
  - intros (b' & Hb' & Hin). apply in_seq in Hb'.
    unfold board_cycle, cycle_block, select_events in Hin.
    apply in_app_or in Hin as [Hin|Hin].
    { destruct (b' <=? 7); simpl in Hin; [|done]. by destruct Hin. }
    destruct Hin as [Hin|Hin]; [done|].
    apply in_map_iff in Hin as (s' & Heq & Hs'). simplify_eq.
    apply filter_In in Hs' as [Hs' Hi]. apply in_seq in Hs'.
    split_and!; [lia|lia|done|done|done].
  - intros (Hb & Hs & Hi & -> & ->). exists b. split; [apply in_seq; lia|].
    unfold board_cycle, cycle_block. apply in_or_app. right. right.
    apply in_map_iff. exists s. split; [done|].
    apply filter_In. split; [apply in_seq; lia|done].
Qed.

End Cycle_trace.

(** ** Second sketch: initialisation *)

Section V2_setup.
Import V2 V2Spec.

Variable cfg : list SensorBoard.
Variable drv : Driver.

Lemma v2_init_sensor_spec b s st :
  wf_state cfg st -> b < length cfg -> s < 5 ->
  let st' := init_sensor cfg drv b s st in
  let status :=
    (drv_begin drv b s (mux_reg (world st)) (address_at cfg b s) mod 256)%Z in
  wf_state cfg st' /\
  allReadings st' = allReadings st /\
  mux_reg (world st') = mux_reg (world st) /\
  trace (world st') = trace (world st) ++
    init_slot_events 5000 b s (address_at cfg b s) status /\
  initialized st' b s = (status =? 0)%Z /\
  (forall b' s', (b', s') <> (b, s) -> initialized st' b' s' = initialized st b' s').
Proof.
  intros (Hf & Hr & Hv) Hb Hs. cbv zeta. unfold init_sensor, status_byte.
  cbv zeta. cbn [world on_world Serial_print mux_reg].
  unfold init_slot_events.
  destruct (drv_begin drv b s (mux_reg (world st)) (address_at cfg b s) mod 256 =? 0)%Z;
    unfold wf_state, initialized;
    cbn [world on_world set_initialized sensorIsInitialized allReadings
         Serial_print Serial_println mlx_begin mlx_startBurst delay log
         mux_reg trace status_byte];
    (split_and!;
      [ by apply shape_set2 | done | done | done | done
      | by rewrite <- ?app_assoc
      | by rewrite (get2_set2_eq (length cfg) 5)
      | by intros b' s' Hne; rewrite get2_set2_ne ]).
Qed.

Lemma v2_init_slots_spec b n st :
  wf_state cfg st -> b < length cfg -> n <= 5 ->
  let st' := for_range 0 n (init_sensor cfg drv b) st in
  let status s :=
    (drv_begin drv b s (mux_reg (world st)) (address_at cfg b s) mod 256)%Z in
  wf_state cfg st' /\
  allReadings st' = allReadings st /\
  mux_reg (world st') = mux_reg (world st) /\
  trace (world st') = trace (world st) ++
    flat_map (fun s => init_slot_events 5000 b s (address_at cfg b s) (status s))
             (seq 0 n) /\
  (forall s, s < n -> initialized st' b s = (status s =? 0)%Z) /\
  (forall b' s', b' <> b \/ n <= s' -> initialized st' b' s' = initialized st b' s').
Proof.
  intros Hwf Hb Hn. cbv zeta.
  apply (for_range_inv (fun j st' =>
    j <= n ->
    wf_state cfg st' /\
    allReadings st' = allReadings st /\
    mux_reg (world st') = mux_reg (world st) /\
    trace (world st') = trace (world st) ++
      flat_map (fun s => init_slot_events 5000 b s (address_at cfg b s)
                  (drv_begin drv b s (mux_reg (world st)) (address_at cfg b s) mod 256)%Z)
               (seq 0 j) /\
    (forall s, s < j -> initialized st' b s =
       (drv_begin drv b s (mux_reg (world st)) (address_at cfg b s) mod 256 =? 0)%Z) /\
    (forall b' s', b' <> b \/ j <= s' -> initialized st' b' s' = initialized st b' s')));
    [lia| | |lia].
  - intros _. cbn [seq flat_map]. rewrite app_nil_r. split_and!; try done.
    intros; lia.
  - intros j s [_ Hj] IH _.
    destruct IH as (Hwf' & Hrd & Hmux & Htr & Hdone & Hrest); [lia|].
    destruct (v2_init_sensor_spec b j s Hwf' Hb ltac:(lia))
      as (Hwf1 & Hrd1 & Hmux1 & Htr1 & Hf1 & Ho1).
    rewrite Hmux in *.
    split_and!; try congruence.
    + by rewrite Htr1, Htr, flat_map_seq_S, <- app_assoc.
    + intros s' Hs'. destruct (decide (s' = j)) as [->|Hne]; [done|].
      rewrite Ho1 by congruence. apply Hdone. lia.
    + intros b' s' Hcase. rewrite Ho1; [apply Hrest; lia|].
      intros [= -> ->]. lia.
Qed.

Lemma v2_init_unused_spec b n st :
  wf_state cfg st -> b < length cfg -> n <= 5 ->
  let st' := for_range n 5 (fun sensor st => set_initialized b sensor false st) st in
  wf_state cfg st' /\
  allReadings st' = allReadings st /\
  mux_reg (world st') = mux_reg (world st) /\
  trace (world st') = trace (world st) ++
    map (fun s => EvFlag b s false) (seq n (5 - n)) /\
  (forall s, n <= s < 5 -> initialized st' b s = false) /\
  (forall b' s', b' <> b \/ s' < n \/ 5 <= s' ->
     initialized st' b' s' = initialized st b' s').
Proof.
  intros Hwf Hb Hn. cbv zeta.
  apply (for_range_inv (fun j st' =>
    wf_state cfg st' /\
    allReadings st' = allReadings st /\
    mux_reg (world st') = mux_reg (world st) /\
    trace (world st') = trace (world st) ++
      map (fun s => EvFlag b s false) (seq n (j - n)) /\
    (forall s, n <= s < j -> initialized st' b s = false) /\
    (forall b' s', b' <> b \/ s' < n \/ j <= s' ->
       initialized st' b' s' = initialized st b' s'))); [lia| | ].
  - replace (n - n) with 0 by lia. cbn [seq map]. rewrite app_nil_r.
    split_and!; try done. intros; lia.
  - intros j s Hj ((Hf & Hr & Hv) & Hrd & Hmux & Htr & Hdone & Hrest).
    unfold wf_state, initialized in *.
    cbn [set_initialized sensorIsInitialized allReadings world log trace mux_reg].
    split_and!; try done.
    + by apply shape_set2.
    + rewrite Htr. replace (Datatypes.S j - n) with (Datatypes.S (j - n)) by lia.
      rewrite seq_S, map_app, <- app_assoc. cbn [map].
      by replace (n + (j - n)) with j by lia.
    + intros s' Hs'. destruct (decide (s' = j)) as [->|Hne].
      * rewrite (get2_set2_eq (length cfg) 5); [done..|lia].
      * rewrite get2_set2_ne by congruence. apply Hdone. lia.
    + intros b' s' Hcase. rewrite get2_set2_ne; [apply Hrest; lia|].
      intros [= -> ->]. lia.
Qed.

Lemma v2_init_board_spec b st :
  wf_config cfg -> wf_state cfg st -> b < length cfg ->
  (b <> 0 -> mux_reg (world st) = chan (b - 1)) ->
  let st' := init_board cfg drv b st in
  wf_state cfg st' /\
  allReadings st' = allReadings st /\
  mux_reg (world st') = chan b /\
  trace (world st') = trace (world st) ++ init_block cfg drv b /\
  (forall s, s < 5 -> initialized st' b s = init_flag cfg drv b s) /\
  (forall b' s', b' <> b -> initialized st' b' s' = initialized st b' s').
Proof.
  intros Hcfg Hwf Hb Hprev. cbv zeta. unfold init_board. cbv zeta.
  assert (Hb255 : b <= 255) by (destruct Hcfg; lia).
  pose proof (v2_count_le cfg b Hcfg Hb) as Hn.
  destruct (tcaSelect_board b (world st) Hb255) as (Htr0 & _ & _).
  pose proof (chan_step b (world st) Hb255 Hprev) as Hmux0.
  match goal with
  | |- context [for_range 0 (count_at cfg b) (init_sensor cfg drv b) ?s] =>
      set (st2 := s)
  end.
  assert (Hwf2 : wf_state cfg st2) by exact Hwf.
  assert (Hmux2 : mux_reg (world st2) = chan b) by exact Hmux0.
  assert (Htr2 : trace (world st2) =
                 trace (world st) ++ select_events b ++ [EvDelay 20000]).
  { subst st2. cbn [world on_world Serial_print Serial_println delay log trace].
    by rewrite Htr0, <- app_assoc. }
  assert (Hi2 : forall b' s', initialized st2 b' s' = initialized st b' s') by done.
  assert (Hrd2 : allReadings st2 = allReadings st) by done.
  clearbody st2.
  destruct (v2_init_slots_spec b (count_at cfg b) st2 Hwf2 Hb Hn)
    as (Hwf3 & Hrd3 & Hmux3 & Htr3 & Hf3 & Ho3).
  destruct (v2_init_unused_spec b (count_at cfg b) _ Hwf3 Hb Hn)
    as (Hwf4 & Hrd4 & Hmux4 & Htr4 & Hf4 & Ho4).
  rewrite Hmux2 in *.
  split_and!.
  - done.
  - congruence.
  - by rewrite Hmux4, Hmux3.
  - rewrite Htr4, Htr3, Htr2. unfold init_block, setup_block, status_of.
    by rewrite <- !app_assoc.
  - intros s Hs. unfold init_flag, status_of.
    destruct (Nat.ltb_spec s (count_at cfg b)) as [Hlt|Hge]; simpl.
    + rewrite Ho4 by lia. by rewrite Hf3.
    + apply Hf4. lia.
  - intros b' s' Hne. rewrite Ho4 by tauto. rewrite Ho3 by tauto. apply Hi2.
Qed.

(** Closed form of the initialisation of all boards. *)
Lemma v2_initializeAll_spec st :
  wf_config cfg -> wf_state cfg st ->
  let st' := initializeAll cfg drv st in
  wf_state cfg st' /\
  allReadings st' = allReadings st /\
  trace (world st') =
    trace (world st) ++ flat_map (init_block cfg drv) (seq 0 (length cfg)) /\
  (forall b s, b < length cfg -> s < 5 ->
     initialized st' b s = init_flag cfg drv b s).
Proof.
  intros Hcfg Hwf. cbv zeta. unfold initializeAll, NUMBER_OF_BOARDS.
  cut (length cfg <= length cfg ->
    wf_state cfg (for_range 0 (length cfg) (init_board cfg drv) st) /\
    allReadings (for_range 0 (length cfg) (init_board cfg drv) st) = allReadings st /\
    (length cfg <> 0 ->
       mux_reg (world (for_range 0 (length cfg) (init_board cfg drv) st))
         = chan (length cfg - 1)) /\
    trace (world (for_range 0 (length cfg) (init_board cfg drv) st)) =
      trace (world st) ++ flat_map (init_block cfg drv) (seq 0 (length cfg)) /\
    (forall b s, b < length cfg -> s < 5 ->
       initialized (for_range 0 (length cfg) (init_board cfg drv) st) b s
         = init_flag cfg drv b s)).
  { intros H. destruct (H (le_n _)) as (? & ? & _ & ? & ?). done. }
  apply (for_range_inv (fun k st' =>
    k <= length cfg ->
    wf_state cfg st' /\
    allReadings st' = allReadings st /\
    (k <> 0 -> mux_reg (world st') = chan (k - 1)) /\
    trace (world st') =
      trace (world st) ++ flat_map (init_block cfg drv) (seq 0 k) /\
    (forall b s, b < k -> s < 5 -> initialized st' b s = init_flag cfg drv b s)));
    [lia| | ].
  - intros _. cbn [seq flat_map]. rewrite app_nil_r. split_and!; try done.
    intros; lia.
  - intros k s [_ Hk] IH _.
    destruct IH as (Hwf' & Hrd & Hmux & Htr & Hdone); [lia|].
    destruct (v2_init_board_spec k s Hcfg Hwf' Hk Hmux)
      as (Hwf1 & Hrd1 & Hmux1 & Htr1 & Hf1 & Ho1).
    split_and!; try congruence.
    + intros _. by replace (Datatypes.S k - 1) with k by lia.
    + by rewrite Htr1, Htr, flat_map_seq_S, <- app_assoc.
    + intros b j Hbk Hj. destruct (decide (b = k)) as [->|Hne].
      * by apply Hf1.
      * rewrite Ho1 by done. apply Hdone; lia.
Qed.

(** The banner leaves bus and driver alone. *)
Lemma v2_print_board_line_quiet b w :
  trace (print_board_line cfg b w) = trace w /\
  mux_reg (print_board_line cfg b w) = mux_reg w.
Proof.
  unfold print_board_line. cbv zeta.
  cbn [Serial_print trace mux_reg].
  apply (for_range_inv (fun (_ : nat) w' =>
    trace w' = trace _ /\ mux_reg w' = mux_reg _)); [lia|done|].
  intros i w' _ [Ht Hm]. by destruct (_ <? _)%Z.
Qed.

Lemma v2_banner_quiet k w :
  trace (for_range 0 k (print_board_line cfg) w) = trace w /\
  mux_reg (for_range 0 k (print_board_line cfg) w) = mux_reg w.
Proof.
  apply (for_range_inv (fun (_ : nat) w' =>
    trace w' = trace w /\ mux_reg w' = mux_reg w)); [lia|done|].
  intros i w' _ [Ht Hm].
  destruct (v2_print_board_line_quiet i w') as [-> ->]. done.
Qed.

(** Zeroing the snapshot buffer at the end of [setup]. *)
Lemma v2_zero_buffer_spec k st :
  wf_state cfg st -> k <= length cfg ->
  let st' := for_range 0 k (fun board st => for_range 0 5 (clear_cell board) st) st in
  wf_state cfg st' /\
  world st' = world st /\
  sensorIsInitialized st' = sensorIsInitialized st /\
  (forall b s, b < k -> s < 5 -> cell st' b s = (zero_txyz, false)).
Proof.
  intros Hwf Hk. cbv zeta.
  apply (for_range_inv (fun j st' =>
    j <= k ->
    wf_state cfg st' /\
    world st' = world st /\
    sensorIsInitialized st' = sensorIsInitialized st /\
    (forall b s, b < j -> s < 5 -> cell st' b s = (zero_txyz, false))));
    [lia| | |lia].
  - intros _. split_and!; try done. intros; lia.
  - intros j s [_ Hj] IH _. destruct IH as (Hwf' & Hw & Hfl & Hdone); [lia|].
    destruct (v2_clear_slots_spec cfg j 0 s Hwf' ltac:(lia) ltac:(lia))
      as (Hw1 & Hfl1 & Hwf1 & Hc1 & Ho1).
    split_and!; try congruence.
    intros b i Hb Hi. destruct (decide (b = j)) as [->|Hne].
    + apply Hc1. lia.
    + rewrite Ho1 by tauto. apply Hdone; lia.
Qed.

(** Closed form of [setup]. *)
Lemma v2_setup_spec st :
  wf_config cfg -> wf_state cfg st ->
  let st' := setup cfg drv st in
  wf_state cfg st' /\
  trace (world st') =
    trace (world st) ++
    EvDelay 10000 :: flat_map (init_block cfg drv) (seq 0 (length cfg)) /\
  (forall b s, b < length cfg -> s < 5 ->
     initialized st' b s = init_flag cfg drv b s) /\
  (forall b s, b < length cfg -> s < 5 -> cell st' b s = (zero_txyz, false)).
Proof.
  intros Hcfg Hwf. cbv zeta. unfold setup. cbv zeta.
  match goal with
  | |- context [initializeAll cfg drv ?s] => set (st1 := s)
  end.
  assert (Hwf1 : wf_state cfg st1) by exact Hwf.
  assert (Htr1 : trace (world st1) = trace (world st) ++ [EvDelay 10000]).
  { subst st1. cbn [world on_world Serial_print Serial_println trace].
    rewrite (proj1 (v2_banner_quiet _ _)). done. }
  clearbody st1.
  destruct (v2_initializeAll_spec st1 Hcfg Hwf1) as (Hwf2 & Hrd2 & Htr2 & Hf2).
  match goal with
  | |- context [for_range 0 (NUMBER_OF_BOARDS cfg) _ ?s] => set (st3 := s)
  end.
  assert (Hwf3 : wf_state cfg st3) by exact Hwf2.
  destruct (v2_zero_buffer_spec (length cfg) st3 Hwf3 (le_n _))
    as (Hwf4 & Hw4 & Hfl4 & Hc4).
  unfold NUMBER_OF_BOARDS.
  split_and!.
  - exact Hwf4.
  - cbn [world on_world Serial_print Serial_println trace]. rewrite Hw4.
    subst st3. cbn [world on_world Serial_print Serial_println trace].
    rewrite Htr2, Htr1, <- app_assoc. done.
  - intros b s Hb Hs. unfold initialized.
    cbn [sensorIsInitialized on_world]. rewrite Hfl4.
    by apply Hf2.
  - intros b s Hb Hs. by apply Hc4.
Qed.

End V2_setup.

Section V2_loop.
Import V2 V2Spec.

Variable cfg : list SensorBoard.

(** Closed form of one pass of [loop]. *)
Lemma v2_loop_spec drv st :
  wf_config cfg -> wf_state cfg st ->
  let st' := loop cfg drv st in
  sensorIsInitialized st' = sensorIsInitialized st /\
  wf_state cfg st' /\
  trace (world st') =
    trace (world st) ++ flat_map (board_block cfg drv st) (seq 0 (length cfg)) /\
  (forall b s, b < length cfg -> s < 5 ->
     cell st' b s = snapshot_cell cfg drv st b s) /\
  serial (world st') =
    serial (world st) +:+ frame_line cfg (readings (allReadings st')).
Proof.
  intros Hcfg Hwf. cbv zeta. unfold loop. rewrite v2_emit_spec.
  destruct (v2_collect_spec cfg drv st Hcfg Hwf) as (Hfl & Hwf' & Hser & Htr & Hc).
  split_and!; try done.
  cbn [world on_world Serial_print serial allReadings]. by rewrite Hser.
Qed.

Lemma v2_cycles_spec ds st :
  wf_config cfg -> wf_state cfg st ->
  sensorIsInitialized (cycles cfg ds st) = sensorIsInitialized st /\
  wf_state cfg (cycles cfg ds st).
Proof.
  intros Hcfg. revert st. induction ds as [|d ds IH]; intros st Hwf; [done|].
  destruct (v2_loop_spec d st Hcfg Hwf) as (Hfl & Hwf' & _).
  destruct (IH _ Hwf') as [Hfl2 Hwf2]. simpl. split; [congruence|done].
Qed.

End V2_loop.

(** ** First sketch: one acquisition cycle *)

Lemma tab_terminated_app fs gs :
  V1Spec.tab_terminated (fs ++ gs) =
  V1Spec.tab_terminated fs +:+ V1Spec.tab_terminated gs.
Proof.
  induction fs as [|f fs IH]; [done|].
  cbn [app V1Spec.tab_terminated]. by rewrite IH, !sapp_assoc.
Qed.

Section V1_cycle.
Import V1 V1Spec.

Variable drv : Driver.

Lemma v1_print_print s1 s2 st :
  on_world (Serial_print s2) (on_world (Serial_print s1) st) =
  on_world (Serial_print (s1 +:+ s2)) st.
Proof. unfold on_world, Serial_print. simpl. by rewrite sapp_assoc. Qed.

Lemma v1_loop_sensor_spec b s st :
  shape NUMBER_OF_BOARDS NUMBER_OF_SENSORS_PER_BOARD (data st) ->
  b < NUMBER_OF_BOARDS -> s < NUMBER_OF_SENSORS_PER_BOARD ->
  let st' := loop_sensor drv b s st in
  let c := mux_reg (world st) in
  sensorIsInitialized st' = sensorIsInitialized st /\
  yOffsets st' = yOffsets st /\
  shape NUMBER_OF_BOARDS NUMBER_OF_SENSORS_PER_BOARD (data st') /\
  mux_reg (world st') = c /\
  trace (world st') = trace (world st) ++
    (if initialized st b s then [EvRead b s c (drv_read drv b s c)] else []) /\
  serial (world st') = serial (world st) +:+
    tab_terminated
      (if initialized st b s then
         [ tag b "X" +:+ print_int (x (drv_read drv b s c));
           tag b "Y" +:+ print_int (y (drv_read drv b s c));
           tag b "Z" +:+ print_int (z (drv_read drv b s c)) ]
       else [ print_int 0; print_int (default 0%Z (yOffsets st !! b)); print_int 0 ]).
Proof.
  intros Hd Hb Hs. cbv zeta. unfold loop_sensor, initialized.
  destruct (get2 false (sensorIsInitialized st) b s).
  - unfold read_and_print. cbv zeta.
    cbn [world on_world put_data data sensorIsInitialized yOffsets
         Serial_print mlx_readBurstData log mux_reg trace serial].
    rewrite !(get2_set2_eq NUMBER_OF_BOARDS NUMBER_OF_SENSORS_PER_BOARD) by done.
    split_and!; try done; [by apply shape_set2|].
    unfold sample_of. cbn [tab_terminated]. by rewrite !sapp_assoc, sapp_nil_r.
  - unfold print_placeholder. cbv zeta.
    cbn [world on_world data sensorIsInitialized yOffsets
         Serial_print mux_reg trace serial].
    rewrite app_nil_r. split_and!; try done.
    cbn [tab_terminated]. by rewrite !sapp_assoc, sapp_nil_r.
Qed.

Lemma v1_loop_slots_spec b n st :
  shape NUMBER_OF_BOARDS NUMBER_OF_SENSORS_PER_BOARD (data st) ->
  b < NUMBER_OF_BOARDS -> n <= NUMBER_OF_SENSORS_PER_BOARD ->
  let st' := for_range 0 n (loop_sensor drv b) st in
  let c := mux_reg (world st) in
  sensorIsInitialized st' = sensorIsInitialized st /\
  yOffsets st' = yOffsets st /\
  shape NUMBER_OF_BOARDS NUMBER_OF_SENSORS_PER_BOARD (data st') /\
  mux_reg (world st') = c /\
  trace (world st') = trace (world st) ++
    map (fun s => EvRead b s c (drv_read drv b s c))
        (List.filter (initialized st b) (seq 0 n)) /\
  serial (world st') = serial (world st) +:+
    tab_terminated (flat_map (fun s =>
      if initialized st b s then
         [ tag b "X" +:+ print_int (x (drv_read drv b s c));
           tag b "Y" +:+ print_int (y (drv_read drv b s c));
           tag b "Z" +:+ print_int (z (drv_read drv b s c)) ]
      else [ print_int 0; print_int (default 0%Z (yOffsets st !! b)); print_int 0 ])
      (seq 0 n)).
Proof.
  intros Hd Hb Hn. cbv zeta.
  apply (for_range_inv (fun j st' =>
    j <= n ->
    sensorIsInitialized st' = sensorIsInitialized st /\
    yOffsets st' = yOffsets st /\
    shape NUMBER_OF_BOARDS NUMBER_OF_SENSORS_PER_BOARD (data st') /\
    mux_reg (world st') = mux_reg (world st) /\
    trace (world st') = trace (world st) ++
      map (fun s => EvRead b s (mux_reg (world st))
                      (drv_read drv b s (mux_reg (world st))))
          (List.filter (initialized st b) (seq 0 j)) /\
    serial (world st') = serial (world st) +:+
      tab_terminated (flat_map (fun s =>
        if initialized st b s then
           [ tag b "X" +:+ print_int (x (drv_read drv b s (mux_reg (world st))));
             tag b "Y" +:+ print_int (y (drv_read drv b s (mux_reg (world st))));
             tag b "Z" +:+ print_int (z (drv_read drv b s (mux_reg (world st)))) ]
        else [ print_int 0; print_int (default 0%Z (yOffsets st !! b)); print_int 0 ])
        (seq 0 j)))); [lia| | |lia].
  - intros _. cbn [seq flat_map List.filter map tab_terminated].
    rewrite app_nil_r, sapp_nil_r. done.
  - intros j s [_ Hj] IH _.
    destruct IH as (Hfl & Hy & Hd' & Hmux & Htr & Hser); [lia|].
    destruct (v1_loop_sensor_spec b j s Hd' Hb ltac:(lia))
      as (Hfl1 & Hy1 & Hd1 & Hmux1 & Htr1 & Hser1).
    assert (Hi : initialized s b j = initialized st b j).
    { unfold initialized. by rewrite Hfl. }
    rewrite Hi, Hmux, Hy in *.
    split_and!; try congruence.
    + rewrite Htr1, Htr, seq_S, List.filter_app, map_app, <- app_assoc. simpl.
      by destruct (initialized st b j).
    + rewrite Hser1, Hser, flat_map_seq_S, tab_terminated_app.
      by rewrite sapp_assoc.
Qed.

Lemma v1_loop_board_spec b st :
  shape NUMBER_OF_BOARDS NUMBER_OF_SENSORS_PER_BOARD (data st) ->
  b < NUMBER_OF_BOARDS ->
  (b <> 0 -> mux_reg (world st) = chan (b - 1)) ->
  let st' := loop_board drv b st in
  sensorIsInitialized st' = sensorIsInitialized st /\
  yOffsets st' = yOffsets st /\
  shape NUMBER_OF_BOARDS NUMBER_OF_SENSORS_PER_BOARD (data st') /\
  mux_reg (world st') = chan b /\
  trace (world st') = trace (world st) ++ board_block drv st b /\
  serial (world st') = serial (world st) +:+
    tab_terminated (flat_map (sensor_fields drv st b)
                             (seq 0 NUMBER_OF_SENSORS_PER_BOARD)).
Proof.
  intros Hd Hb Hprev. cbv zeta. unfold loop_board. cbv zeta.
  assert (Hb255 : b <= 255) by (unfold NUMBER_OF_BOARDS in Hb; lia).
  destruct (tcaSelect_board b (world st) Hb255) as (Htr0 & Hser0 & _).
  pose proof (chan_step b (world st) Hb255 Hprev) as Hmux0.
  set (st2 := on_world (delay 10) (on_world (tcaSelect (Z.of_nat b)) st)).
  assert (Hd2 : shape NUMBER_OF_BOARDS NUMBER_OF_SENSORS_PER_BOARD (data st2))
    by exact Hd.
  destruct (v1_loop_slots_spec b NUMBER_OF_SENSORS_PER_BOARD st2 Hd2 Hb (le_n _))
    as (Hfl3 & Hy3 & Hd3 & Hmux3 & Htr3 & Hser3).
  assert (Hmux2 : mux_reg (world st2) = chan b) by exact Hmux0.
  rewrite Hmux2 in *.
  split_and!; try done.
  - rewrite Htr3. unfold board_block, cycle_block.
    cbn [st2 world on_world delay log trace].
    rewrite Htr0, <- !app_assoc. done.
  - rewrite Hser3. cbn [st2 world on_world delay log serial]. by rewrite Hser0.
Qed.

Lemma v1_loop_boards_spec k st :
  shape NUMBER_OF_BOARDS NUMBER_OF_SENSORS_PER_BOARD (data st) ->
  k <= NUMBER_OF_BOARDS ->
  let st' := for_range 0 k (loop_board drv) st in
  sensorIsInitialized st' = sensorIsInitialized st /\
  yOffsets st' = yOffsets st /\
  shape NUMBER_OF_BOARDS NUMBER_OF_SENSORS_PER_BOARD (data st') /\
  (k <> 0 -> mux_reg (world st') = chan (k - 1)) /\
  trace (world st') =
    trace (world st) ++ flat_map (board_block drv st) (seq 0 k) /\
  serial (world st') = serial (world st) +:+
    tab_terminated (flat_map (fun b => flat_map (sensor_fields drv st b)
                                (seq 0 NUMBER_OF_SENSORS_PER_BOARD))
                             (seq 0 k)).
Proof.
  intros Hd Hk. cbv zeta.
  apply (for_range_inv (fun j st' =>
    j <= k ->
    sensorIsInitialized st' = sensorIsInitialized st /\
    yOffsets st' = yOffsets st /\
    shape NUMBER_OF_BOARDS NUMBER_OF_SENSORS_PER_BOARD (data st') /\
    (j <> 0 -> mux_reg (world st') = chan (j - 1)) /\
    trace (world st') =
      trace (world st) ++ flat_map (board_block drv st) (seq 0 j) /\
    serial (world st') = serial (world st) +:+
      tab_terminated (flat_map (fun b => flat_map (sensor_fields drv st b)
                                  (seq 0 NUMBER_OF_SENSORS_PER_BOARD))
                               (seq 0 j)))); [lia| | |lia].
  - intros _. cbn [seq flat_map tab_terminated].
    rewrite app_nil_r, sapp_nil_r. split_and!; try done.
  - intros j s [_ Hj] IH _.
    destruct IH as (Hfl & Hy' & Hd' & Hmux & Htr & Hser); [lia|].
    destruct (v1_loop_board_spec j s Hd' ltac:(lia) Hmux)
      as (Hfl1 & Hy1 & Hd1 & Hmux1 & Htr1 & Hser1).
    assert (Hblock : board_block drv s j = board_block drv st j).
    { unfold board_block, initialized. by rewrite Hfl. }
    assert (Hfields : forall i, sensor_fields drv s j i = sensor_fields drv st j i).
    { intros i. unfold sensor_fields, initialized. by rewrite Hfl, Hy'. }
    split_and!; try congruence.
    + intros _. by replace (Datatypes.S j - 1) with j by lia.
    + by rewrite Htr1, Htr, Hblock, flat_map_seq_S, <- app_assoc.
    + rewrite Hser1, Hser, flat_map_seq_S, tab_terminated_app, sapp_assoc.
      by rewrite (flat_map_ext _ _ Hfields).
Qed.

(** Closed form of one pass of [loop]. *)
Lemma v1_loop_spec st :
  wf_state st ->
  let st' := loop drv st in
  sensorIsInitialized st' = sensorIsInitialized st /\
  wf_state st' /\
  trace (world st') =
    trace (world st) ++
    flat_map (board_block drv st) (seq 0 NUMBER_OF_BOARDS) ++ [EvDelay 500] /\
  serial (world st') = serial (world st) +:+ frame_line drv st.
Proof.
  intros (Hd & Hf & Hy). cbv zeta. unfold loop. cbv zeta.
  destruct (v1_loop_boards_spec NUMBER_OF_BOARDS st Hd (le_n _))
    as (Hfl' & Hy' & Hd' & _ & Htr' & Hser').
  revert Hfl' Hy' Hd' Htr' Hser'.
  generalize (for_range 0 NUMBER_OF_BOARDS (loop_board drv) st).
  intros st1 Hfl' Hy' Hd' Htr' Hser'.
  unfold wf_state.
  cbn [world on_world Serial_print delayMicroseconds log trace serial
       sensorIsInitialized data yOffsets].
  split_and!.
  - exact Hfl'.
  - exact Hd'.
  - rewrite Hfl'. exact Hf.
  - rewrite Hy'. exact Hy.
  - rewrite Htr', <- app_assoc. reflexivity.
  - rewrite Hser'. unfold frame_line, frame_fields. rewrite sapp_assoc.
    reflexivity.
Qed.

End V1_cycle.

(** ** First sketch: initialisation *)

Section V1_setup.
Import V1 V1Spec.

Variable drv : Driver.

Lemma v1_init_sensor_spec b s st :
  shape NUMBER_OF_BOARDS NUMBER_OF_SENSORS_PER_BOARD (sensorIsInitialized st) ->
  b < NUMBER_OF_BOARDS -> s < NUMBER_OF_SENSORS_PER_BOARD ->
  let st' := init_sensor drv b s st in
  let status := (drv_begin drv b s (mux_reg (world st)) (address_at s) mod 256)%Z in
  shape NUMBER_OF_BOARDS NUMBER_OF_SENSORS_PER_BOARD (sensorIsInitialized st') /\
  data st' = data st /\
  yOffsets st' = yOffsets st /\
  mux_reg (world st') = mux_reg (world st) /\
  trace (world st') = trace (world st) ++
    init_slot_events 10000 b s (address_at s) status /\
  initialized st' b s = (status =? 0)%Z /\
  (forall b' s', (b', s') <> (b, s) -> initialized st' b' s' = initialized st b' s').
Proof.
  intros Hf Hb Hs. cbv zeta. unfold init_sensor, status_byte.
  cbv zeta. cbn [world on_world Serial_print Serial_println mux_reg].
  unfold init_slot_events.
  destruct (drv_begin drv b s (mux_reg (world st)) (address_at s) mod 256 =? 0)%Z;
    unfold initialized;
    cbn [world on_world set_initialized sensorIsInitialized data yOffsets
         Serial_print Serial_println mlx_begin mlx_startBurst delay log
         mux_reg trace status_byte];
    (split_and!;
      [ by apply shape_set2 | done | done | done
      | by rewrite <- ?app_assoc
      | by rewrite (get2_set2_eq NUMBER_OF_BOARDS NUMBER_OF_SENSORS_PER_BOARD)
      | by intros b' s' Hne; rewrite get2_set2_ne ]).
Qed.

Lemma v1_init_slots_spec b n st :
  shape NUMBER_OF_BOARDS NUMBER_OF_SENSORS_PER_BOARD (sensorIsInitialized st) ->
  b < NUMBER_OF_BOARDS -> n <= NUMBER_OF_SENSORS_PER_BOARD ->
  let st' := for_range 0 n (init_sensor drv b) st in
  let status s := (drv_begin drv b s (mux_reg (world st)) (address_at s) mod 256)%Z in
  shape NUMBER_OF_BOARDS NUMBER_OF_SENSORS_PER_BOARD (sensorIsInitialized st') /\
  data st' = data st /\
  yOffsets st' = yOffsets st /\
  mux_reg (world st') = mux_reg (world st) /\
  trace (world st') = trace (world st) ++
    flat_map (fun s => init_slot_events 10000 b s (address_at s) (status s))
             (seq 0 n) /\
  (forall s, s < n -> initialized st' b s = (status s =? 0)%Z) /\
  (forall b' s', b' <> b \/ n <= s' -> initialized st' b' s' = initialized st b' s').
Proof.
  intros Hf Hb Hn. cbv zeta.
  apply (for_range_inv (fun j st' =>
    j <= n ->
    shape NUMBER_OF_BOARDS NUMBER_OF_SENSORS_PER_BOARD (sensorIsInitialized st') /\
    data st' = data st /\
    yOffsets st' = yOffsets st /\
    mux_reg (world st') = mux_reg (world st) /\
    trace (world st') = trace (world st) ++
      flat_map (fun s => init_slot_events 10000 b s (address_at s)
                  (drv_begin drv b s (mux_reg (world st)) (address_at s) mod 256)%Z)
               (seq 0 j) /\
    (forall s, s < j -> initialized st' b s =
       (drv_begin drv b s (mux_reg (world st)) (address_at s) mod 256 =? 0)%Z) /\
    (forall b' s', b' <> b \/ j <= s' -> initialized st' b' s' = initialized st b' s')));
    [lia| | |lia].
  - intros _. cbn [seq flat_map]. rewrite app_nil_r. split_and!; try done.
    intros; lia.
  - intros j s [_ Hj] IH _.
    destruct IH as (Hf' & Hd & Hy & Hmux & Htr & Hdone & Hrest); [lia|].
    destruct (v1_init_sensor_spec b j s Hf' Hb ltac:(lia))
      as (Hf1 & Hd1 & Hy1 & Hmux1 & Htr1 & Hi1 & Ho1).
    rewrite Hmux in *.
    split_and!; try congruence.
    + by rewrite Htr1, Htr, flat_map_seq_S, <- app_assoc.
    + intros s' Hs'. destruct (decide (s' = j)) as [->|Hne]; [done|].
      rewrite Ho1 by congruence. apply Hdone. lia.
    + intros b' s' Hcase. rewrite Ho1; [apply Hrest; lia|].
      intros [= -> ->]. lia.
Qed.

Lemma v1_init_board_spec b st :
  shape NUMBER_OF_BOARDS NUMBER_OF_SENSORS_PER_BOARD (sensorIsInitialized st) ->
  b < NUMBER_OF_BOARDS ->
  (b <> 0 -> mux_reg (world st) = chan (b - 1)) ->
  let st' := init_board drv b st in
  shape NUMBER_OF_BOARDS NUMBER_OF_SENSORS_PER_BOARD (sensorIsInitialized st') /\
  data st' = data st /\
  yOffsets st' = yOffsets st /\
  mux_reg (world st') = chan b /\
  trace (world st') = trace (world st) ++ init_block drv b /\
  (forall s, s < NUMBER_OF_SENSORS_PER_BOARD ->
     initialized st' b s = init_flag drv b s) /\
  (forall b' s', b' <> b -> initialized st' b' s' = initialized st b' s').
Proof.
  intros Hf Hb Hprev. cbv zeta. unfold init_board. cbv zeta.
  assert (Hb255 : b <= 255) by (unfold NUMBER_OF_BOARDS in Hb; lia).
  destruct (tcaSelect_board b (world st) Hb255) as (Htr0 & _ & _).
  pose proof (chan_step b (world st) Hb255 Hprev) as Hmux0.
  match goal with
  | |- context [for_range 0 NUMBER_OF_SENSORS_PER_BOARD (init_sensor drv b) ?s] =>
      set (st2 := s)
  end.
  assert (Hf2 : shape NUMBER_OF_BOARDS NUMBER_OF_SENSORS_PER_BOARD
                  (sensorIsInitialized st2)) by exact Hf.
  assert (Hmux2 : mux_reg (world st2) = chan b) by exact Hmux0.
  assert (Htr2 : trace (world st2) =
                 trace (world st) ++ select_events b ++ [EvDelay 50000]).
  { subst st2. cbn [world on_world Serial_print Serial_println delay log trace].
    by rewrite Htr0, <- app_assoc. }
  assert (Hi2 : forall b' s', initialized st2 b' s' = initialized st b' s') by done.
  assert (Hd2 : data st2 = data st) by done.
  assert (Hy2 : yOffsets st2 = yOffsets st) by done.
  clearbody st2.
  destruct (v1_init_slots_spec b NUMBER_OF_SENSORS_PER_BOARD st2 Hf2 Hb (le_n _))
    as (Hf3 & Hd3 & Hy3 & Hmux3 & Htr3 & Hi3 & Ho3).
  revert Hf3 Hd3 Hy3 Hmux3 Htr3 Hi3 Ho3.
  generalize (for_range 0 NUMBER_OF_SENSORS_PER_BOARD (init_sensor drv b) st2).
  intros st3 Hf3 Hd3 Hy3 Hmux3 Htr3 Hi3 Ho3.
  rewrite Hmux2 in *. unfold initialized in *.
  cbn [world on_world Serial_print Serial_println trace mux_reg
       sensorIsInitialized data yOffsets].
  split_and!.
  - done.
  - congruence.
  - congruence.
  - done.
  - rewrite Htr3, Htr2. unfold init_block, setup_block, status_of.
    rewrite Nat.sub_diag. cbn [seq map]. rewrite app_nil_r.
    by rewrite <- !app_assoc.
  - intros s Hs. unfold init_flag, status_of. by apply Hi3.
  - intros b' s' Hne. rewrite Ho3 by tauto. apply Hi2.
Qed.

Lemma v1_init_boards_spec k st :
  shape NUMBER_OF_BOARDS NUMBER_OF_SENSORS_PER_BOARD (sensorIsInitialized st) ->
  k <= NUMBER_OF_BOARDS ->
  let st' := for_range 0 k (init_board drv) st in
  shape NUMBER_OF_BOARDS NUMBER_OF_SENSORS_PER_BOARD (sensorIsInitialized st') /\
  data st' = data st /\
  yOffsets st' = yOffsets st /\
  (k <> 0 -> mux_reg (world st') = chan (k - 1)) /\
  trace (world st') = trace (world st) ++ flat_map (init_block drv) (seq 0 k) /\
  (forall b s, b < k -> s < NUMBER_OF_SENSORS_PER_BOARD ->
     initialized st' b s = init_flag drv b s).
Proof.
  intros Hf Hk. cbv zeta.
  apply (for_range_inv (fun j st' =>
    j <= k ->
    shape NUMBER_OF_BOARDS NUMBER_OF_SENSORS_PER_BOARD (sensorIsInitialized st') /\
    data st' = data st /\
    yOffsets st' = yOffsets st /\
    (j <> 0 -> mux_reg (world st') = chan (j - 1)) /\
    trace (world st') = trace (world st) ++ flat_map (init_block drv) (seq 0 j) /\
    (forall b s, b < j -> s < NUMBER_OF_SENSORS_PER_BOARD ->
       initialized st' b s = init_flag drv b s))); [lia| | |lia].
  - intros _. cbn [seq flat_map]. rewrite app_nil_r. split_and!; try done.
    intros; lia.
  - intros j s [_ Hj] IH _.
    destruct IH as (Hf' & Hd & Hy & Hmux & Htr & Hdone); [lia|].
    destruct (v1_init_board_spec j s Hf' ltac:(lia) Hmux)
      as (Hf1 & Hd1 & Hy1 & Hmux1 & Htr1 & Hi1 & Ho1).
    split_and!; try congruence.
    + intros _. by replace (Datatypes.S j - 1) with j by lia.
    + by rewrite Htr1, Htr, flat_map_seq_S, <- app_assoc.
    + intros b i Hbj Hi. destruct (decide (b = j)) as [->|Hne].
      * by apply Hi1.
      * rewrite Ho1 by done. apply Hdone; lia.
Qed.

(** Closed form of the initialisation and of [setup]. *)
Lemma v1_initializeAll_spec st :
  wf_state st ->
  let st' := initializeAll drv st in
  wf_state st' /\
  trace (world st') =
    trace (world st) ++ flat_map (init_block drv) (seq 0 NUMBER_OF_BOARDS) /\
  (forall b s, b < NUMBER_OF_BOARDS -> s < NUMBER_OF_SENSORS_PER_BOARD ->
     initialized st' b s = init_flag drv b s).
Proof.
  intros (Hd & Hf & Hy). cbv zeta. unfold initializeAll.
  destruct (v1_init_boards_spec NUMBER_OF_BOARDS st Hf (le_n _))
    as (Hf' & Hd' & Hy' & _ & Htr' & Hi').
  revert Hf' Hd' Hy' Htr' Hi'.
  generalize (for_range 0 NUMBER_OF_BOARDS (init_board drv) st).
  intros st1 Hf' Hd' Hy' Htr' Hi'. unfold wf_state.
  split_and!; try done; congruence.
Qed.

Lemma v1_setup_spec st :
  wf_state st ->
  let st' := setup drv st in
  wf_state st' /\
  trace (world st') =
    trace (world st) ++
    EvDelay 10000 :: flat_map (init_block drv) (seq 0 NUMBER_OF_BOARDS) /\
  (forall b s, b < NUMBER_OF_BOARDS -> s < NUMBER_OF_SENSORS_PER_BOARD ->
     initialized st' b s = init_flag drv b s).
Proof.
  intros Hwf. cbv zeta. unfold setup. cbv zeta.
  match goal with
  | |- context [initializeAll drv ?s] => set (st1 := s)
  end.
  assert (Hwf1 : wf_state st1) by exact Hwf.
  assert (Htr1 : trace (world st1) = trace (world st) ++ [EvDelay 10000]) by done.
  clearbody st1.
  destruct (v1_initializeAll_spec st1 Hwf1) as (Hwf2 & Htr2 & Hi2).
  revert Hwf2 Htr2 Hi2. generalize (initializeAll drv st1).
  intros st2 (Hd2 & Hf2 & Hy2) Htr2 Hi2. unfold wf_state, initialized in *.
  cbn [world on_world Serial_print Serial_println trace
       sensorIsInitialized data yOffsets].
  split_and!; try done.
  by rewrite Htr2, Htr1, <- app_assoc.
Qed.

End V1_setup.

(** ** Order of the bus traffic of initialisation *)

Section Setup_trace.

Variable d1 d2 : Z.
Variable n : nat -> nat.
Variable m : nat.
Variable addr status : nat -> nat -> Z.

Local Abbreviation iblk := (board_setup d1 d2 n m addr status).

Lemma begins_of_slots b k :
  begins_of (flat_map (fun s => init_slot_events d2 b s (addr b s) (status b s))
                      (seq 0 k)) = slots b k.
Proof.
  induction k as [|k IH]; [done|].
  rewrite flat_map_seq_S. unfold begins_of, slots in *.
  rewrite omap_app, IH, seq_S, map_app. f_equal.
  unfold init_slot_events. simpl. by destruct (status b k =? 0)%Z.
Qed.

Lemma begins_of_flags b (l : list nat) :
  begins_of (map (fun s => EvFlag b s false) l) = [].
Proof. by induction l. Qed.

Lemma begins_of_iblk b : begins_of (iblk b) = slots b (n b).
Proof.
  unfold board_setup, setup_block, select_events.
  pose proof (begins_of_slots b (n b)) as H.
  pose proof (begins_of_flags b (seq (n b) (m - n b))) as H'.
  unfold begins_of in *.
  destruct (b <=? 7); simpl; by rewrite omap_app, H, H', app_nil_r.
Qed.

(** Every slot of every board is tried once, in ascending order. *)
Lemma begins_of_setup k :
  begins_of (flat_map iblk (seq 0 k)) = flat_map (fun b => slots b (n b)) (seq 0 k).
Proof.
  induction k as [|k IH]; [done|].
  rewrite !flat_map_seq_S. unfold begins_of in *.
  rewrite omap_app, IH. f_equal. apply begins_of_iblk.
Qed.

(** The burst is started for exactly the slots whose status was 0. *)
Lemma burst_in_setup k b s mask :
  In (EvStartBurst b s mask) (flat_map iblk (seq 0 k)) <->
  b < k /\ s < n b /\ status b s = 0%Z /\ mask = 0xF%Z.
Proof.
  rewrite in_flat_map. split.
  - intros (b' & Hb' & Hin). apply in_seq in Hb'.
    unfold board_setup, setup_block, select_events in Hin.
    apply in_app_or in Hin as [Hin|Hin].
    { destruct (b' <=? 7); simpl in Hin; [|done]. by destruct Hin. }
    destruct Hin as [Hin|Hin]; [done|].
    apply in_app_or in Hin as [Hin|Hin].
    + apply in_flat_map in Hin as (s' & Hs' & Hin). apply in_seq in Hs'.
      unfold init_slot_events in Hin. destruct Hin as [Hin|Hin]; [done|].
      apply in_app_or in Hin as [Hin|Hin].
      * destruct (Z.eqb_spec (status b' s') 0) as [Hz|Hz].
        -- destruct Hin as [Hin|[Hin|[]]]; [|done]. simplify_eq.
           split_and!; [lia|lia|done|done].
        -- by destruct Hin as [Hin|[]].
      * by destruct Hin as [Hin|[]].
    + apply in_map_iff in Hin as (s' & Heq & _). done.
  - intros (Hb & Hs & Hst & ->). exists b. split; [apply in_seq; lia|].
    unfold board_setup, setup_block. apply in_or_app. right. right.
    apply in_or_app. left.
    apply in_flat_map. exists s. split; [apply in_seq; lia|].
    unfold init_slot_events. right. apply in_or_app. left.
    rewrite Hst. by left.
Qed.

(** Where the flag of an endpoint is set, the burst was started just
    before. *)
Lemma flag_set_after_burst k pre b s post :
  flat_map iblk (seq 0 k) = pre ++ EvFlag b s true :: post ->
  exists pre', pre = pre' ++ [EvStartBurst b s 0xF].
Proof.
  assert (Hslot : forall b' s' pre post,
    init_slot_events d2 b' s' (addr b' s') (status b' s') =
      pre ++ EvFlag b s true :: post ->
    exists pre', pre = pre' ++ [EvStartBurst b s 0xF]).
  { intros b' s' p q. unfold init_slot_events.
    destruct (status b' s' =? 0)%Z; cbn [app]; intros Heq.
    - destruct p as [|e1 [|e2 [|e3 [|e4 p]]]]; simplify_eq/=.
      + by exists [EvBegin b s (addr b s) (status b s)].
      + by destruct p.
    - destruct p as [|e1 [|e2 [|e3 p]]]; simplify_eq/=. by destruct p. }
  assert (Hslots : forall b' l pre post,
    flat_map (fun s' => init_slot_events d2 b' s' (addr b' s') (status b' s')) l =
      pre ++ EvFlag b s true :: post ->
    exists pre', pre = pre' ++ [EvStartBurst b s 0xF]).
  { intros b' l. induction l as [|s' l IH]; intros p q Heq.
    - by destruct p.
    - cbn [flat_map] in Heq.
      apply app_eq_inv in Heq as [(w & H1 & H2)|(w & H1 & H2)].
      + destruct w as [|e w].
        * rewrite app_nil_r in H1. subst p. simpl in H2.
          destruct (IH [] q (eq_sym H2)) as [p' Hp']. by destruct p'.
        * simplify_eq/=. by eapply Hslot.
      + destruct (IH _ _ H2) as [p' ->]. subst p.
        exists (init_slot_events d2 b' s' (addr b' s') (status b' s') ++ p').
        by rewrite <- app_assoc. }
  assert (Hblk : forall b' pre post,
    iblk b' = pre ++ EvFlag b s true :: post ->
    exists pre', pre = pre' ++ [EvStartBurst b s 0xF]).
  { intros b' p q. unfold board_setup, setup_block. intros Heq.
    assert (Htail : forall p q,
      flat_map (fun s' => init_slot_events d2 b' s' (addr b' s') (status b' s'))
               (seq 0 (n b')) ++
      map (fun s' => EvFlag b' s' false) (seq (n b') (m - n b')) =
        p ++ EvFlag b s true :: q ->
      exists pre', p = pre' ++ [EvStartBurst b s 0xF]).
    { intros p0 q0 H0.
      apply app_eq_inv in H0 as [(w & H1 & H2)|(w & H1 & H2)].
      - destruct w as [|e w].
        + simpl in H2.
          assert (In (EvFlag b s true)
                     (map (fun s' => EvFlag b' s' false) (seq (n b') (m - n b'))))
            as Hin by (rewrite <- H2; by left).
          apply in_map_iff in Hin as (? & ? & _). done.
        + simplify_eq/=. by eapply Hslots.
      - assert (In (EvFlag b s true)
                   (map (fun s' => EvFlag b' s' false) (seq (n b') (m - n b'))))
          as Hin by (rewrite H2; apply in_or_app; right; by left).
        apply in_map_iff in Hin as (? & ? & _). done. }
    unfold select_events in Heq. destruct (b' <=? 7); cbn [app] in Heq.
    - destruct p as [|e1 [|e2 p]]; simplify_eq/=.
      match goal with
      | H : _ ++ _ = _ |- _ => destruct (Htail _ _ H) as [p' ->]
      end.
      eexists (_ :: _ :: p'). reflexivity.
    - destruct p as [|e1 p]; simplify_eq/=.
      match goal with
      | H : _ ++ _ = _ |- _ => destruct (Htail _ _ H) as [p' ->]
      end.
      eexists (_ :: p'). reflexivity. }
  revert pre post. induction k as [|k IH]; intros pre post Heq.
  - by destruct pre.
  - rewrite flat_map_seq_S in Heq.
    apply app_eq_inv in Heq as [(w & H1 & H2)|(w & H1 & H2)].
    + destruct w as [|e w].
      * rewrite app_nil_r in H1. subst pre. simpl in H2.
        destruct (Hblk k [] post (eq_sym H2)) as [p' Hp']. by destruct p'.
      * simplify_eq/=. by eapply IH.
    + destruct (Hblk _ _ _ H2) as [p' ->]. subst pre.
      exists (flat_map iblk (seq 0 k) ++ p'). by rewrite <- app_assoc.
Qed.

End Setup_trace.

(** ** Fields and tags *)

Lemma length_sapp a b : String.length (a +:+ b) = String.length a + String.length b.
Proof.
  induction a as [|c a IH]; [done|].
  rewrite sapp_cons. simpl. by rewrite IH.
Qed.

Lemma pretty_N_go_length n s : String.length s <= String.length (pretty_N_go n s).
Proof.
  revert s. induction (N.lt_wf_0 n) as [n _ IH]; intros s.
  destruct (decide (n = 0)%N) as [->|Hn].
  - by rewrite pretty_N_go_0.
  - rewrite pretty_N_go_step by lia.
    etrans; [|apply IH; apply N.div_lt; lia]. simpl. lia.
Qed.

Lemma print_uint_nonempty n : 1 <= String.length (print_uint n).
Proof.
  unfold print_uint, pretty, pretty_N. case_decide; [done|].
  destruct (decide (N.of_nat n = 0)%N) as [|Hn]; [done|].
  rewrite pretty_N_go_step by lia.
  etrans; [|apply pretty_N_go_length]. simpl. lia.
Qed.

Lemma tag_text_lacks c b s a :
  numeral_char c -> c <> "0"%char ->
  lacks c "BoardSensor" = true -> lacks c (V2.axis_name a) = true ->
  lacks c (tag_text b s a) = true.
Proof.
  intros Hc H0 Hlit Hax. unfold tag_text.
  change "BoardSensor" with ("Board" +:+ "Sensor") in Hlit.
  rewrite lacks_app in Hlit. apply andb_true_iff in Hlit as [HB HS].
  rewrite !lacks_app, !print_uint_lacks, HB, HS, Hax by done. done.
Qed.

Lemma tag_text_no_colon b s a : lacks ":"%char (tag_text b s a) = true.
Proof.
  apply tag_text_lacks; [apply numeral_char_colon|done|done|by destruct a].
Qed.

Lemma tag_text_plain b s a : plain (tag_text b s a) = true.
Proof.
  unfold plain.
  rewrite !tag_text_lacks;
    try done; try (by destruct a);
    auto using numeral_char_TAB, numeral_char_CR, numeral_char_LF.
Qed.

Lemma field_text_plain b s a v : plain (field_text b s a v) = true.
Proof.
  unfold field_text.
  apply plain_app; [apply tag_text_plain|].
  apply plain_app; [done|apply print_int_plain].
Qed.

Lemma tag_of_field_text b s a v : tag_of (field_text b s a v) = tag_text b s a.
Proof.
  unfold tag_of, field_text.
  change (":" +:+ print_int v) with (String ":"%char (print_int v)).
  apply before_stop, tag_text_no_colon.
Qed.

Lemma field_text_spelled b s a v :
  field_text b s a v =
  "Board" +:+ print_uint b +:+ "Sensor" +:+ print_uint s +:+
  V2.axis_name a +:+ ":" +:+ print_int v.
Proof. unfold field_text, tag_text. by rewrite !sapp_assoc. Qed.

Lemma plain_lacks_TAB f : plain f = true -> lacks TAB f = true.
Proof. unfold plain. rewrite !andb_true_iff. tauto. Qed.

Lemma plain_lacks_CR f : plain f = true -> lacks CR f = true.
Proof. unfold plain. rewrite !andb_true_iff. tauto. Qed.

Lemma split_on_concat sep (fs : list string) :
  Forall (fun f => lacks sep f = true) fs -> fs <> [] ->
  split_on sep (String.concat (str sep) fs) = fs.
Proof.
  induction fs as [|f fs IH]; intros Hall Hne; [done|].
  apply Forall_cons in Hall as [Hf Hall].
  destruct fs as [|g fs].
  - by apply split_on_lacks.
  - change (String.concat (str sep) (f :: g :: fs))
      with (f +:+ String sep (String.concat (str sep) (g :: fs))).
    rewrite split_on_sep by done. by rewrite IH.
Qed.

Lemma lacks_concat c sep (fs : list string) :
  sep <> c -> Forall (fun f => lacks c f = true) fs ->
  lacks c (String.concat (str sep) fs) = true.
Proof.
  intros Hsep. induction fs as [|f fs IH]; intros Hall; [done|].
  apply Forall_cons in Hall as [Hf Hall].
  destruct fs as [|g fs]; [done|].
  change (String.concat (str sep) (f :: g :: fs))
    with (f +:+ String sep (String.concat (str sep) (g :: fs))).
  rewrite lacks_app, Hf. apply lacks_cons_ne; [done|]. by apply IH.
Qed.

(** The fields of a line of tab-separated plain fields are these fields. *)
Lemma record_fields_joined (fs : list string) :
  Forall (fun f => plain f = true) fs ->
  record_fields (String.concat (str TAB) fs +:+ CRLF) =
  match fs with [] => [EmptyString] | _ => fs end.
Proof.
  intros Hall. unfold record_fields, CRLF.
  rewrite before_stop.
  - destruct fs as [|f fs]; [done|]. apply split_on_concat; [|done].
    eapply Forall_impl; [exact Hall|]. apply plain_lacks_TAB.
  - apply lacks_concat; [done|].
    eapply Forall_impl; [exact Hall|]. apply plain_lacks_CR.
Qed.

Lemma split_on_terminated (fs : list string) :
  Forall (fun f => lacks TAB f = true) fs ->
  split_on TAB (V1Spec.tab_terminated fs) = fs ++ [EmptyString].
Proof.
  induction fs as [|f fs IH]; intros Hall; [done|].
  apply Forall_cons in Hall as [Hf Hall].
  cbn [V1Spec.tab_terminated app].
  change (str TAB +:+ V1Spec.tab_terminated fs)
    with (String TAB (V1Spec.tab_terminated fs)).
  rewrite split_on_sep by done. by rewrite IH.
Qed.

Lemma lacks_terminated c (fs : list string) :
  TAB <> c -> Forall (fun f => lacks c f = true) fs ->
  lacks c (V1Spec.tab_terminated fs) = true.
Proof.
  intros Hsep. induction fs as [|f fs IH]; intros Hall; [done|].
  apply Forall_cons in Hall as [Hf Hall].
  cbn [V1Spec.tab_terminated].
  change (str TAB +:+ V1Spec.tab_terminated fs)
    with (String TAB (V1Spec.tab_terminated fs)).
  rewrite lacks_app, Hf. apply lacks_cons_ne; [done|]. by apply IH.
Qed.

(** The fields of a line of tab-terminated plain fields are these fields,
    and nothing stands between the last tab and the line break. *)
Lemma record_fields_terminated (fs : list string) :
  Forall (fun f => plain f = true) fs ->
  record_fields (V1Spec.tab_terminated fs +:+ CRLF) = fs ++ [EmptyString].
Proof.
  intros Hall. unfold record_fields, CRLF. rewrite before_stop.
  - apply split_on_terminated.
    eapply Forall_impl; [exact Hall|]. apply plain_lacks_TAB.
  - apply lacks_terminated; [done|].
    eapply Forall_impl; [exact Hall|]. apply plain_lacks_CR.
Qed.

Lemma Forall_flat_map {A B : Type} (P : B -> Prop) (f : A -> list B) (l : list A) :
  (forall a, In a l -> Forall P (f a)) -> Forall P (flat_map f l).
Proof.
  induction l as [|a l IH]; intros H; [constructor|].
  cbn [flat_map]. apply Forall_app. split.
  - apply H. by left.
  - apply IH. intros a' Ha'. apply H. by right.
Qed.

Lemma map_flat_map {A B C : Type} (g : B -> C) (f : A -> list B) (l : list A) :
  map g (flat_map f l) = flat_map (fun a => map g (f a)) l.
Proof.
  induction l as [|a l IH]; [done|].
  cbn [flat_map]. by rewrite map_app, IH.
Qed.

Lemma length_flat_map_const {A B : Type} (f : A -> list B) (l : list A) c :
  (forall a, length (f a) = c) -> length (flat_map f l) = c * length l.
Proof.
  intros H. induction l as [|a l IH]; [simpl; lia|].
  cbn [flat_map]. rewrite length_app, H, IH. simpl. lia.
Qed.

Section V2_fields.
Import V2 V2Spec.

Variable cfg : list SensorBoard.

Lemma v2_frame_fields_plain rd :
  Forall (fun f => plain f = true) (frame_fields cfg rd).
Proof.
  unfold frame_fields. apply Forall_flat_map. intros b _.
  apply Forall_flat_map. intros s _. unfold sensor_fields.
  repeat constructor; apply field_text_plain.
Qed.

Lemma v2_frame_fields_tags rd : map tag_of (frame_fields cfg rd) = frame_tags cfg.
Proof.
  unfold frame_fields, frame_tags. rewrite map_flat_map.
  apply flat_map_ext. intros b. rewrite map_flat_map.
  apply flat_map_ext. intros s. unfold sensor_fields.
  cbn [map]. by rewrite !tag_of_field_text.
Qed.

Lemma v2_record_fields_line rd :
  record_fields (frame_line cfg rd) =
  match frame_fields cfg rd with [] => [EmptyString] | _ => frame_fields cfg rd end.
Proof. apply record_fields_joined, v2_frame_fields_plain. Qed.

(** Tags and number of fields do not depend on the buffer. *)
Lemma v2_record_tags rd rd' :
  map tag_of (record_fields (frame_line cfg rd)) =
  map tag_of (record_fields (frame_line cfg rd')).
Proof.
  rewrite !v2_record_fields_line.
  pose proof (v2_frame_fields_tags rd) as H.
  pose proof (v2_frame_fields_tags rd') as H'.
  destruct (frame_fields cfg rd) as [|f fs], (frame_fields cfg rd') as [|f' fs'];
    cbn [map] in *; congruence.
Qed.

End V2_fields.

Section V1_fields.
Import V1 V1Spec.

Variable drv : Driver.

Lemma v1_tag_spelled b axis v :
  tag b axis +:+ print_int v =
  "Board" +:+ print_uint b +:+ "Sensor" +:+ axis +:+ ":" +:+ print_int v.
Proof. unfold tag. by rewrite !sapp_assoc. Qed.

Lemma v1_tagged_plain b axis v :
  plain axis = true -> plain (tag b axis +:+ print_int v) = true.
Proof.
  intros Hax. apply plain_app; [|apply print_int_plain]. unfold tag.
  apply plain_app; [done|]. apply plain_app; [apply print_uint_plain|].
  apply plain_app; [done|]. by apply plain_app.
Qed.

Lemma v1_sensor_fields_plain st b s :
  Forall (fun f => plain f = true) (sensor_fields drv st b s).
Proof.
  unfold sensor_fields. destruct (initialized st b s).
  - repeat constructor; by apply v1_tagged_plain.
  - repeat constructor; apply print_int_plain.
Qed.

Lemma v1_frame_fields_plain st :
  Forall (fun f => plain f = true) (frame_fields drv st).
Proof.
  unfold frame_fields. apply Forall_flat_map. intros b _.
  apply Forall_flat_map. intros s _. apply v1_sensor_fields_plain.
Qed.

Lemma v1_sensor_fields_length st b s : length (sensor_fields drv st b s) = 3.
Proof. unfold sensor_fields. by destruct (initialized st b s). Qed.

Lemma v1_frame_fields_length st :
  length (frame_fields drv st) =
  NUMBER_OF_BOARDS * NUMBER_OF_SENSORS_PER_BOARD * 3.
Proof.
  unfold frame_fields.
  rewrite (length_flat_map_const _ _ (3 * NUMBER_OF_SENSORS_PER_BOARD)).
  - rewrite length_seq. lia.
  - intros b. rewrite (length_flat_map_const _ _ 3).
    + by rewrite length_seq.
    + intros s. apply v1_sensor_fields_length.
Qed.

Lemma v1_placeholder_fields st b s :
  wf_state st -> b < NUMBER_OF_BOARDS -> initialized st b s = false ->
  sensor_fields drv st b s = ["0"; "0"; "0"].
Proof.
  intros (_ & _ & Hy) Hb Hi. unfold sensor_fields. rewrite Hi, Hy.
  by rewrite lookup_replicate_2.
Qed.

Lemma v1_tagged_fields st b s :
  initialized st b s = true ->
  sensor_fields drv st b s =
  [ "Board" +:+ print_uint b +:+ "SensorX:" +:+
      print_int (x (drv_read drv b s (chan b)));
    "Board" +:+ print_uint b +:+ "SensorY:" +:+
      print_int (y (drv_read drv b s (chan b)));
    "Board" +:+ print_uint b +:+ "SensorZ:" +:+
      print_int (z (drv_read drv b s (chan b))) ].
Proof.
  intros Hi. unfold sensor_fields. rewrite Hi. by rewrite !v1_tag_spelled.
Qed.

Lemma v1_tag_of_tagged b axis v :
  lacks ":"%char axis = true ->
  tag_of (tag b axis +:+ print_int v) = "Board" +:+ print_uint b +:+ "Sensor" +:+ axis.
Proof.
  intros Hax. unfold tag_of, tag.
  replace (("Board" +:+ print_uint b +:+ "Sensor" +:+ axis +:+ ":") +:+ print_int v)
    with (("Board" +:+ print_uint b +:+ "Sensor" +:+ axis) +:+
          String ":"%char (print_int v))
    by (by rewrite !sapp_assoc).
  apply before_stop.
  rewrite !lacks_app, print_uint_lacks, Hax by (done || apply numeral_char_colon).
  done.
Qed.

Lemma v1_sensor_fields_tags st b s :
  wf_state st -> map tag_of (sensor_fields drv st b s) = sensor_tags st b s.
Proof.
  intros (_ & _ & Hy). unfold sensor_fields, sensor_tags.
  destruct (initialized st b s); cbn [map].
  - by rewrite !v1_tag_of_tagged.
  - rewrite Hy. destruct (replicate NUMBER_OF_BOARDS 0%Z !! b) as [v|] eqn:Hv.
    + apply lookup_replicate in Hv as [-> _]. reflexivity.
    + reflexivity.
Qed.

Lemma v1_frame_fields_tags st :
  wf_state st -> map tag_of (frame_fields drv st) = frame_tags st.
Proof.
  intros Hwf. unfold frame_fields, frame_tags. rewrite map_flat_map.
  apply flat_map_ext. intros b. rewrite map_flat_map.
  apply flat_map_ext. intros s. by apply v1_sensor_fields_tags.
Qed.

Lemma v1_record_tags st :
  wf_state st ->
  map tag_of (record_fields (frame_line drv st)) = frame_tags st ++ [EmptyString].
Proof.
  intros Hwf. unfold frame_line.
  rewrite record_fields_terminated by apply v1_frame_fields_plain.
  by rewrite map_app, v1_frame_fields_tags.
Qed.

End V1_fields.

(** ** What a cycle printed, and several cycles of the first sketch *)

Lemma drop_chars_app a b : drop_chars (String.length a) (a +:+ b) = b.
Proof. induction a as [|c a IH]; [by destruct b|]. exact IH. Qed.

Lemma printed_since_app (w w' : World) s :
  serial w' = serial w +:+ s -> printed_since w w' = s.
Proof. intros H. unfold printed_since. rewrite H. apply drop_chars_app. Qed.

Lemma events_since_app (w w' : World) t :
  trace w' = trace w ++ t -> events_since w w' = t.
Proof. intros H. unfold events_since. by rewrite H, drop_app_length. Qed.

Section V1_cycles.
Import V1 V1Spec V1Report.

Lemma v1_printed_line drv st :
  wf_state st ->
  printed_since (world st) (world (loop drv st)) = frame_line drv st.
Proof.
  intros Hwf. apply printed_since_app.
  by destruct (v1_loop_spec drv st Hwf) as (_ & _ & _ & Hser).
Qed.

Lemma v1_cycles_spec ds st :
  wf_state st ->
  wf_state (cycles ds st) /\
  sensorIsInitialized (cycles ds st) = sensorIsInitialized st.
Proof.
  revert st. induction ds as [|d ds IH]; intros st Hwf; [done|].
  destruct (v1_loop_spec d st Hwf) as (Hfl & Hwf' & _).
  cbn [cycles fold_left]. fold (cycles ds (loop d st)).
  revert Hfl Hwf'. generalize (loop d st). intros st1 Hfl Hwf'.
  destruct (IH _ Hwf') as (Hwf2 & Hfl2). split; [done|congruence].
Qed.

End V1_cycles.

(** ** The snapshot buffer *)

Ltac by_computation :=
  vm_compute; repeat first [ split | constructor | lia | reflexivity ].

(** C1: in every cycle of the second sketch a cell of the snapshot buffer
    whose endpoint is not initialised, or whose slot lies at or beyond the
    sensor count of its board, ends up as x = 0, y = 0, z = 0, valid = false,
    whatever it held before. *)
Theorem snapshot_clears_dead_cells
    (cfg : list V2.SensorBoard) (drv : Driver) (st : V2.State) (b s : nat) :
  V2.wf_config cfg -> V2.wf_state cfg st ->
  b < V2.NUMBER_OF_BOARDS cfg -> s < V2.MAX_SENSORS ->
  V2Spec.initialized st b s = false \/ V2.count_at cfg b <= s ->
  V2Spec.cell (V2.loop cfg drv st) b s = (Txyz 0 0 0, false).
Proof.
  intros Hcfg Hwf Hb Hs Hdead.
  destruct (v2_loop_spec cfg drv st Hcfg Hwf) as (_ & _ & _ & Hcell & _).
  rewrite Hcell by done. unfold V2Spec.snapshot_cell.
  destruct Hdead as [->|Hge].
  - by rewrite andb_false_r.
  - by destruct (Nat.ltb_spec s (V2.count_at cfg b)); [lia|].
Qed.

Lemma snapshot_clears_dead_cells_witness :
  V2Spec.cell two_boards_stale 1 0 = (Txyz 7 8 9, true) /\
  V2Spec.cell (V2.loop two_boards demo_driver two_boards_stale) 1 0
    = (Txyz 0 0 0, false) /\
  V2Spec.cell (V2.loop two_boards demo_driver two_boards_stale) 0 3
    = (Txyz 0 0 0, false).
Proof.
  split; [reflexivity|]. split.
  - apply snapshot_clears_dead_cells; [by_computation..|].
    left. reflexivity.
  - apply snapshot_clears_dead_cells; [by_computation..|].
    right. vm_compute. lia.
Defined.

(** C6: what a cell of the snapshot buffer holds at the end of a cycle is
    fixed by the device readings of that cycle and by the initialisation
    flags: it is either the sample just read or freshly cleared, the same
    from whatever buffer the cycle started, and after any number of earlier
    cycles with other readings. *)
Theorem snapshot_cycles_independent
    (cfg : list V2.SensorBoard) (drv : Driver) (st st' : V2.State) (b s : nat) :
  V2.wf_config cfg -> V2.wf_state cfg st -> V2.wf_state cfg st' ->
  V2.sensorIsInitialized st' = V2.sensorIsInitialized st ->
  b < V2.NUMBER_OF_BOARDS cfg -> s < V2.MAX_SENSORS ->
  V2Spec.cell (V2.loop cfg drv st) b s = V2Spec.snapshot_cell cfg drv st b s /\
  V2Spec.cell (V2.loop cfg drv st') b s = V2Spec.cell (V2.loop cfg drv st) b s /\
  (forall earlier : list Driver,
     V2Spec.cell (V2Spec.cycles cfg (earlier ++ [drv]) st) b s
       = V2Spec.snapshot_cell cfg drv st b s).
Proof.
  intros Hcfg Hwf Hwf' Hfl Hb Hs.
  destruct (v2_loop_spec cfg drv st Hcfg Hwf) as (_ & _ & _ & Hcell & _).
  destruct (v2_loop_spec cfg drv st' Hcfg Hwf') as (_ & _ & _ & Hcell' & _).
  split; [by apply Hcell|]. split.
  - rewrite Hcell, Hcell' by done.
    unfold V2Spec.snapshot_cell, V2Spec.initialized. by rewrite Hfl.
  - intros earlier. unfold V2Spec.cycles. rewrite fold_left_app. simpl.
    fold (V2Spec.cycles cfg earlier st).
    destruct (v2_cycles_spec cfg earlier st Hcfg Hwf) as [Hfl1 Hwf1].
    destruct (v2_loop_spec cfg drv _ Hcfg Hwf1) as (_ & _ & _ & Hcell1 & _).
    rewrite Hcell1 by done.
    unfold V2Spec.snapshot_cell, V2Spec.initialized. by rewrite Hfl1.
Qed.

Lemma snapshot_cycles_independent_witness :
  V2Spec.cell (V2.loop two_boards demo_driver two_boards_stale) 0 1
    = V2Spec.cell (V2.loop two_boards demo_driver two_boards_ready) 0 1 /\
  V2Spec.cell (V2Spec.cycles two_boards [ok_driver; other_driver; demo_driver]
                 two_boards_ready) 0 1
    = (Txyz 1 (-1) 1, true).
Proof.
  destruct (snapshot_cycles_independent two_boards demo_driver
              two_boards_ready two_boards_stale 0 1)
    as (_ & H2 & H3); [by_computation..|].
  split; [exact H2|]. exact (H3 [ok_driver; other_driver]).
Defined.

(** ** The frame *)

(** C5, as stated, fails on the first sketch: the tags of the line it
    prints depend on which endpoints are initialised. With every sensor
    answering, the fourth field of the line, the first of slot 1 of board
    0, is tagged [Board0SensorX]; with the sensors of slot 1 failed it is
    the untagged placeholder 0. *)
Lemma first_sketch_tags_depend_on_flags :
  map tag_of (record_fields (printed_since (V1.world v1_ready)
     (V1.world (V1.loop ok_driver v1_ready)))) !! 3 = Some "Board0SensorX" /\
  map tag_of (record_fields (printed_since (V1.world v1_mixed)
     (V1.world (V1.loop ok_driver v1_mixed)))) !! 3 = Some "0" /\
  map tag_of (record_fields (printed_since (V1.world v1_ready)
     (V1.world (V1.loop ok_driver v1_ready)))) <>
  map tag_of (record_fields (printed_since (V1.world v1_mixed)
     (V1.world (V1.loop ok_driver v1_mixed)))).
Proof.
  set (t1 := map tag_of (record_fields (printed_since (V1.world v1_ready)
     (V1.world (V1.loop ok_driver v1_ready))))).
  set (t2 := map tag_of (record_fields (printed_since (V1.world v1_mixed)
     (V1.world (V1.loop ok_driver v1_mixed))))).
  assert (H1 : t1 !! 3 = Some "Board0SensorX") by (vm_compute; reflexivity).
  assert (H2 : t2 !! 3 = Some "0") by (vm_compute; reflexivity).
  clearbody t1 t2.
  split; [exact H1|]. split; [exact H2|].
  intros Heq. rewrite Heq, H2 in H1. discriminate.
Qed.

(** C5, amended: the line the second sketch prints has the same number of
    tab-separated fields and the same sequence of tags in every cycle,
    whatever the flags and whatever the buffer holds: two lines over one
    board table differ in their values only, and the tags are those of the
    configured slots in ascending board-then-slot order. The line the first
    sketch prints has the same number of fields in every cycle, three for
    every endpoint in ascending board-then-slot order and nothing after the
    last tab, whatever the flags and the readings; its tags depend on the
    flags and on nothing else: the three fields of an initialised endpoint
    are tagged [Board<b>SensorX], [..Y], [..Z] and those of any other
    endpoint are the untagged 0, so two lines have the same tags when the
    flags are the same, as they are in all cycles of a run. *)
Theorem frame_layout_fixed
    (cfg : list V2.SensorBoard) (drv drv' drv1 drv1' : Driver)
    (st st' : V2.State) (st1 st1' : V1.State) :
  V2.wf_config cfg -> V2.wf_state cfg st -> V2.wf_state cfg st' ->
  V1.wf_state st1 -> V1.wf_state st1' ->
  let line :=
    V2Spec.frame_line cfg (V2.readings (V2.allReadings (V2.loop cfg drv st))) in
  let line' :=
    V2Spec.frame_line cfg (V2.readings (V2.allReadings (V2.loop cfg drv' st'))) in
  let line1 := printed_since (V1.world st1) (V1.world (V1.loop drv1 st1)) in
  let line1' := printed_since (V1.world st1') (V1.world (V1.loop drv1' st1')) in
  serial (V2.world (V2.loop cfg drv st)) = serial (V2.world st) +:+ line /\
  serial (V2.world (V2.loop cfg drv' st')) = serial (V2.world st') +:+ line' /\
  length (record_fields line) = length (record_fields line') /\
  map tag_of (record_fields line) = map tag_of (record_fields line') /\
  (V2Spec.frame_tags cfg <> [] ->
     map tag_of (record_fields line) = V2Spec.frame_tags cfg) /\
  serial (V1.world (V1.loop drv1 st1)) = serial (V1.world st1) +:+ line1 /\
  length (record_fields line1) = length (record_fields line1') /\
  length (record_fields line1) =
    V1.NUMBER_OF_BOARDS * V1.NUMBER_OF_SENSORS_PER_BOARD * 3 + 1 /\
  map tag_of (record_fields line1) =
    flat_map (fun b => flat_map (fun s =>
        if V1Spec.initialized st1 b s then
          [ "Board" +:+ print_uint b +:+ "SensorX";
            "Board" +:+ print_uint b +:+ "SensorY";
            "Board" +:+ print_uint b +:+ "SensorZ" ]
        else ["0"; "0"; "0"])
      (seq 0 V1.NUMBER_OF_SENSORS_PER_BOARD)) (seq 0 V1.NUMBER_OF_BOARDS)
    ++ [EmptyString] /\
  (V1.sensorIsInitialized st1' = V1.sensorIsInitialized st1 ->
   map tag_of (record_fields line1) = map tag_of (record_fields line1')) /\
  (forall earlier : list Driver,
     map tag_of (record_fields
       (printed_since (V1.world (V1Report.cycles earlier st1))
          (V1.world (V1.loop drv1' (V1Report.cycles earlier st1))))) =
     map tag_of (record_fields line1)).
Proof.
  intros Hcfg Hwf Hwf' Hwf1 Hwf1'. cbv zeta.
  destruct (v2_loop_spec cfg drv st Hcfg Hwf) as (_ & _ & _ & _ & Hser).
  destruct (v2_loop_spec cfg drv' st' Hcfg Hwf') as (_ & _ & _ & _ & Hser').
  split; [exact Hser|]. split; [exact Hser'|].
  pose proof (v2_record_tags cfg
    (V2.readings (V2.allReadings (V2.loop cfg drv st)))
    (V2.readings (V2.allReadings (V2.loop cfg drv' st')))) as Htags.
  split; [|split; [exact Htags|split]].
  - apply (f_equal (@length string)) in Htags. by rewrite !length_map in Htags.
  - intros Hne. rewrite v2_record_fields_line.
    pose proof (v2_frame_fields_tags cfg
      (V2.readings (V2.allReadings (V2.loop cfg drv st)))) as H.
    destruct (V2Spec.frame_fields cfg _); [by cbn [map] in H|done].
  - assert (Hlen : forall d s1, V1.wf_state s1 ->
        length (record_fields (V1Spec.frame_line d s1)) =
        V1.NUMBER_OF_BOARDS * V1.NUMBER_OF_SENSORS_PER_BOARD * 3 + 1).
    { intros d s1 _. unfold V1Spec.frame_line.
      rewrite record_fields_terminated by apply v1_frame_fields_plain.
      rewrite length_app, v1_frame_fields_length. reflexivity. }
    rewrite !v1_printed_line by done. split_and!.
    + by destruct (v1_loop_spec drv1 st1 Hwf1) as (_ & _ & _ & Hs1).
    + by rewrite !Hlen.
    + by apply Hlen.
    + by rewrite v1_record_tags.
    + intros Hfl. rewrite !v1_record_tags by done.
      unfold V1Spec.frame_tags, V1Spec.sensor_tags, V1Spec.initialized.
      by rewrite Hfl.
    + intros earlier.
      destruct (v1_cycles_spec earlier st1 Hwf1) as (Hwf2 & Hfl2).
      rewrite v1_printed_line by done. rewrite !v1_record_tags by done.
      unfold V1Spec.frame_tags, V1Spec.sensor_tags, V1Spec.initialized.
      by rewrite Hfl2.
Qed.

Lemma frame_layout_fixed_witness :
  map tag_of (record_fields (V2Spec.frame_line two_boards
    (V2.readings (V2.allReadings (V2.loop two_boards ok_driver (V2.power_on two_boards))))))
  = [ "Board0Sensor0X"; "Board0Sensor0Y"; "Board0Sensor0Z";
      "Board0Sensor1X"; "Board0Sensor1Y"; "Board0Sensor1Z";
      "Board1Sensor0X"; "Board1Sensor0Y"; "Board1Sensor0Z" ] /\
  map tag_of (record_fields (V2Spec.frame_line two_boards
    (V2.readings (V2.allReadings (V2.loop two_boards ok_driver (V2.power_on two_boards))))))
  = map tag_of (record_fields (V2Spec.frame_line two_boards
    (V2.readings (V2.allReadings (V2.loop two_boards demo_driver two_boards_ready))))) /\
  length (record_fields (printed_since (V1.world v1_ready)
            (V1.world (V1.loop ok_driver v1_ready)))) =
  length (record_fields (printed_since (V1.world v1_mixed)
            (V1.world (V1.loop flaky_driver v1_mixed)))) /\
  map tag_of (record_fields
    (printed_since (V1.world (V1Report.cycles [other_driver] v1_ready))
       (V1.world (V1.loop flaky_driver (V1Report.cycles [other_driver] v1_ready))))) =
  map tag_of (record_fields (printed_since (V1.world v1_ready)
                (V1.world (V1.loop ok_driver v1_ready)))).
Proof.
  destruct (frame_layout_fixed two_boards ok_driver demo_driver
              ok_driver flaky_driver
              (V2.power_on two_boards) two_boards_ready v1_ready v1_mixed)
    as (_ & _ & _ & H4 & H5 & _ & H7 & _ & _ & _ & H11); [by_computation..|].
  split; [apply H5; discriminate|]. split; [exact H4|].
  split; [exact H7|exact (H11 [other_driver])].
Defined.

Lemma tag_without_slot_index b s a v : "Board0SensorX:1" <> field_text b s a v.
Proof.
  intros H. apply (f_equal tag_of) in H. rewrite tag_of_field_text in H.
  change (tag_of "Board0SensorX:1") with "Board0SensorX" in H.
  apply (f_equal String.length) in H. unfold tag_text in H.
  rewrite !length_sapp in H.
  pose proof (print_uint_nonempty b). pose proof (print_uint_nonempty s).
  assert (String.length (V2.axis_name a) = 1) as Ha by (by destruct a).
  rewrite Ha in H. simpl in H. lia.
Qed.

(** C3, as stated, fails on the first sketch: with every sensor answering
    and the sample (1, 2, 3), the first field of the line it prints is
    [Board0SensorX:1], which is no tag [Board<b>Sensor<s><Axis>] followed by
    a colon and a value, for any board, slot, axis and value. *)
Lemma first_sketch_field_lacks_slot_index :
  exists f,
    record_fields (printed_since (V1.world v1_ready)
                     (V1.world (V1.loop ok_driver v1_ready))) !! 0 = Some f /\
    f = "Board0SensorX:1" /\
    forall b s a v, f <> field_text b s a v.
Proof.
  exists "Board0SensorX:1". split; [by vm_compute|]. split; [done|].
  apply tag_without_slot_index.
Qed.


(** The nine fields of the scenario, for any content of the buffer. *)
Lemma two_boards_fields (rd : list (list txyz)) :
  record_fields (V2Spec.frame_line two_boards rd) =
    [ "Board0Sensor0X:" +:+ print_int (x (get2 zero_txyz rd 0 0));
      "Board0Sensor0Y:" +:+ print_int (y (get2 zero_txyz rd 0 0));
      "Board0Sensor0Z:" +:+ print_int (z (get2 zero_txyz rd 0 0));
      "Board0Sensor1X:" +:+ print_int (x (get2 zero_txyz rd 0 1));
      "Board0Sensor1Y:" +:+ print_int (y (get2 zero_txyz rd 0 1));
      "Board0Sensor1Z:" +:+ print_int (z (get2 zero_txyz rd 0 1));
      "Board1Sensor0X:" +:+ print_int (x (get2 zero_txyz rd 1 0));
      "Board1Sensor0Y:" +:+ print_int (y (get2 zero_txyz rd 1 0));
      "Board1Sensor0Z:" +:+ print_int (z (get2 zero_txyz rd 1 0)) ].
Proof. rewrite v2_record_fields_line. reflexivity. Qed.

(** C3, amended: in the second sketch every field of the printed record is
    the tag [Board<b>Sensor<s><Axis>], a colon and the value, for a
    configured slot [s] of board [b]; the fields are separated by tabs and
    the record ends with a line break; with two boards of two and of one
    configured sensor the record has exactly the nine fields tagged
    Board0Sensor0X/Y/Z, Board0Sensor1X/Y/Z, Board1Sensor0X/Y/Z. In the first
    sketch every field is followed by a tab and the three fields of an
    initialised endpoint are tagged [Board<b>Sensor<Axis>], without the
    slot. *)
Theorem frame_fields_tagged
    (cfg : list V2.SensorBoard) (drv drv2 drv1 : Driver)
    (st st2 : V2.State) (st1 : V1.State) :
  V2.wf_config cfg -> V2.wf_state cfg st ->
  V2.wf_state two_boards st2 -> V1.wf_state st1 ->
  let after := V2.loop cfg drv st in
  let fields := V2Spec.frame_fields cfg (V2.readings (V2.allReadings after)) in
  let rd2 := V2.readings (V2.allReadings (V2.loop two_boards drv2 st2)) in
  (serial (V2.world after) =
     serial (V2.world st) +:+ String.concat (str TAB) fields +:+ CRLF /\
   Forall (fun f => plain f = true) fields /\
   (forall f, In f fields <->
      exists b s a, b < V2.NUMBER_OF_BOARDS cfg /\ s < V2.count_at cfg b /\
        f = "Board" +:+ print_uint b +:+ "Sensor" +:+ print_uint s +:+
            V2.axis_name a +:+ ":" +:+
            print_int (V2.axis_of a (fst (V2Spec.cell after b s))))) /\
  record_fields (V2Spec.frame_line two_boards rd2) =
    [ "Board0Sensor0X:" +:+ print_int (x (get2 zero_txyz rd2 0 0));
      "Board0Sensor0Y:" +:+ print_int (y (get2 zero_txyz rd2 0 0));
      "Board0Sensor0Z:" +:+ print_int (z (get2 zero_txyz rd2 0 0));
      "Board0Sensor1X:" +:+ print_int (x (get2 zero_txyz rd2 0 1));
      "Board0Sensor1Y:" +:+ print_int (y (get2 zero_txyz rd2 0 1));
      "Board0Sensor1Z:" +:+ print_int (z (get2 zero_txyz rd2 0 1));
      "Board1Sensor0X:" +:+ print_int (x (get2 zero_txyz rd2 1 0));
      "Board1Sensor0Y:" +:+ print_int (y (get2 zero_txyz rd2 1 0));
      "Board1Sensor0Z:" +:+ print_int (z (get2 zero_txyz rd2 1 0)) ] /\
  (serial (V1.world (V1.loop drv1 st1)) =
     serial (V1.world st1) +:+
     V1Spec.tab_terminated (V1Spec.frame_fields drv1 st1) +:+ CRLF /\
   forall b s, b < V1.NUMBER_OF_BOARDS -> s < V1.NUMBER_OF_SENSORS_PER_BOARD ->
     V1Spec.initialized st1 b s = true ->
     V1Spec.sensor_fields drv1 st1 b s =
     [ "Board" +:+ print_uint b +:+ "SensorX:" +:+
         print_int (x (drv_read drv1 b s (chan b)));
       "Board" +:+ print_uint b +:+ "SensorY:" +:+
         print_int (y (drv_read drv1 b s (chan b)));
       "Board" +:+ print_uint b +:+ "SensorZ:" +:+
         print_int (z (drv_read drv1 b s (chan b))) ]).
Proof.
  intros Hcfg Hwf Hwf2 Hwf1. cbv zeta. split; [|split].
  - destruct (v2_loop_spec cfg drv st Hcfg Hwf) as (_ & _ & _ & _ & Hser).
    split; [exact Hser|]. split; [apply v2_frame_fields_plain|].
    intros f. unfold V2Spec.frame_fields, V2Spec.sensor_fields, V2Spec.cell,
      V2.NUMBER_OF_BOARDS.
    rewrite in_flat_map. split.
    + intros (b & Hb & Hin). apply in_seq in Hb.
      apply in_flat_map in Hin as (s & Hs & Hin). apply in_seq in Hs.
      apply in_map_iff in Hin as (a & <- & _).
      exists b, s, a. split; [lia|]. split; [lia|]. apply field_text_spelled.
    + intros (b & s & a & Hb & Hs & ->). exists b. split; [apply in_seq; lia|].
      apply in_flat_map. exists s. split; [apply in_seq; lia|].
      apply in_map_iff. exists a. split; [apply field_text_spelled|].
      destruct a; simpl; tauto.
  - apply two_boards_fields.
  - destruct (v1_loop_spec drv1 st1 Hwf1) as (_ & _ & _ & Hser).
    split; [exact Hser|]. intros b s _ _ Hi. by apply v1_tagged_fields.
Qed.

Lemma frame_fields_tagged_witness :
  record_fields (V2Spec.frame_line two_boards
    (V2.readings (V2.allReadings (V2.loop two_boards demo_driver two_boards_ready))))
  = [ "Board0Sensor0X:1"; "Board0Sensor0Y:0"; "Board0Sensor0Z:1";
      "Board0Sensor1X:1"; "Board0Sensor1Y:-1"; "Board0Sensor1Z:1";
      "Board1Sensor0X:0"; "Board1Sensor0Y:0"; "Board1Sensor0Z:0" ].
Proof.
  destruct (frame_fields_tagged V2.boardConfig ok_driver demo_driver ok_driver
              (V2.power_on V2.boardConfig) two_boards_ready v1_ready)
    as (_ & H & _); [by_computation..|].
  exact H.
Defined.

(** C10: in the first sketch an endpoint whose flag is false contributes
    three fields, each followed by a tab: 0, the y-offset of its board,
    which is 0, and 0, none with a tag; a line therefore has the same
    boards x 5 x 3 fields whatever was initialised, and a field belongs to
    an initialised endpoint exactly when it starts with "Board". *)
Theorem first_sketch_placeholders (drv : Driver) (st : V1.State) :
  V1.wf_state st ->
  serial (V1.world (V1.loop drv st)) =
    serial (V1.world st) +:+ V1Spec.frame_line drv st /\
  V1Spec.frame_line drv st =
    V1Spec.tab_terminated
      (flat_map (fun b => flat_map (V1Spec.sensor_fields drv st b)
                            (seq 0 V1.NUMBER_OF_SENSORS_PER_BOARD))
                (seq 0 V1.NUMBER_OF_BOARDS)) +:+ CRLF /\
  (forall b s, b < V1.NUMBER_OF_BOARDS -> s < V1.NUMBER_OF_SENSORS_PER_BOARD ->
     V1Spec.initialized st b s = false ->
     V1Spec.sensor_fields drv st b s = ["0"; "0"; "0"]) /\
  record_fields (V1Spec.frame_line drv st) =
    V1Spec.frame_fields drv st ++ [EmptyString] /\
  length (V1Spec.frame_fields drv st) =
    V1.NUMBER_OF_BOARDS * V1.NUMBER_OF_SENSORS_PER_BOARD * 3 /\
  (forall b s f, In f (V1Spec.sensor_fields drv st b s) ->
     starts_with "Board" f = V1Spec.initialized st b s).
Proof.
  intros Hwf.
  destruct (v1_loop_spec drv st Hwf) as (_ & _ & _ & Hser).
  split; [exact Hser|]. split; [reflexivity|]. split.
  { intros b s Hb _ Hi. by apply v1_placeholder_fields. }
  split.
  { apply record_fields_terminated, v1_frame_fields_plain. }
  split.
  { apply v1_frame_fields_length. }
  intros b s f Hin. destruct (V1Spec.initialized st b s) eqn:Hi.
  - rewrite (v1_tagged_fields drv st b s Hi) in Hin.
    destruct Hin as [<-|[<-|[<-|[]]]]; reflexivity.
  - destruct Hwf as (_ & _ & Hy). unfold V1Spec.sensor_fields in Hin.
    rewrite Hi in Hin.
    destruct (V1.yOffsets st !! b) as [v|] eqn:Hv.
    + rewrite Hy in Hv. apply lookup_replicate in Hv as [-> _].
      destruct Hin as [<-|[<-|[<-|[]]]]; reflexivity.
    + destruct Hin as [<-|[<-|[<-|[]]]]; reflexivity.
Qed.

Lemma first_sketch_placeholders_witness :
  V1Spec.sensor_fields flaky_driver v1_mixed 3 1 = ["0"; "0"; "0"] /\
  length (V1Spec.frame_fields flaky_driver v1_mixed) = 300.
Proof.
  destruct (first_sketch_placeholders flaky_driver v1_mixed)
    as (_ & _ & H3 & _ & H5 & _); [by_computation|].
  split; [|exact H5].
  apply H3; [vm_compute; lia|vm_compute; lia|reflexivity].
Defined.

(** ** Order of a cycle *)




(** ** Initialisation *)

(** C4, as stated, fails on the order of the two effects of a zero status:
    in the scenario of two boards the burst of endpoint (0, 0) is started
    first and its flag is set directly afterwards, not before. *)
Lemma burst_started_before_flag_set :
  exists pre post,
    trace (V2.world (V2.initializeAll two_boards demo_driver
                       (V2.power_on two_boards))) =
      pre ++ EvStartBurst 0 0 0xF :: EvFlag 0 0 true :: post /\
    ~ In (EvFlag 0 0 true) pre.
Proof.
  exists [EvWire 112 [1%Z]; EvDelay 20000; EvBegin 0 0 12 0].
  eexists. split; [vm_compute; reflexivity|].
  intros [H|[H|[H|[]]]]; discriminate.
Qed.

(** C4, amended: initialisation tries every configured slot of every board
    once, in ascending order, whatever the earlier attempts gave: a nonzero
    status marks the endpoint [initialized = false] and the next slot or
    board is tried; a zero status starts the burst mode of the device and
    then marks the endpoint [initialized = true]; no slot is tried twice and
    none is skipped. Both sketches. *)
Theorem initialization_tolerates_failures
    (cfg : list V2.SensorBoard) (drv drv1 : Driver)
    (st : V2.State) (st1 : V1.State) :
  V2.wf_config cfg -> V2.wf_state cfg st -> V1.wf_state st1 ->
  let t2 := flat_map (V2Spec.init_block cfg drv)
                     (seq 0 (V2.NUMBER_OF_BOARDS cfg)) in
  let t1 := flat_map (V1Spec.init_block drv1) (seq 0 V1.NUMBER_OF_BOARDS) in
  (trace (V2.world (V2.initializeAll cfg drv st)) = trace (V2.world st) ++ t2 /\
   (forall b, V2Spec.init_block cfg drv b =
      select_events b ++ EvDelay 20000 ::
      flat_map (fun s =>
          EvBegin b s (V2.address_at cfg b s) (V2Spec.status_of cfg drv b s) ::
          (if (V2Spec.status_of cfg drv b s =? 0)%Z
           then [EvStartBurst b s 0xF; EvFlag b s true]
           else [EvFlag b s false]) ++ [EvDelay 5000])
        (seq 0 (V2.count_at cfg b)) ++
      map (fun s => EvFlag b s false)
          (seq (V2.count_at cfg b) (V2.MAX_SENSORS - V2.count_at cfg b))) /\
   begins_of t2 =
     flat_map (fun b => slots b (V2.count_at cfg b))
              (seq 0 (V2.NUMBER_OF_BOARDS cfg)) /\
   (forall b s, b < V2.NUMBER_OF_BOARDS cfg -> s < V2.count_at cfg b ->
      V2Spec.initialized (V2.initializeAll cfg drv st) b s =
      (V2Spec.status_of cfg drv b s =? 0)%Z) /\
   (forall b s mask, In (EvStartBurst b s mask) t2 <->
      b < V2.NUMBER_OF_BOARDS cfg /\ s < V2.count_at cfg b /\
      V2Spec.status_of cfg drv b s = 0%Z /\ mask = 0xF%Z) /\
   (forall pre b s post, t2 = pre ++ EvFlag b s true :: post ->
      exists pre', pre = pre' ++ [EvStartBurst b s 0xF])) /\
  (trace (V1.world (V1.initializeAll drv1 st1)) = trace (V1.world st1) ++ t1 /\
   (forall b, V1Spec.init_block drv1 b =
      select_events b ++ EvDelay 50000 ::
      flat_map (fun s =>
          EvBegin b s (V1.address_at s) (V1Spec.status_of drv1 b s) ::
          (if (V1Spec.status_of drv1 b s =? 0)%Z
           then [EvStartBurst b s 0xF; EvFlag b s true]
           else [EvFlag b s false]) ++ [EvDelay 10000])
        (seq 0 V1.NUMBER_OF_SENSORS_PER_BOARD)) /\
   begins_of t1 =
     flat_map (fun b => slots b V1.NUMBER_OF_SENSORS_PER_BOARD)
              (seq 0 V1.NUMBER_OF_BOARDS) /\
   (forall b s, b < V1.NUMBER_OF_BOARDS -> s < V1.NUMBER_OF_SENSORS_PER_BOARD ->
      V1Spec.initialized (V1.initializeAll drv1 st1) b s =
      (V1Spec.status_of drv1 b s =? 0)%Z) /\
   (forall b s mask, In (EvStartBurst b s mask) t1 <->
      b < V1.NUMBER_OF_BOARDS /\ s < V1.NUMBER_OF_SENSORS_PER_BOARD /\
      V1Spec.status_of drv1 b s = 0%Z /\ mask = 0xF%Z) /\
   (forall pre b s post, t1 = pre ++ EvFlag b s true :: post ->
      exists pre', pre = pre' ++ [EvStartBurst b s 0xF])).
Proof.
  intros Hcfg Hwf Hwf1. cbv zeta. split.
  - destruct (v2_initializeAll_spec cfg drv st Hcfg Hwf) as (_ & _ & Htr & Hfl).
    split; [exact Htr|]. split; [reflexivity|]. split.
    { exact (begins_of_setup 20000 5000 (V2.count_at cfg) 5 (V2.address_at cfg)
               (V2Spec.status_of cfg drv) (length cfg)). }
    split; [|split].
    + intros b s Hb Hs. rewrite Hfl.
      * unfold V2Spec.init_flag.
        by destruct (Nat.ltb_spec s (V2.count_at cfg b)); [|lia].
      * exact Hb.
      * pose proof (v2_count_le cfg b Hcfg Hb). lia.
    + intros b s mask.
      exact (burst_in_setup 20000 5000 (V2.count_at cfg) 5 (V2.address_at cfg)
               (V2Spec.status_of cfg drv) (length cfg) b s mask).
    + intros pre b s post.
      exact (flag_set_after_burst 20000 5000 (V2.count_at cfg) 5
               (V2.address_at cfg) (V2Spec.status_of cfg drv) (length cfg)
               pre b s post).
  - destruct (v1_initializeAll_spec drv1 st1 Hwf1) as (_ & Htr & Hfl).
    split; [exact Htr|]. split.
    { intros b. unfold V1Spec.init_block, setup_block, init_slot_events.
      rewrite Nat.sub_diag. cbn [seq map]. by rewrite app_nil_r. }
    split.
    { exact (begins_of_setup 50000 10000
               (fun _ => V1.NUMBER_OF_SENSORS_PER_BOARD)
               V1.NUMBER_OF_SENSORS_PER_BOARD (fun _ => V1.address_at)
               (V1Spec.status_of drv1) V1.NUMBER_OF_BOARDS). }
    split; [|split].
    + intros b s Hb Hs. by rewrite Hfl.
    + intros b s mask.
      exact (burst_in_setup 50000 10000
               (fun _ => V1.NUMBER_OF_SENSORS_PER_BOARD)
               V1.NUMBER_OF_SENSORS_PER_BOARD (fun _ => V1.address_at)
               (V1Spec.status_of drv1) V1.NUMBER_OF_BOARDS b s mask).
    + intros pre b s post.
      exact (flag_set_after_burst 50000 10000
               (fun _ => V1.NUMBER_OF_SENSORS_PER_BOARD)
               V1.NUMBER_OF_SENSORS_PER_BOARD (fun _ => V1.address_at)
               (V1Spec.status_of drv1) V1.NUMBER_OF_BOARDS pre b s post).
Qed.

Lemma initialization_tolerates_failures_witness :
  trace (V2.world (V2.initializeAll two_boards demo_driver (V2.power_on two_boards)))
  = [ EvWire 112 [1%Z]; EvDelay 20000;
      EvBegin 0 0 12 0; EvStartBurst 0 0 15; EvFlag 0 0 true; EvDelay 5000;
      EvBegin 0 1 19 0; EvStartBurst 0 1 15; EvFlag 0 1 true; EvDelay 5000;
      EvFlag 0 2 false; EvFlag 0 3 false; EvFlag 0 4 false;
      EvWire 112 [2%Z]; EvDelay 20000;
      EvBegin 1 0 15 1; EvFlag 1 0 false; EvDelay 5000;
      EvFlag 1 1 false; EvFlag 1 2 false; EvFlag 1 3 false; EvFlag 1 4 false ] /\
  V2Spec.initialized
    (V2.initializeAll two_boards demo_driver (V2.power_on two_boards)) 1 0 = false /\
  V1Spec.initialized (V1.initializeAll flaky_driver V1.power_on) 19 1 = false /\
  V1Spec.initialized (V1.initializeAll flaky_driver V1.power_on) 19 2 = true.
Proof.
  destruct (initialization_tolerates_failures two_boards demo_driver flaky_driver
              (V2.power_on two_boards) V1.power_on)
    as ((H1 & _ & _ & H3 & _) & (_ & _ & _ & H4 & _)); [by_computation..|].
  split; [exact H1|]. split; [|split].
  - rewrite H3; [reflexivity|vm_compute; lia|vm_compute; lia].
  - rewrite H4; [reflexivity|vm_compute; lia|vm_compute; lia].
  - rewrite H4; [reflexivity|vm_compute; lia|vm_compute; lia].
Defined.

(** C8: running the initialisation a second time, with every device giving
    the status it gave before, leaves every endpoint with the flag it had
    after the first run; for the initialisation loop and for the whole of
    [setup], in both sketches. *)
Theorem initialization_idempotent
    (cfg : list V2.SensorBoard) (drv drv1 : Driver)
    (st : V2.State) (st1 : V1.State) (b s b1 s1 : nat) :
  V2.wf_config cfg -> V2.wf_state cfg st -> V1.wf_state st1 ->
  b < V2.NUMBER_OF_BOARDS cfg -> s < V2.MAX_SENSORS ->
  b1 < V1.NUMBER_OF_BOARDS -> s1 < V1.NUMBER_OF_SENSORS_PER_BOARD ->
  V2Spec.initialized (V2.initializeAll cfg drv (V2.initializeAll cfg drv st)) b s =
    V2Spec.initialized (V2.initializeAll cfg drv st) b s /\
  V2Spec.initialized (V2.setup cfg drv (V2.setup cfg drv st)) b s =
    V2Spec.initialized (V2.setup cfg drv st) b s /\
  V1Spec.initialized (V1.initializeAll drv1 (V1.initializeAll drv1 st1)) b1 s1 =
    V1Spec.initialized (V1.initializeAll drv1 st1) b1 s1 /\
  V1Spec.initialized (V1.setup drv1 (V1.setup drv1 st1)) b1 s1 =
    V1Spec.initialized (V1.setup drv1 st1) b1 s1.
Proof.
  intros Hcfg Hwf Hwf1 Hb Hs Hb1 Hs1.
  destruct (v2_initializeAll_spec cfg drv st Hcfg Hwf) as (Hwf' & _ & _ & Hfl).
  destruct (v2_initializeAll_spec cfg drv _ Hcfg Hwf') as (_ & _ & _ & Hfl').
  destruct (v2_setup_spec cfg drv st Hcfg Hwf) as (Hwfs & _ & Hfls & _).
  destruct (v2_setup_spec cfg drv _ Hcfg Hwfs) as (_ & _ & Hfls' & _).
  destruct (v1_initializeAll_spec drv1 st1 Hwf1) as (Hwf1' & _ & Hfl1).
  destruct (v1_initializeAll_spec drv1 _ Hwf1') as (_ & _ & Hfl1').
  destruct (v1_setup_spec drv1 st1 Hwf1) as (Hwf1s & _ & Hfl1s).
  destruct (v1_setup_spec drv1 _ Hwf1s) as (_ & _ & Hfl1s').
  split; [exact (eq_trans (Hfl' b s Hb Hs) (eq_sym (Hfl b s Hb Hs)))|].
  split; [exact (eq_trans (Hfls' b s Hb Hs) (eq_sym (Hfls b s Hb Hs)))|].
  split; [exact (eq_trans (Hfl1' b1 s1 Hb1 Hs1) (eq_sym (Hfl1 b1 s1 Hb1 Hs1)))|].
  exact (eq_trans (Hfl1s' b1 s1 Hb1 Hs1) (eq_sym (Hfl1s b1 s1 Hb1 Hs1))).
Qed.

Lemma initialization_idempotent_witness :
  V2Spec.initialized
    (V2.setup two_boards demo_driver
       (V2.setup two_boards demo_driver (V2.power_on two_boards))) 0 1
  = V2Spec.initialized (V2.setup two_boards demo_driver (V2.power_on two_boards)) 0 1 /\
  V1Spec.initialized
    (V1.setup flaky_driver (V1.setup flaky_driver V1.power_on)) 8 1
  = V1Spec.initialized (V1.setup flaky_driver V1.power_on) 8 1.
Proof.
  destruct (initialization_idempotent two_boards demo_driver flaky_driver
              (V2.power_on two_boards) V1.power_on 0 1 8 1)
    as (_ & H2 & _ & H4); [by_computation..|].
  split; [exact H2|exact H4].
Defined.

(** * Further properties *)

(** ** Pieces of text and of trace *)

Lemma text_of_app l1 l2 : text_of (l1 ++ l2) = text_of l1 +:+ text_of l2.
Proof.
  induction l1 as [|a l1 IH]; [done|].
  cbn [app text_of fold_right]. fold (text_of (l1 ++ l2)). fold (text_of l1).
  by rewrite IH, sapp_assoc.
Qed.

Lemma text_of_snoc l a : text_of (l ++ [a]) = text_of l +:+ a.
Proof. rewrite text_of_app. cbn [text_of fold_right]. by rewrite sapp_nil_r. Qed.

Lemma text_of_seq_S (f : nat -> string) k :
  text_of (map f (seq 0 (Datatypes.S k))) = text_of (map f (seq 0 k)) +:+ f k.
Proof. rewrite seq_S, map_app. cbn [map]. by rewrite text_of_snoc. Qed.

Lemma print_print s1 s2 w :
  Serial_print s2 (Serial_print s1 w) = Serial_print (s1 +:+ s2) w.
Proof. unfold Serial_print. simpl. by rewrite sapp_assoc. Qed.

Lemma print_nothing w : Serial_print EmptyString w = w.
Proof. destruct w. unfold Serial_print. simpl. by rewrite sapp_nil_r. Qed.

Lemma printed_since_print s w : printed_since w (Serial_print s w) = s.
Proof. unfold printed_since, Serial_print. simpl. apply drop_chars_app. Qed.

(** A run of lines, each but the last followed by a separator, is the run
    joined by the separator. *)
Lemma text_of_separated (f : nat -> string) sep lo len :
  text_of (map (fun j => f j +:+
                  (if (Z.of_nat j <? Z.of_nat (lo + len) - 1)%Z then sep else EmptyString))
               (seq lo len)) =
  String.concat sep (map f (seq lo len)).
Proof.
  revert lo. induction len as [|len IH]; intros lo; [done|].
  cbn [seq map text_of fold_right].
  specialize (IH (Datatypes.S lo)).
  replace (Datatypes.S lo + len) with (lo + Datatypes.S len) in IH by lia.
  unfold text_of in IH. rewrite IH.
  destruct len as [|len].
  - destruct (Z.ltb_spec (Z.of_nat lo) (Z.of_nat (lo + 1) - 1)); [lia|].
    cbn [seq map String.concat]. by rewrite !sapp_nil_r.
  - destruct (Z.ltb_spec (Z.of_nat lo) (Z.of_nat (lo + Datatypes.S (Datatypes.S len)) - 1));
      [|lia].
    cbn [seq map String.concat]. by rewrite sapp_assoc.
Qed.

(** ** The reports of the second sketch *)

Section V2_reports.
Import V2 V2Report.

Variable cfg : list SensorBoard.

Lemma v2_summary_loop k pre w :
  for_range 0 k (fun board w =>
    let w := Serial_print "Board " w in
    let w := Serial_print (print_uint board) w in
    let w := Serial_print ": " w in
    let w := Serial_print (classification (board_at cfg board)) w in
    let w := Serial_print " (" w in
    let w := Serial_print (print_uint (count_at cfg board)) w in
    let w := Serial_print " sensors)" w in
    Serial_print CRLF w) (Serial_print pre w) =
  Serial_print (pre +:+ text_of (map (summary_line cfg) (seq 0 k))) w.
Proof.
  induction k as [|k IH].
  - rewrite for_range_empty by lia. simpl. by rewrite sapp_nil_r.
  - rewrite for_range_snoc by lia. rewrite IH. cbv zeta.
    rewrite !print_print, text_of_seq_S. unfold summary_line.
    by rewrite !sapp_assoc.
Qed.

Lemma v2_addresses_loop b k pre w :
  for_range 0 k (fun i w =>
      let w := Serial_print "0x" w in
      let w := Serial_print (print_hex (address_at cfg b i)) w in
      if (Z.of_nat i <? Z.of_nat (count_at cfg b) - 1)%Z
      then Serial_print ", " w else w) (Serial_print pre w) =
  Serial_print
    (pre +:+ text_of (map (fun j => address_text cfg b j +:+
                (if (Z.of_nat j <? Z.of_nat (count_at cfg b) - 1)%Z
                 then ", " else EmptyString)) (seq 0 k))) w.
Proof.
  induction k as [|k IH].
  - rewrite for_range_empty by lia. simpl. by rewrite sapp_nil_r.
  - rewrite for_range_snoc by lia. rewrite IH. cbv zeta.
    rewrite (text_of_seq_S (fun j => address_text cfg b j +:+ _)).
    unfold address_text.
    destruct (Z.of_nat k <? Z.of_nat (count_at cfg b) - 1)%Z;
      rewrite !print_print; by rewrite !sapp_assoc, ?sapp_nil_r.
Qed.

Lemma v2_print_board_line_text b w :
  print_board_line cfg b w = Serial_print (config_line cfg b) w.
Proof.
  unfold print_board_line. cbv zeta. rewrite !print_print.
  rewrite v2_addresses_loop, print_print.
  pose proof (text_of_separated (address_text cfg b) ", " 0 (count_at cfg b)) as H.
  cbn [Nat.add] in H. rewrite H.
  unfold config_line. by rewrite !sapp_assoc.
Qed.

Lemma v2_banner_loop k pre w :
  for_range 0 k (print_board_line cfg) (Serial_print pre w) =
  Serial_print (pre +:+ text_of (map (config_line cfg) (seq 0 k))) w.
Proof.
  induction k as [|k IH].
  - rewrite for_range_empty by lia. simpl. by rewrite sapp_nil_r.
  - rewrite for_range_snoc by lia.
    by rewrite IH, v2_print_board_line_text, print_print, text_of_seq_S, sapp_assoc.
Qed.

End V2_reports.

(** X1: [printBoardConfig] prints the heading and then one line [Board <b>:
    <classification> (<n> sensors)] per board of the table, in ascending order,
    the word "sensors" whatever the count; it changes nothing but the serial
    output: no bus traffic, no driver call, the multiplexer register as it was. *)
Theorem printBoardConfig_report (cfg : list V2.SensorBoard) (w : World) :
  V2.printBoardConfig cfg w = Serial_print (V2Report.summary_text cfg) w /\
  printed_since w (V2.printBoardConfig cfg w) =
    "Current Board Configuration:" +:+ CRLF +:+
    text_of (map (fun b =>
        "Board " +:+ print_uint b +:+ ": " +:+
        V2.classification (V2.board_at cfg b) +:+
        " (" +:+ print_uint (V2.count_at cfg b) +:+ " sensors)" +:+ CRLF)
      (seq 0 (V2.NUMBER_OF_BOARDS cfg))) /\
  trace (V2.printBoardConfig cfg w) = trace w /\
  mux_reg (V2.printBoardConfig cfg w) = mux_reg w /\
  V2Report.summary_line two_boards 1 = "Board 1: 1XF (1 sensors)" +:+ CRLF.
Proof.
  assert (H : V2.printBoardConfig cfg w = Serial_print (V2Report.summary_text cfg) w).
  { unfold V2.printBoardConfig, Serial_println. cbv zeta. rewrite print_print.
    unfold V2.NUMBER_OF_BOARDS. rewrite v2_summary_loop.
    unfold V2Report.summary_text. by rewrite sapp_assoc. }
  split; [exact H|]. rewrite H. split; [apply printed_since_print|].
  split; [done|]. split; [done|]. reflexivity.
Qed.

(** X2: the line of [setup] that describes board [b] lists the addresses of its
    configured slots as [0x<HEX>], separated by a comma and a blank, with no
    separator after the last and nothing for a board without sensors; the banner
    has one such line per board, in ascending order, and printing it does
    nothing else. *)
Theorem setup_banner_lists_addresses (cfg : list V2.SensorBoard) (b : nat) (w : World) :
  V2.print_board_line cfg b w =
    Serial_print
      ("Board " +:+ print_uint b +:+ ": Type " +:+
       V2.classification (V2.board_at cfg b) +:+
       ", Sensors: " +:+ print_uint (V2.count_at cfg b) +:+ ", Addresses: " +:+
       String.concat ", "
         (map (fun i => "0x" +:+ print_hex (V2.address_at cfg b i))
              (seq 0 (V2.count_at cfg b))) +:+ CRLF) w /\
  for_range 0 (V2.NUMBER_OF_BOARDS cfg) (V2.print_board_line cfg) w =
    Serial_print (text_of (map (V2Report.config_line cfg)
                               (seq 0 (V2.NUMBER_OF_BOARDS cfg)))) w /\
  V2Report.config_line V2.boardConfig 0 =
    "Board 0: Type 5X, Sensors: 5, Addresses: 0xC, 0x13, 0x12, 0x10, 0x11" +:+ CRLF /\
  V2Report.config_line V2.boardConfig 4 =
    "Board 4: Type 1XF, Sensors: 1, Addresses: 0xF" +:+ CRLF.
Proof.
  split; [apply v2_print_board_line_text|]. split; [|split; reflexivity].
  rewrite <- (print_nothing w) at 1. rewrite v2_banner_loop.
  by rewrite sapp_nil_l.
Qed.

(** ** Bus writes, pauses and kinds of events in the closed forms *)

Lemma total_pause_app t1 t2 :
  total_pause (t1 ++ t2) = (total_pause t1 + total_pause t2)%Z.
Proof.
  induction t1 as [|e t1 IH]; [done|].
  cbn [app total_pause fold_right]. fold (total_pause (t1 ++ t2)).
  fold (total_pause t1). lia.
Qed.

Lemma total_pause_delay us t :
  total_pause (EvDelay us :: t) = (us + total_pause t)%Z.
Proof. reflexivity. Qed.

Lemma wires_of_app t1 t2 : wires_of (t1 ++ t2) = wires_of t1 ++ wires_of t2.
Proof. apply omap_app. Qed.

Lemma wires_of_wire a bytes t :
  wires_of (EvWire a bytes :: t) = (a, bytes) :: wires_of t.
Proof. reflexivity. Qed.

Lemma wires_of_delay us t : wires_of (EvDelay us :: t) = wires_of t.
Proof. reflexivity. Qed.

Lemma flags_of_app t1 t2 : flags_of (t1 ++ t2) = flags_of t1 ++ flags_of t2.
Proof. apply omap_app. Qed.

Lemma flags_of_delay us t : flags_of (EvDelay us :: t) = flags_of t.
Proof. reflexivity. Qed.

Lemma flags_of_select b : flags_of (select_events b) = [].
Proof. unfold select_events. by destruct (b <=? 7). Qed.

Lemma total_pause_select b : total_pause (select_events b) = 0%Z.
Proof. unfold select_events. by destruct (b <=? 7). Qed.

Lemma wires_of_select b :
  wires_of (select_events b) = if b <=? 7 then [select_wire b] else [].
Proof. unfold select_events. by destruct (b <=? 7). Qed.

Lemma select_wires_upto k :
  flat_map (fun b => if b <=? 7 then [select_wire b] else []) (seq 0 k) =
  map select_wire (seq 0 (Nat.min k 8)).
Proof.
  induction k as [|k IH]; [done|].
  rewrite flat_map_seq_S, IH. destruct (Nat.leb_spec k 7) as [Hle|Hgt].
  - replace (Nat.min (Datatypes.S k) 8) with (Datatypes.S (Nat.min k 8)) by lia.
    rewrite seq_S, map_app. cbn [map Nat.add]. by rewrite Nat.min_l by lia.
  - rewrite app_nil_r. f_equal. f_equal. lia.
Qed.

Lemma selects_of_wires t : selects_of t = omap (fun '(a, bytes) =>
    if (a =? TCAADDR)%Z then last bytes else None) (wires_of t).
Proof.
  induction t as [|e t IH]; [done|].
  destruct e as [a bytes| | | | |]; cbn; try exact IH.
  unfold selects_of, wires_of in IH. cbn in IH.
  destruct (a =? TCAADDR)%Z; [destruct (last bytes)|]; cbn; by rewrite ?IH.
Qed.

Section Cycle_budget.

Variable d : nat -> Z.
Variable n : nat -> nat.
Variable init : nat -> nat -> bool.
Variable sample : nat -> nat -> txyz.

Local Abbreviation blk := (board_cycle d n init sample).

Lemma reads_quiet b (l : list nat) :
  wires_of (map (fun s => EvRead b s (chan b) (sample b s)) l) = [] /\
  total_pause (map (fun s => EvRead b s (chan b) (sample b s)) l) = 0%Z /\
  Forall (fun e => init_event e = false)
         (map (fun s => EvRead b s (chan b) (sample b s)) l).
Proof.
  induction l as [|s l (IH1 & IH2 & IH3)]; [by split_and!|].
  split_and!; [exact IH1|exact IH2|by constructor].
Qed.

Lemma wires_of_blk b :
  wires_of (blk b) = if b <=? 7 then [select_wire b] else [].
Proof.
  unfold board_cycle, cycle_block.
  rewrite wires_of_app, wires_of_select, wires_of_delay.
  rewrite (proj1 (reads_quiet b _)). by rewrite app_nil_r.
Qed.

Lemma wires_of_cycle k :
  wires_of (flat_map blk (seq 0 k)) = map select_wire (seq 0 (Nat.min k 8)).
Proof.
  rewrite <- select_wires_upto.
  induction k as [|k IH]; [done|].
  rewrite !flat_map_seq_S, wires_of_app, IH.
  f_equal. apply wires_of_blk.
Qed.

Lemma total_pause_blk b : total_pause (blk b) = d b.
Proof.
  unfold board_cycle, cycle_block.
  rewrite total_pause_app, total_pause_select, total_pause_delay.
  rewrite (proj1 (proj2 (reads_quiet b _))). lia.
Qed.

Lemma total_pause_cycle k : total_pause (flat_map blk (seq 0 k)) = sum_upto d k.
Proof.
  induction k as [|k IH]; [done|].
  rewrite flat_map_seq_S, total_pause_app, IH, total_pause_blk. done.
Qed.

Lemma cycle_no_init k :
  Forall (fun e => init_event e = false) (flat_map blk (seq 0 k)).
Proof.
  apply Forall_flat_map. intros b _.
  unfold board_cycle, cycle_block, select_events.
  apply Forall_app. split; [destruct (b <=? 7); by repeat constructor|].
  constructor; [done|]. apply reads_quiet.
Qed.

End Cycle_budget.

Section Setup_budget.

Variable d1 d2 : Z.
Variable n : nat -> nat.
Variable m : nat.
Variable addr status : nat -> nat -> Z.

Local Abbreviation iblk := (board_setup d1 d2 n m addr status).

Lemma slot_events_facts b s :
  wires_of (init_slot_events d2 b s (addr b s) (status b s)) = [] /\
  total_pause (init_slot_events d2 b s (addr b s) (status b s)) = d2 /\
  flags_of (init_slot_events d2 b s (addr b s) (status b s)) = [(b, s)] /\
  Forall (fun e => read_event e = false)
         (init_slot_events d2 b s (addr b s) (status b s)).
Proof.
  unfold init_slot_events.
  destruct (status b s =? 0)%Z;
    (split_and!;
      [ reflexivity
      | unfold total_pause; cbn [app fold_right pause_of]; lia
      | reflexivity
      | cbn [app]; by repeat constructor ]).
Qed.

Lemma slots_events_facts b k :
  let t := flat_map (fun s => init_slot_events d2 b s (addr b s) (status b s))
                    (seq 0 k) in
  wires_of t = [] /\
  total_pause t = (d2 * Z.of_nat k)%Z /\
  flags_of t = slots b k /\
  Forall (fun e => read_event e = false) t.
Proof.
  cbv zeta. induction k as [|k (IH1 & IH2 & IH3 & IH4)].
  { split_and!; [done| |done|constructor].
    unfold total_pause. cbn [seq flat_map fold_right]. lia. }
  destruct (slot_events_facts b k) as (H1 & H2 & H3 & H4).
  rewrite flat_map_seq_S.
  rewrite wires_of_app, flags_of_app, total_pause_app, IH1, IH2, IH3, H1, H2, H3.
  split_and!; [done|lia| |by apply Forall_app].
  unfold slots. by rewrite seq_S, map_app.
Qed.

Lemma cleared_flags_facts b (l : list nat) :
  wires_of (map (fun s => EvFlag b s false) l) = [] /\
  total_pause (map (fun s => EvFlag b s false) l) = 0%Z /\
  flags_of (map (fun s => EvFlag b s false) l) = map (pair b) l /\
  Forall (fun e => read_event e = false) (map (fun s => EvFlag b s false) l).
Proof.
  induction l as [|s l (IH1 & IH2 & IH3 & IH4)]; [by split_and!|].
  split_and!; [exact IH1|exact IH2| |by constructor].
  cbn. unfold flags_of in IH3. by rewrite IH3.
Qed.

Lemma iblk_facts b :
  wires_of (iblk b) = (if b <=? 7 then [select_wire b] else []) /\
  total_pause (iblk b) = (d1 + d2 * Z.of_nat (n b))%Z /\
  flags_of (iblk b) = slots b (n b) ++ map (pair b) (seq (n b) (m - n b)) /\
  Forall (fun e => read_event e = false) (iblk b).
Proof.
  unfold board_setup, setup_block.
  destruct (slots_events_facts b (n b)) as (H1 & H2 & H3 & H4).
  destruct (cleared_flags_facts b (seq (n b) (m - n b))) as (C1 & C2 & C3 & C4).
  split_and!.
  - rewrite wires_of_app, wires_of_delay, wires_of_app, H1, C1, app_nil_r.
    by rewrite wires_of_select.
  - rewrite total_pause_app, total_pause_select, total_pause_delay.
    rewrite total_pause_app, H2, C2. lia.
  - by rewrite flags_of_app, flags_of_delay, flags_of_app, H3, C3, flags_of_select.
  - apply Forall_app. split.
    { unfold select_events. destruct (b <=? 7); by repeat constructor. }
    constructor; [done|]. by apply Forall_app.
Qed.

Lemma wires_of_setup k :
  wires_of (flat_map iblk (seq 0 k)) = map select_wire (seq 0 (Nat.min k 8)).
Proof.
  rewrite <- select_wires_upto.
  induction k as [|k IH]; [done|].
  rewrite !flat_map_seq_S, wires_of_app, IH.
  f_equal. apply iblk_facts.
Qed.

Lemma total_pause_setup k :
  total_pause (flat_map iblk (seq 0 k)) =
  sum_upto (fun b => d1 + d2 * Z.of_nat (n b))%Z k.
Proof.
  induction k as [|k IH]; [done|].
  rewrite flat_map_seq_S, total_pause_app, IH.
  rewrite (proj1 (proj2 (iblk_facts k))). done.
Qed.

Lemma flags_of_setup k :
  (forall b, b < k -> n b <= m) ->
  flags_of (flat_map iblk (seq 0 k)) = flat_map (fun b => slots b m) (seq 0 k).
Proof.
  induction k as [|k IH]; intros Hn; [done|].
  rewrite !flat_map_seq_S, flags_of_app, IH by (intros; apply Hn; lia).
  f_equal. destruct (iblk_facts k) as (_ & _ & H & _).
  rewrite H. unfold slots. rewrite <- map_app. f_equal.
  specialize (Hn k ltac:(lia)).
  replace m with (n k + (m - n k)) at 2 by lia. by rewrite seq_app.
Qed.

Lemma setup_no_read k :
  Forall (fun e => read_event e = false) (flat_map iblk (seq 0 k)).
Proof.
  apply Forall_flat_map. intros b _. apply iblk_facts.
Qed.

End Setup_budget.

(** ** Sums along the board table *)

Lemma sum_upto_ext (f g : nat -> Z) k :
  (forall b, b < k -> f b = g b) -> sum_upto f k = sum_upto g k.
Proof.
  induction k as [|k IH]; intros H; [done|].
  cbn [sum_upto]. rewrite IH by (intros; apply H; lia). by rewrite H by lia.
Qed.

Lemma sum_upto_const c k : sum_upto (fun _ => c) k = (c * Z.of_nat k)%Z.
Proof. induction k as [|k IH]; cbn [sum_upto]; lia. Qed.

Lemma sum_upto_affine (f : nat -> Z) c e k :
  sum_upto (fun b => c + e * f b)%Z k = (c * Z.of_nat k + e * sum_upto f k)%Z.
Proof. induction k as [|k IH]; cbn [sum_upto]; lia. Qed.

Lemma sensor_total_snoc (l : list V2.SensorBoard) B :
  V2Report.sensor_total (l ++ [B]) = V2Report.sensor_total l + V2.numSensors B.
Proof.
  unfold V2Report.sensor_total. induction l as [|A l IH]; simpl; [lia|].
  rewrite IH. lia.
Qed.

Lemma count_at_app_l (l l' : list V2.SensorBoard) b :
  b < length l -> V2.count_at (l ++ l') b = V2.count_at l b.
Proof.
  intros Hb. unfold V2.count_at, V2.board_at. by rewrite lookup_app_l.
Qed.

Lemma count_at_snoc (l : list V2.SensorBoard) B :
  V2.count_at (l ++ [B]) (length l) = V2.numSensors B.
Proof.
  unfold V2.count_at, V2.board_at.
  rewrite lookup_app_r by lia. by rewrite Nat.sub_diag.
Qed.

Lemma sum_counts (cfg : list V2.SensorBoard) :
  sum_upto (fun b => Z.of_nat (V2.count_at cfg b)) (length cfg) =
  Z.of_nat (V2Report.sensor_total cfg).
Proof.
  induction cfg as [|B l IH] using rev_ind; [done|].
  rewrite length_app. cbn [length]. rewrite Nat.add_1_r. cbn [sum_upto].
  rewrite count_at_snoc, sensor_total_snoc.
  rewrite (sum_upto_ext _ (fun b => Z.of_nat (V2.count_at l b))).
  - rewrite IH. lia.
  - intros b Hb. by rewrite count_at_app_l.
Qed.

Lemma length_frame_fields (cfg : list V2.SensorBoard) rd :
  length (V2Spec.frame_fields cfg rd) = 3 * V2Report.sensor_total cfg.
Proof.
  unfold V2Spec.frame_fields.
  assert (H : forall k,
    Z.of_nat (length (flat_map (fun b => flat_map (V2Spec.sensor_fields rd b)
                        (seq 0 (V2.count_at cfg b))) (seq 0 k))) =
    (3 * sum_upto (fun b => Z.of_nat (V2.count_at cfg b)) k)%Z).
  { induction k as [|k IH]; [done|].
    rewrite flat_map_seq_S, length_app, Nat2Z.inj_add, IH. cbn [sum_upto].
    rewrite (length_flat_map_const _ _ 3) by done. rewrite length_seq. lia. }
  specialize (H (length cfg)). rewrite sum_counts in H. lia.
Qed.

(** ** Second sketch: register, bus writes and pauses of [setup] and [loop] *)

Section V2_budget.
Import V2 V2Spec.

Variable cfg : list SensorBoard.
Variable drv : Driver.

Lemma v2_collect_mux st :
  wf_config cfg -> wf_state cfg st -> length cfg <> 0 ->
  mux_reg (world (collect cfg drv st)) = chan (length cfg - 1).
Proof.
  intros Hcfg Hwf Hn. unfold collect, NUMBER_OF_BOARDS.
  cut (length cfg <= length cfg ->
       wf_state cfg (for_range 0 (length cfg) (collect_board cfg drv) st) /\
       (length cfg <> 0 ->
        mux_reg (world (for_range 0 (length cfg) (collect_board cfg drv) st)) =
          chan (length cfg - 1))).
  { intros H. by apply H. }
  apply (for_range_inv (fun k st' =>
    k <= length cfg ->
    wf_state cfg st' /\ (k <> 0 -> mux_reg (world st') = chan (k - 1))));
    [lia| | ].
  - done.
  - intros k s [_ Hk] IH _. destruct IH as (Hwf' & Hmux); [lia|].
    destruct (v2_collect_board_spec cfg drv k s Hcfg Hwf' Hk Hmux)
      as (_ & Hwf1 & Hmux1 & _).
    split; [done|]. intros _. by replace (Datatypes.S k - 1) with k by lia.
Qed.

Lemma v2_loop_mux st :
  wf_config cfg -> wf_state cfg st -> length cfg <> 0 ->
  mux_reg (world (loop cfg drv st)) = chan (length cfg - 1).
Proof.
  intros Hcfg Hwf Hn. unfold loop. rewrite v2_emit_spec.
  cbn [world on_world Serial_print mux_reg]. by apply v2_collect_mux.
Qed.

Lemma v2_loop_events st :
  wf_config cfg -> wf_state cfg st ->
  events_since (world st) (world (loop cfg drv st)) =
  flat_map (board_block cfg drv st) (seq 0 (length cfg)).
Proof.
  intros Hcfg Hwf. apply events_since_app.
  by destruct (v2_loop_spec cfg drv st Hcfg Hwf) as (_ & _ & Htr & _).
Qed.

Lemma v2_setup_events st :
  wf_config cfg -> wf_state cfg st ->
  events_since (world st) (world (setup cfg drv st)) =
  EvDelay 10000 :: flat_map (init_block cfg drv) (seq 0 (length cfg)).
Proof.
  intros Hcfg Hwf. apply events_since_app.
  by destruct (v2_setup_spec cfg drv st Hcfg Hwf) as (_ & Htr & _).
Qed.

End V2_budget.

Lemma chan_one_hot b : one_hot (chan b).
Proof. exists (Z.of_nat (Nat.min b 7)). split; [lia|done]. Qed.

Lemma chan_shared b : 7 <= b -> chan b = 128%Z.
Proof. intros Hb. unfold chan. by rewrite Nat.min_r by lia. Qed.

(** X3: in every cycle of the second sketch the only bus transmissions of the
    sketch itself are the channel selections: one byte to the multiplexer for
    each of the first eight boards, the masks 1, 2, 4, ... in this order, and
    none for a board beyond the eighth; the same holds for [setup]. The register
    is left with the channel of the last board (of board 7 when the table is
    longer) enabled alone, and with at most eight boards every sample is read
    while the channel of its own board, and no other, is enabled. *)
Theorem cycle_mux_writes (cfg : list V2.SensorBoard) (drv : Driver) (st : V2.State) :
  V2.wf_config cfg -> V2.wf_state cfg st ->
  let after := V2.loop cfg drv st in
  let t := events_since (V2.world st) (V2.world after) in
  wires_of t = map select_wire (seq 0 (Nat.min (V2.NUMBER_OF_BOARDS cfg) 8)) /\
  wires_of (events_since (V2.world st) (V2.world (V2.setup cfg drv st))) =
    map select_wire (seq 0 (Nat.min (V2.NUMBER_OF_BOARDS cfg) 8)) /\
  (V2.NUMBER_OF_BOARDS cfg <> 0 ->
     mux_reg (V2.world after) =
       (2 ^ Z.of_nat (Nat.min (V2.NUMBER_OF_BOARDS cfg - 1) 7))%Z /\
     one_hot (mux_reg (V2.world after))) /\
  (V2.NUMBER_OF_BOARDS cfg <= 8 ->
     forall b s c r, In (EvRead b s c r) t -> c = (2 ^ Z.of_nat b)%Z).
Proof.
  intros Hcfg Hwf. cbv zeta. unfold V2.NUMBER_OF_BOARDS.
  rewrite v2_loop_events, v2_setup_events by done.
  split; [|split; [|split]].
  - exact (wires_of_cycle (fun _ => 100%Z) (V2.count_at cfg) (V2Spec.initialized st)
             (fun b s => drv_read drv b s (chan b)) (length cfg)).
  - rewrite wires_of_delay.
    exact (wires_of_setup 20000 5000 (V2.count_at cfg) 5 (V2.address_at cfg)
             (V2Spec.status_of cfg drv) (length cfg)).
  - intros Hn. rewrite v2_loop_mux by done. split; [done|apply chan_one_hot].
  - intros Hn b s c r Hin.
    apply (read_in_cycle (fun _ => 100%Z) (V2.count_at cfg)
             (V2Spec.initialized st)
             (fun b s => drv_read drv b s (chan b)) (length cfg))
      in Hin as (Hb & _ & _ & -> & _).
    unfold chan. by rewrite Nat.min_l by lia.
Qed.

Lemma cycle_mux_writes_witness :
  wires_of (events_since (V2.world (V2.power_on V2.boardConfig))
              (V2.world (V2.loop V2.boardConfig ok_driver
                           (V2.power_on V2.boardConfig)))) =
    [ (112, [1]); (112, [2]); (112, [4]); (112, [8]);
      (112, [16]); (112, [32]); (112, [64]); (112, [128]) ]%Z /\
  mux_reg (V2.world (V2.loop V2.boardConfig ok_driver
                       (V2.power_on V2.boardConfig))) = 128%Z.
Proof.
  destruct (cycle_mux_writes V2.boardConfig ok_driver (V2.power_on V2.boardConfig))
    as (H1 & _ & H3 & _); [by_computation..|].
  split; [exact H1|]. apply H3. discriminate.
Defined.

(** ** First sketch: register, bus writes and pauses of [setup] and [loop] *)

Section V1_budget.
Import V1 V1Spec.

Variable drv : Driver.

Lemma v1_loop_events st :
  wf_state st ->
  events_since (world st) (world (loop drv st)) =
  flat_map (board_block drv st) (seq 0 NUMBER_OF_BOARDS) ++ [EvDelay 500].
Proof.
  intros Hwf. apply events_since_app.
  by destruct (v1_loop_spec drv st Hwf) as (_ & _ & Htr & _).
Qed.

Lemma v1_setup_events st :
  wf_state st ->
  events_since (world st) (world (setup drv st)) =
  EvDelay 10000 :: flat_map (init_block drv) (seq 0 NUMBER_OF_BOARDS).
Proof.
  intros Hwf. apply events_since_app.
  by destruct (v1_setup_spec drv st Hwf) as (_ & Htr & _).
Qed.

Lemma v1_loop_mux st :
  wf_state st -> mux_reg (world (loop drv st)) = 128%Z.
Proof.
  intros (Hd & _ & _). unfold loop. cbv zeta.
  destruct (v1_loop_boards_spec drv NUMBER_OF_BOARDS st Hd (le_n _))
    as (_ & _ & _ & Hmux & _).
  revert Hmux. generalize (for_range 0 NUMBER_OF_BOARDS (loop_board drv) st).
  intros st1 Hmux.
  cbn [world on_world Serial_print delayMicroseconds log mux_reg].
  rewrite Hmux by done. reflexivity.
Qed.

End V1_budget.

(** X4: the first sketch serves twenty boards through a multiplexer of eight
    channels: a cycle selects the channels 0 to 7 once each and makes no further
    bus write, so the boards 7 to 19 are all read while channel 7 is the one
    enabled, and the register is left at that mask; in [setup] the handles of
    these boards are likewise initialised through channel 7. *)
Theorem first_sketch_boards_share_channel_7 (drv now : Driver) (st : V1.State) :
  V1.wf_state st ->
  let t := events_since (V1.world st) (V1.world (V1.loop now st)) in
  wires_of t = map select_wire (seq 0 8) /\
  (forall b s c r, In (EvRead b s c r) t -> 7 <= b -> c = 128%Z) /\
  (forall b s c r, In (EvRead b s c r) t -> b <= 7 -> c = (2 ^ Z.of_nat b)%Z) /\
  mux_reg (V1.world (V1.loop now st)) = 128%Z /\
  wires_of (events_since (V1.world st) (V1.world (V1.setup drv st))) =
    map select_wire (seq 0 8) /\
  (forall b s, 7 <= b < V1.NUMBER_OF_BOARDS -> s < V1.NUMBER_OF_SENSORS_PER_BOARD ->
     V1Spec.initialized (V1.setup drv st) b s =
     (drv_begin drv b s 128 (V1.address_at s) mod 256 =? 0)%Z).
Proof.
  intros Hwf. cbv zeta.
  rewrite v1_loop_events, v1_setup_events by done.
  pose proof (read_in_cycle (fun _ => 10000%Z)
                (fun _ => V1.NUMBER_OF_SENSORS_PER_BOARD) (V1Spec.initialized st)
                (fun b s => drv_read now b s (chan b)) V1.NUMBER_OF_BOARDS) as Hread.
  assert (Hin : forall b s c r,
    In (EvRead b s c r)
       (flat_map (V1Spec.board_block now st) (seq 0 V1.NUMBER_OF_BOARDS) ++
        [EvDelay 500]) -> c = chan b).
  { intros b s c r Hin. apply in_app_or in Hin as [Hin|[Hin|[]]]; [|done].
    by apply Hread in Hin as (_ & _ & _ & -> & _). }
  split_and!.
  - rewrite wires_of_app, app_nil_r.
    exact (wires_of_cycle (fun _ => 10000%Z)
             (fun _ => V1.NUMBER_OF_SENSORS_PER_BOARD) (V1Spec.initialized st)
             (fun b s => drv_read now b s (chan b)) V1.NUMBER_OF_BOARDS).
  - intros b s c r H Hb. rewrite (Hin b s c r H). by apply chan_shared.
  - intros b s c r H Hb. rewrite (Hin b s c r H). unfold chan.
    by rewrite Nat.min_l by lia.
  - by apply v1_loop_mux.
  - rewrite wires_of_delay.
    exact (wires_of_setup 50000 10000 (fun _ => V1.NUMBER_OF_SENSORS_PER_BOARD)
             V1.NUMBER_OF_SENSORS_PER_BOARD (fun _ => V1.address_at)
             (V1Spec.status_of drv) V1.NUMBER_OF_BOARDS).
  - intros b s [Hb7 Hb] Hs.
    destruct (v1_setup_spec drv st Hwf) as (_ & _ & Hfl).
    rewrite (Hfl b s Hb Hs). unfold V1Spec.init_flag, V1Spec.status_of.
    by rewrite chan_shared.
Qed.

Lemma first_sketch_boards_share_channel_7_witness :
  wires_of (events_since (V1.world v1_ready)
              (V1.world (V1.loop ok_driver v1_ready))) =
    [ (112, [1]); (112, [2]); (112, [4]); (112, [8]);
      (112, [16]); (112, [32]); (112, [64]); (112, [128]) ]%Z /\
  mux_reg (V1.world (V1.loop ok_driver v1_ready)) = 128%Z.
Proof.
  destruct (first_sketch_boards_share_channel_7 ok_driver ok_driver v1_ready)
    as (H1 & _ & _ & H4 & _); [by_computation|].
  split; [exact H1|exact H4].
Defined.

(** X5: the pauses of the second sketch do not depend on the devices: a cycle
    waits 100 microseconds per board and nothing else, and [setup] waits 10 ms,
    then 20 ms per board and 5 ms per configured sensor, whether the sensors
    answer or not; for the table of the repository that is 800 microseconds a
    cycle and 270 ms for [setup]. *)
Theorem pause_budget (cfg : list V2.SensorBoard) (drv : Driver) (st : V2.State) :
  V2.wf_config cfg -> V2.wf_state cfg st ->
  total_pause (events_since (V2.world st) (V2.world (V2.loop cfg drv st))) =
    (100 * Z.of_nat (V2.NUMBER_OF_BOARDS cfg))%Z /\
  total_pause (events_since (V2.world st) (V2.world (V2.setup cfg drv st))) =
    (10000 + 20000 * Z.of_nat (V2.NUMBER_OF_BOARDS cfg) +
     5000 * Z.of_nat (V2Report.sensor_total cfg))%Z /\
  (100 * Z.of_nat (V2.NUMBER_OF_BOARDS V2.boardConfig) = 800)%Z /\
  (10000 + 20000 * Z.of_nat (V2.NUMBER_OF_BOARDS V2.boardConfig) +
   5000 * Z.of_nat (V2Report.sensor_total V2.boardConfig) = 270000)%Z.
Proof.
  intros Hcfg Hwf. rewrite v2_loop_events, v2_setup_events by done.
  unfold V2.NUMBER_OF_BOARDS. split_and!; [| |reflexivity|reflexivity].
  - rewrite (total_pause_cycle (fun _ => 100%Z) (V2.count_at cfg)
               (V2Spec.initialized st) (fun b s => drv_read drv b s (chan b))).
    apply sum_upto_const.
  - rewrite total_pause_delay.
    rewrite (total_pause_setup 20000 5000 (V2.count_at cfg) 5 (V2.address_at cfg)
               (V2Spec.status_of cfg drv)).
    rewrite (sum_upto_affine (fun b => Z.of_nat (V2.count_at cfg b))).
    rewrite sum_counts. lia.
Qed.

Lemma pause_budget_witness :
  total_pause (events_since (V2.world (V2.power_on two_boards))
                 (V2.world (V2.setup two_boards demo_driver (V2.power_on two_boards))))
    = 65000%Z /\
  total_pause (events_since (V2.world two_boards_ready)
                 (V2.world (V2.loop two_boards demo_driver two_boards_ready)))
    = 200%Z.
Proof.
  destruct (pause_budget two_boards demo_driver (V2.power_on two_boards))
    as (_ & H2 & _); [by_computation..|].
  destruct (pause_budget two_boards demo_driver two_boards_ready)
    as (H1 & _); [by_computation..|].
  split; [exact H2|exact H1].
Defined.

(** X6: the pauses of the first sketch are the same whatever the devices do: a
    cycle waits 10 ms for each of the twenty boards and 500 microseconds at its
    end, 200.5 ms in all, and [setup] waits 10 ms, then 50 ms per board and 10
    ms per sensor, 2.01 s in all. *)
Theorem first_sketch_pause_budget (drv : Driver) (st : V1.State) :
  V1.wf_state st ->
  total_pause (events_since (V1.world st) (V1.world (V1.loop drv st))) = 200500%Z /\
  total_pause (events_since (V1.world st) (V1.world (V1.setup drv st))) = 2010000%Z.
Proof.
  intros Hwf. rewrite v1_loop_events, v1_setup_events by done. split.
  - rewrite total_pause_app.
    rewrite (total_pause_cycle (fun _ => 10000%Z)
               (fun _ => V1.NUMBER_OF_SENSORS_PER_BOARD) (V1Spec.initialized st)
               (fun b s => drv_read drv b s (chan b))).
    reflexivity.
  - rewrite total_pause_delay.
    rewrite (total_pause_setup 50000 10000 (fun _ => V1.NUMBER_OF_SENSORS_PER_BOARD)
               V1.NUMBER_OF_SENSORS_PER_BOARD (fun _ => V1.address_at)
               (V1Spec.status_of drv)).
    reflexivity.
Qed.

Lemma first_sketch_pause_budget_witness :
  total_pause (events_since (V1.world v1_mixed)
                 (V1.world (V1.loop flaky_driver v1_mixed))) = 200500%Z.
Proof.
  destruct (first_sketch_pause_budget flaky_driver v1_mixed) as (H1 & _);
    [by_computation|].
  exact H1.
Defined.

(** ** What [setup] leaves behind and what [loop] keeps *)

(** X7: after [setup] of the second sketch, from whatever state it starts, every
    cell of the snapshot buffer holds x = 0, y = 0, z = 0 and is marked invalid,
    the flag of a configured slot tells whether its device answered with status
    0, and the flag of every slot a board does not have is false. *)
Theorem setup_leaves_clean_snapshot
    (cfg : list V2.SensorBoard) (drv : Driver) (st : V2.State) (b s : nat) :
  V2.wf_config cfg -> V2.wf_state cfg st ->
  b < V2.NUMBER_OF_BOARDS cfg -> s < V2.MAX_SENSORS ->
  let ready := V2.setup cfg drv st in
  V2Spec.cell ready b s = (Txyz 0 0 0, false) /\
  V2Spec.initialized ready b s =
    (s <? V2.count_at cfg b) &&
    (drv_begin drv b s (chan b) (V2.address_at cfg b s) mod 256 =? 0)%Z /\
  (V2.count_at cfg b <= s -> V2Spec.initialized ready b s = false) /\
  V2.wf_state cfg ready.
Proof.
  intros Hcfg Hwf Hb Hs. cbv zeta.
  destruct (v2_setup_spec cfg drv st Hcfg Hwf) as (Hwf' & _ & Hfl & Hc).
  split; [by apply Hc|]. split; [by apply Hfl|]. split; [|done].
  intros Hge. rewrite Hfl by done. unfold V2Spec.init_flag.
  by destruct (Nat.ltb_spec s (V2.count_at cfg b)); [lia|].
Qed.

Lemma setup_leaves_clean_snapshot_witness :
  V2Spec.cell (V2.setup two_boards demo_driver two_boards_stale) 0 1
    = (Txyz 0 0 0, false) /\
  V2Spec.initialized (V2.setup two_boards demo_driver two_boards_stale) 0 1 = true /\
  V2Spec.initialized (V2.setup two_boards demo_driver two_boards_stale) 1 0 = false.
Proof.
  destruct (setup_leaves_clean_snapshot two_boards demo_driver two_boards_stale 0 1)
    as (H1 & H2 & _); [by_computation..|].
  destruct (setup_leaves_clean_snapshot two_boards demo_driver two_boards_stale 1 0)
    as (_ & H3 & _); [by_computation..|].
  split; [exact H1|]. split; [exact H2|exact H3].
Defined.



(** X9: the line the first sketch prints in the cycle after [setup] has, for
    every endpoint whose device answered with status 0 in [setup], the three
    fields tagged [Board<b>SensorX:], [..Y:], [..Z:] with the sample just read,
    and for every other endpoint the three fields 0, 0, 0. *)
Theorem first_sketch_line_after_setup
    (drv now : Driver) (st : V1.State) (b s : nat) :
  V1.wf_state st ->
  b < V1.NUMBER_OF_BOARDS -> s < V1.NUMBER_OF_SENSORS_PER_BOARD ->
  let ready := V1.setup drv st in
  let status := (drv_begin drv b s (chan b) (V1.address_at s) mod 256)%Z in
  printed_since (V1.world ready) (V1.world (V1.loop now ready)) =
    V1Spec.tab_terminated
      (flat_map (fun b => flat_map (V1Spec.sensor_fields now ready b)
                            (seq 0 V1.NUMBER_OF_SENSORS_PER_BOARD))
                (seq 0 V1.NUMBER_OF_BOARDS)) +:+ CRLF /\
  V1Spec.sensor_fields now ready b s =
    (if (status =? 0)%Z then
       [ "Board" +:+ print_uint b +:+ "SensorX:" +:+
           print_int (x (drv_read now b s (chan b)));
         "Board" +:+ print_uint b +:+ "SensorY:" +:+
           print_int (y (drv_read now b s (chan b)));
         "Board" +:+ print_uint b +:+ "SensorZ:" +:+
           print_int (z (drv_read now b s (chan b))) ]
     else ["0"; "0"; "0"]).
Proof.
  intros Hwf Hb Hs. cbv zeta.
  destruct (v1_setup_spec drv st Hwf) as (Hwf1 & _ & Hfl).
  specialize (Hfl b s Hb Hs). unfold V1Spec.init_flag, V1Spec.status_of in Hfl.
  revert Hwf1 Hfl. generalize (V1.setup drv st). intros ready Hwf1 Hfl.
  destruct (v1_loop_spec now ready Hwf1) as (_ & _ & _ & Hser).
  split.
  - unfold printed_since. rewrite Hser. apply drop_chars_app.
  - destruct (drv_begin drv b s (chan b) (V1.address_at s) mod 256 =? 0)%Z.
    + by apply v1_tagged_fields.
    + by apply v1_placeholder_fields.
Qed.

Lemma first_sketch_line_after_setup_witness :
  V1Spec.sensor_fields other_driver (V1.setup flaky_driver V1.power_on) 9 1
    = ["0"; "0"; "0"] /\
  V1Spec.sensor_fields other_driver (V1.setup flaky_driver V1.power_on) 9 2
    = ["Board9SensorX:-4"; "Board9SensorY:5"; "Board9SensorZ:600"].
Proof.
  destruct (first_sketch_line_after_setup flaky_driver other_driver V1.power_on 9 1)
    as (_ & H1); [by_computation..|].
  destruct (first_sketch_line_after_setup flaky_driver other_driver V1.power_on 9 2)
    as (_ & H2); [by_computation..|].
  split; [exact H1|exact H2].
Defined.

(** ** Division of labour between [setup] and [loop] *)

Lemma Forall_events_since_trans (P : Event -> Prop) (w1 w2 w3 : World) t1 t2 :
  trace w2 = trace w1 ++ t1 -> trace w3 = trace w2 ++ t2 ->
  Forall P t1 -> Forall P t2 ->
  trace w3 = trace w1 ++ (t1 ++ t2) /\ Forall P (t1 ++ t2).
Proof.
  intros H1 H2 F1 F2. split; [by rewrite H2, H1, app_assoc|by apply Forall_app].
Qed.

Section V2_division.
Import V2 V2Spec.

Variable cfg : list SensorBoard.

Lemma v2_cycles_events ds st :
  wf_config cfg -> wf_state cfg st ->
  exists t, trace (world (cycles cfg ds st)) = trace (world st) ++ t /\
            Forall (fun e => init_event e = false) t.
Proof.
  intros Hcfg. revert st. induction ds as [|d ds IH]; intros st Hwf.
  - exists []. by rewrite app_nil_r.
  - destruct (v2_loop_spec cfg d st Hcfg Hwf) as (_ & Hwf' & Htr & _).
    destruct (IH _ Hwf') as (t & Ht & Hall).
    eexists. cbn [cycles fold_left]. fold (cycles cfg ds (loop cfg d st)).
    eapply Forall_events_since_trans; [exact Htr|exact Ht| |exact Hall].
    exact (cycle_no_init (fun _ => 100%Z) (count_at cfg) (initialized st)
             (fun b s => drv_read d b s (chan b)) (length cfg)).
Qed.

End V2_division.

(** X10: in the second sketch only [setup] initialises and only [loop] reads:
    any number of cycles leaves every initialisation flag as it was and makes no
    attempt to initialise a device, to start its burst mode or to assign a flag,
    so an endpoint that failed in [setup] is never tried again; and [setup]
    reads no sample. *)
Theorem loop_never_reinitializes
    (cfg : list V2.SensorBoard) (drv : Driver) (ds : list Driver) (st : V2.State) :
  V2.wf_config cfg -> V2.wf_state cfg st ->
  V2.sensorIsInitialized (V2Spec.cycles cfg ds st) = V2.sensorIsInitialized st /\
  Forall (fun e => init_event e = false)
         (events_since (V2.world st) (V2.world (V2Spec.cycles cfg ds st))) /\
  Forall (fun e => read_event e = false)
         (events_since (V2.world st) (V2.world (V2.setup cfg drv st))).
Proof.
  intros Hcfg Hwf. split; [by apply v2_cycles_spec|]. split.
  - destruct (v2_cycles_events cfg ds st Hcfg Hwf) as (t & Ht & Hall).
    by rewrite (events_since_app _ _ _ Ht).
  - rewrite v2_setup_events by done. constructor; [done|].
    exact (setup_no_read 20000 5000 (V2.count_at cfg) 5 (V2.address_at cfg)
             (V2Spec.status_of cfg drv) (length cfg)).
Qed.

Lemma loop_never_reinitializes_witness :
  V2.sensorIsInitialized
    (V2Spec.cycles two_boards [ok_driver; other_driver] two_boards_ready)
  = [[true; true; false; false; false]; [false; false; false; false; false]].
Proof.
  destruct (loop_never_reinitializes two_boards demo_driver [ok_driver; other_driver]
              two_boards_ready) as (H1 & _); [by_computation..|].
  exact H1.
Defined.

Section V1_division.
Import V1 V1Spec V1Report.

Lemma v1_cycles_events ds st :
  wf_state st ->
  wf_state (cycles ds st) /\
  sensorIsInitialized (cycles ds st) = sensorIsInitialized st /\
  exists t, trace (world (cycles ds st)) = trace (world st) ++ t /\
            Forall (fun e => init_event e = false) t.
Proof.
  revert st. induction ds as [|d ds IH]; intros st Hwf.
  - split; [done|]. split; [done|]. exists []. by rewrite app_nil_r.
  - destruct (v1_loop_spec d st Hwf) as (Hfl & Hwf' & Htr & _).
    cbn [cycles fold_left]. fold (cycles ds (loop d st)).
    revert Hfl Hwf' Htr. generalize (loop d st). intros st1 Hfl Hwf' Htr.
    destruct (IH _ Hwf') as (Hwf2 & Hfl2 & t & Ht & Hall).
    split; [done|]. split; [congruence|].
    eexists.
    eapply Forall_events_since_trans; [exact Htr|exact Ht| |exact Hall].
    apply Forall_app. split; [|by repeat constructor].
    exact (cycle_no_init (fun _ => 10000%Z) (fun _ => NUMBER_OF_SENSORS_PER_BOARD)
             (initialized st) (fun b s => drv_read d b s (chan b)) NUMBER_OF_BOARDS).
Qed.

End V1_division.

(** X11: in the first sketch, too, only [setup] initialises and only [loop]
    reads: any number of cycles leaves every initialisation flag and every
    y-offset as it was and makes no attempt to initialise a device, to start its
    burst mode or to assign a flag; and [setup] reads no sample. *)
Theorem first_sketch_loop_never_reinitializes
    (drv : Driver) (ds : list Driver) (st : V1.State) :
  V1.wf_state st ->
  V1.sensorIsInitialized (V1Report.cycles ds st) = V1.sensorIsInitialized st /\
  V1.yOffsets (V1Report.cycles ds st) = V1.yOffsets st /\
  Forall (fun e => init_event e = false)
         (events_since (V1.world st) (V1.world (V1Report.cycles ds st))) /\
  Forall (fun e => read_event e = false)
         (events_since (V1.world st) (V1.world (V1.setup drv st))).
Proof.
  intros Hwf.
  destruct (v1_cycles_events ds st Hwf) as ((_ & _ & Hy) & Hfl & t & Ht & Hall).
  split; [exact Hfl|]. split.
  { destruct Hwf as (_ & _ & Hy0). by rewrite Hy, Hy0. }
  split.
  - by rewrite (events_since_app _ _ _ Ht).
  - rewrite v1_setup_events by done. constructor; [done|].
    exact (setup_no_read 50000 10000 (fun _ => V1.NUMBER_OF_SENSORS_PER_BOARD)
             V1.NUMBER_OF_SENSORS_PER_BOARD (fun _ => V1.address_at)
             (V1Spec.status_of drv) V1.NUMBER_OF_BOARDS).
Qed.

Lemma first_sketch_loop_never_reinitializes_witness :
  V1.sensorIsInitialized (V1Report.cycles [ok_driver; other_driver] v1_mixed)
  = V1.sensorIsInitialized v1_mixed.
Proof.
  destruct (first_sketch_loop_never_reinitializes flaky_driver
              [ok_driver; other_driver] v1_mixed) as (H1 & _); [by_computation|].
  exact H1.
Defined.

(** X12: a cycle of the second sketch takes the whole snapshot before it prints
    anything: collecting the readings leaves the serial output as it was, and
    printing the frame makes no bus transfer and no driver call and changes
    neither the register, nor a flag, nor the buffer; what the cycle prints is
    the frame of the buffer as the collection left it. *)
Theorem snapshot_taken_before_output
    (cfg : list V2.SensorBoard) (drv : Driver) (st : V2.State) :
  V2.wf_config cfg -> V2.wf_state cfg st ->
  let mid := V2.collect cfg drv st in
  let after := V2.loop cfg drv st in
  serial (V2.world mid) = serial (V2.world st) /\
  trace (V2.world after) = trace (V2.world mid) /\
  mux_reg (V2.world after) = mux_reg (V2.world mid) /\
  V2.sensorIsInitialized after = V2.sensorIsInitialized mid /\
  V2.allReadings after = V2.allReadings mid /\
  printed_since (V2.world st) (V2.world after) =
    V2Spec.frame_line cfg (V2.readings (V2.allReadings mid)).
Proof.
  intros Hcfg Hwf. cbv zeta. unfold V2.loop. rewrite v2_emit_spec.
  destruct (v2_collect_spec cfg drv st Hcfg Hwf) as (_ & _ & Hser & _).
  split; [exact Hser|]. split_and!; try done.
  unfold printed_since.
  cbn [V2.world V2.on_world Serial_print serial]. rewrite Hser.
  apply drop_chars_app.
Qed.

Lemma snapshot_taken_before_output_witness :
  serial (V2.world (V2.collect two_boards demo_driver two_boards_ready)) =
    serial (V2.world two_boards_ready) /\
  trace (V2.world (V2.loop two_boards demo_driver two_boards_ready)) =
    trace (V2.world (V2.collect two_boards demo_driver two_boards_ready)).
Proof.
  destruct (snapshot_taken_before_output two_boards demo_driver two_boards_ready)
    as (H1 & H2 & _); [by_computation..|].
  split; [exact H1|exact H2].
Defined.

(** X13: the line of a cycle of the second sketch has three fields for every
    sensor of the table, boards of any size together, 60 for the table of the
    repository; when the table has no sensor at all the cycle prints the line
    break alone. *)
Theorem frame_field_count
    (cfg : list V2.SensorBoard) (drv : Driver) (st : V2.State) :
  V2.wf_config cfg -> V2.wf_state cfg st ->
  let line := printed_since (V2.world st) (V2.world (V2.loop cfg drv st)) in
  (V2Report.sensor_total cfg <> 0 ->
     length (record_fields line) = 3 * V2Report.sensor_total cfg) /\
  (V2Report.sensor_total cfg = 0 -> line = CRLF) /\
  3 * V2Report.sensor_total V2.boardConfig = 60.
Proof.
  intros Hcfg Hwf. cbv zeta.
  destruct (v2_loop_spec cfg drv st Hcfg Hwf) as (_ & _ & _ & _ & Hser).
  unfold printed_since. rewrite Hser, drop_chars_app.
  pose proof (length_frame_fields cfg
                (V2.readings (V2.allReadings (V2.loop cfg drv st)))) as Hlen.
  split; [|split; [|reflexivity]].
  - intros Hne. rewrite v2_record_fields_line.
    destruct (V2Spec.frame_fields cfg _); [simpl in Hlen; lia|done].
  - intros Hz. unfold V2Spec.frame_line.
    destruct (V2Spec.frame_fields cfg _); [done|simpl in Hlen; lia].
Qed.

Lemma frame_field_count_witness :
  length (record_fields
    (printed_since (V2.world (V2.power_on V2.boardConfig))
       (V2.world (V2.loop V2.boardConfig ok_driver (V2.power_on V2.boardConfig)))))
  = 60 /\
  printed_since (V2.world (V2.power_on []))
    (V2.world (V2.loop [] ok_driver (V2.power_on []))) = CRLF.
Proof.
  destruct (frame_field_count V2.boardConfig ok_driver (V2.power_on V2.boardConfig))
    as (H1 & _); [by_computation..|].
  destruct (frame_field_count [] ok_driver (V2.power_on []))
    as (_ & H2 & _); [by_computation..|].
  split; [apply H1; discriminate|apply H2; reflexivity].
Defined.

(** ** Runs of channel selections *)

Lemma in_range_snoc calls i :
  in_range (calls ++ [i]) = in_range calls ++ (if (7 <? i)%Z then [] else [i]).
Proof.
  unfold in_range. rewrite List.filter_app. cbn [List.filter].
  by destruct (7 <? i)%Z.
Qed.

Lemma select_all_snoc calls i w :
  select_all (calls ++ [i]) w = tcaSelect i (select_all calls w).
Proof. unfold select_all. by rewrite fold_left_app. Qed.

Lemma select_all_spec calls w :
  Forall (fun i => (0 <= i < 256)%Z) calls ->
  mux_reg (select_all calls w) =
    match last (in_range calls) with
    | Some i => (2 ^ i)%Z
    | None => mux_reg w
    end /\
  trace (select_all calls w) =
    trace w ++ map (fun i => EvWire TCAADDR [(2 ^ i)%Z]) (in_range calls) /\
  serial (select_all calls w) = serial w /\
  Forall (fun i => (0 <= i <= 7)%Z) (in_range calls).
Proof.
  induction calls as [|i calls IH] using rev_ind; intros Hall.
  - split_and!; [done|by rewrite app_nil_r|done|constructor].
  - apply Forall_app in Hall as [Hall Hi]. apply Forall_inv in Hi.
    destruct (IH Hall) as (Hm & Ht & Hs & Hr).
    rewrite select_all_snoc, in_range_snoc.
    destruct (Z.ltb_spec 7 i) as [Hgt|Hle].
    + rewrite tcaSelect_high by done. by rewrite app_nil_r.
    + rewrite tcaSelect_low by lia. cbn [mux_reg trace serial].
      rewrite last_snoc, Ht, map_app, <- app_assoc.
      split_and!; [done|done|done|].
      apply Forall_app. split; [done|]. constructor; [lia|constructor].
Qed.

(** X14: however [tcaSelect] is called, one 8-bit argument after the other, the
    register of the multiplexer ends up with the bit of the last argument from 0
    to 7 set and no other, arguments above 7 being skipped; one byte goes over
    the bus for every argument from 0 to 7 and none for the others; a register
    that had at most one channel enabled never gets two, and nothing is printed. *)
Theorem tcaSelect_last_valid_wins (calls : list Z) (w : World) :
  Forall (fun i => (0 <= i < 256)%Z) calls ->
  let w' := select_all calls w in
  mux_reg w' =
    match last (in_range calls) with
    | Some i => Z.shiftl 1 i
    | None => mux_reg w
    end /\
  wires_of (events_since w w') =
    map (fun i => (TCAADDR, [Z.shiftl 1 i])) (in_range calls) /\
  (mux_reg w = 0%Z \/ one_hot (mux_reg w) ->
   mux_reg w' = 0%Z \/ one_hot (mux_reg w')) /\
  serial w' = serial w.
Proof.
  intros Hall. cbv zeta.
  destruct (select_all_spec calls w Hall) as (Hm & Ht & Hs & Hr).
  split_and!.
  - rewrite Hm. destruct (last (in_range calls)); [|done]. by rewrite Z.shiftl_1_l.
  - rewrite (events_since_app _ _ _ Ht).
    clear. induction (in_range calls) as [|i l IH]; [done|].
    cbn [map]. by rewrite wires_of_wire, IH, Z.shiftl_1_l.
  - intros H0. rewrite Hm.
    destruct (last (in_range calls)) as [i|] eqn:Hlast; [|done].
    right. exists i. split; [|done].
    rewrite Forall_forall in Hr. apply Hr.
    apply last_Some in Hlast as [l' ->]. apply list_elem_of_In, in_or_app.
    right. by left.
  - exact Hs.
Qed.

Lemma tcaSelect_last_valid_wins_witness :
  mux_reg (select_all [3; 9; 200; 5; 8]%Z (mkWorld 0 0 [] [] EmptyString)) = 32%Z /\
  wires_of (events_since (mkWorld 0 0 [] [] EmptyString)
              (select_all [3; 9; 200; 5; 8]%Z (mkWorld 0 0 [] [] EmptyString)))
    = [(112, [8]); (112, [32])]%Z.
Proof.
  destruct (tcaSelect_last_valid_wins [3; 9; 200; 5; 8]%Z
              (mkWorld 0 0 [] [] EmptyString)) as (H1 & H2 & _).
  { repeat constructor; lia. }
  split; [exact H1|exact H2].
Defined.

(** ** Flags assigned by [setup] *)

(** X15: [setup] assigns the flag of every slot of every board exactly once, in
    ascending board-then-slot order, the five flags of a board whatever its
    sensor count: no flag keeps the value it had, and no flag outside the array
    is written. Both sketches. *)
Theorem setup_assigns_every_flag_once
    (cfg : list V2.SensorBoard) (drv drv1 : Driver)
    (st : V2.State) (st1 : V1.State) :
  V2.wf_config cfg -> V2.wf_state cfg st -> V1.wf_state st1 ->
  flags_of (events_since (V2.world st) (V2.world (V2.setup cfg drv st))) =
    flat_map (fun b => slots b V2.MAX_SENSORS) (seq 0 (V2.NUMBER_OF_BOARDS cfg)) /\
  flags_of (events_since (V1.world st1) (V1.world (V1.setup drv1 st1))) =
    flat_map (fun b => slots b V1.NUMBER_OF_SENSORS_PER_BOARD)
             (seq 0 V1.NUMBER_OF_BOARDS).
Proof.
  intros Hcfg Hwf Hwf1.
  rewrite v2_setup_events, v1_setup_events by done.
  rewrite !flags_of_delay. split.
  - apply (flags_of_setup 20000 5000 (V2.count_at cfg) 5 (V2.address_at cfg)
             (V2Spec.status_of cfg drv) (length cfg)).
    intros b Hb. by apply v2_count_le.
  - apply (flags_of_setup 50000 10000 (fun _ => V1.NUMBER_OF_SENSORS_PER_BOARD)
             V1.NUMBER_OF_SENSORS_PER_BOARD (fun _ => V1.address_at)
             (V1Spec.status_of drv1) V1.NUMBER_OF_BOARDS).
    intros; lia.
Qed.

Lemma setup_assigns_every_flag_once_witness :
  flags_of (events_since (V2.world (V2.power_on two_boards))
              (V2.world (V2.setup two_boards demo_driver (V2.power_on two_boards))))
  = [ (0, 0); (0, 1); (0, 2); (0, 3); (0, 4);
      (1, 0); (1, 1); (1, 2); (1, 3); (1, 4) ].
Proof.
  destruct (setup_assigns_every_flag_once two_boards demo_driver flaky_driver
              (V2.power_on two_boards) V1.power_on) as (H1 & _);
    [by_computation..|].
  exact H1.
Defined.

(** ** First sketch: the array [data] *)

Section V1_data.
Import V1 V1Spec V1Report.

Variable drv : Driver.

Lemma v1_loop_sensor_data b s st :
  shape NUMBER_OF_BOARDS NUMBER_OF_SENSORS_PER_BOARD (data st) ->
  b < NUMBER_OF_BOARDS -> s < NUMBER_OF_SENSORS_PER_BOARD ->
  datum (loop_sensor drv b s st) b s =
    (if initialized st b s then drv_read drv b s (mux_reg (world st))
     else datum st b s) /\
  (forall b' s', (b', s') <> (b, s) ->
     datum (loop_sensor drv b s st) b' s' = datum st b' s').
Proof.
  intros Hd Hb Hs. unfold loop_sensor, initialized, datum.
  destruct (get2 false (sensorIsInitialized st) b s).
  - unfold read_and_print. cbv zeta. cbn [data on_world put_data].
    split.
    + by rewrite (get2_set2_eq NUMBER_OF_BOARDS NUMBER_OF_SENSORS_PER_BOARD).
    + intros b' s' Hne. by rewrite get2_set2_ne.
  - unfold print_placeholder. cbv zeta. cbn [data on_world]. done.
Qed.

Lemma v1_loop_slots_data b n st :
  shape NUMBER_OF_BOARDS NUMBER_OF_SENSORS_PER_BOARD (data st) ->
  b < NUMBER_OF_BOARDS -> n <= NUMBER_OF_SENSORS_PER_BOARD ->
  let st' := for_range 0 n (loop_sensor drv b) st in
  (forall s, s < n ->
     datum st' b s =
       if initialized st b s then drv_read drv b s (mux_reg (world st))
       else datum st b s) /\
  (forall b' s', b' <> b \/ n <= s' -> datum st' b' s' = datum st b' s').
Proof.
  intros Hd Hb Hn. cbv zeta.
  cut (n <= n ->
    sensorIsInitialized (for_range 0 n (loop_sensor drv b) st) = sensorIsInitialized st /\
    shape NUMBER_OF_BOARDS NUMBER_OF_SENSORS_PER_BOARD
      (data (for_range 0 n (loop_sensor drv b) st)) /\
    mux_reg (world (for_range 0 n (loop_sensor drv b) st)) = mux_reg (world st) /\
    (forall s, s < n ->
       datum (for_range 0 n (loop_sensor drv b) st) b s =
         if initialized st b s then drv_read drv b s (mux_reg (world st))
         else datum st b s) /\
    (forall b' s', b' <> b \/ n <= s' ->
       datum (for_range 0 n (loop_sensor drv b) st) b' s' = datum st b' s')).
  { intros H. destruct (H (le_n _)) as (_ & _ & _ & H1 & H2). done. }
  apply (for_range_inv (fun j st' =>
    j <= n ->
    sensorIsInitialized st' = sensorIsInitialized st /\
    shape NUMBER_OF_BOARDS NUMBER_OF_SENSORS_PER_BOARD (data st') /\
    mux_reg (world st') = mux_reg (world st) /\
    (forall s, s < j ->
       datum st' b s =
         if initialized st b s then drv_read drv b s (mux_reg (world st))
         else datum st b s) /\
    (forall b' s', b' <> b \/ j <= s' -> datum st' b' s' = datum st b' s')));
    [lia| | ].
  - intros _. split_and!; try done. intros; lia.
  - intros j s [_ Hj] IH _.
    destruct IH as (Hfl & Hsh & Hmux & Hdone & Hrest); [lia|].
    destruct (v1_loop_sensor_spec drv b j s Hsh Hb ltac:(lia))
      as (Hfl1 & _ & Hsh1 & Hmux1 & _).
    destruct (v1_loop_sensor_data b j s Hsh Hb ltac:(lia)) as (Hd1 & Ho1).
    assert (Hi : initialized s b j = initialized st b j).
    { unfold initialized. by rewrite Hfl. }
    split_and!; try congruence.
    + intros s' Hs'. destruct (decide (s' = j)) as [->|Hne].
      * rewrite Hd1, Hi, Hmux. destruct (initialized st b j); [done|].
        apply Hrest. right. lia.
      * rewrite Ho1 by congruence. apply Hdone. lia.
    + intros b' s' Hcase. rewrite Ho1; [apply Hrest; lia|].
      intros [= -> ->]. lia.
Qed.

Lemma v1_loop_board_data b st :
  shape NUMBER_OF_BOARDS NUMBER_OF_SENSORS_PER_BOARD (data st) ->
  b < NUMBER_OF_BOARDS ->
  (b <> 0 -> mux_reg (world st) = chan (b - 1)) ->
  (forall s, s < NUMBER_OF_SENSORS_PER_BOARD ->
     datum (loop_board drv b st) b s =
       if initialized st b s then drv_read drv b s (chan b) else datum st b s) /\
  (forall b' s', b' <> b -> datum (loop_board drv b st) b' s' = datum st b' s').
Proof.
  intros Hd Hb Hprev. unfold loop_board. cbv zeta.
  assert (Hb255 : b <= 255) by (unfold NUMBER_OF_BOARDS in Hb; lia).
  pose proof (chan_step b (world st) Hb255 Hprev) as Hmux0.
  set (st2 := on_world (delay 10) (on_world (tcaSelect (Z.of_nat b)) st)).
  assert (Hd2 : shape NUMBER_OF_BOARDS NUMBER_OF_SENSORS_PER_BOARD (data st2))
    by exact Hd.
  destruct (v1_loop_slots_data b NUMBER_OF_SENSORS_PER_BOARD st2 Hd2 Hb (le_n _))
    as (H1 & H2).
  assert (Hmux2 : mux_reg (world st2) = chan b) by exact Hmux0.
  rewrite Hmux2 in H1. split.
  - intros s Hs. exact (H1 s Hs).
  - intros b' s' Hne. apply H2. by left.
Qed.

Lemma v1_loop_boards_data k st :
  shape NUMBER_OF_BOARDS NUMBER_OF_SENSORS_PER_BOARD (data st) ->
  k <= NUMBER_OF_BOARDS ->
  let st' := for_range 0 k (loop_board drv) st in
  (forall b s, b < k -> s < NUMBER_OF_SENSORS_PER_BOARD ->
     datum st' b s =
       if initialized st b s then drv_read drv b s (chan b) else datum st b s) /\
  (forall b s, k <= b -> datum st' b s = datum st b s).
Proof.
  intros Hd Hk. cbv zeta.
  cut (k <= k ->
    sensorIsInitialized (for_range 0 k (loop_board drv) st) = sensorIsInitialized st /\
    shape NUMBER_OF_BOARDS NUMBER_OF_SENSORS_PER_BOARD
      (data (for_range 0 k (loop_board drv) st)) /\
    (k <> 0 -> mux_reg (world (for_range 0 k (loop_board drv) st)) = chan (k - 1)) /\
    (forall b s, b < k -> s < NUMBER_OF_SENSORS_PER_BOARD ->
       datum (for_range 0 k (loop_board drv) st) b s =
         if initialized st b s then drv_read drv b s (chan b) else datum st b s) /\
    (forall b s, k <= b -> datum (for_range 0 k (loop_board drv) st) b s = datum st b s)).
  { intros H. destruct (H (le_n _)) as (_ & _ & _ & H1 & H2). done. }
  apply (for_range_inv (fun j st' =>
    j <= k ->
    sensorIsInitialized st' = sensorIsInitialized st /\
    shape NUMBER_OF_BOARDS NUMBER_OF_SENSORS_PER_BOARD (data st') /\
    (j <> 0 -> mux_reg (world st') = chan (j - 1)) /\
    (forall b s, b < j -> s < NUMBER_OF_SENSORS_PER_BOARD ->
       datum st' b s =
         if initialized st b s then drv_read drv b s (chan b) else datum st b s) /\
    (forall b s, j <= b -> datum st' b s = datum st b s)));
    [lia| | ].
  - intros _. split_and!; try done. intros; lia.
  - intros j s [_ Hj] IH _.
    destruct IH as (Hfl & Hsh & Hmux & Hdone & Hrest); [lia|].
    assert (Hjb : j < NUMBER_OF_BOARDS) by lia.
    destruct (v1_loop_board_spec drv j s Hsh Hjb Hmux)
      as (Hfl1 & _ & Hsh1 & Hmux1 & _).
    destruct (v1_loop_board_data j s Hsh Hjb Hmux) as (Hd1 & Ho1).
    revert Hfl1 Hsh1 Hmux1 Hd1 Ho1. generalize (loop_board drv j s).
    intros s1 Hfl1 Hsh1 Hmux1 Hd1 Ho1.
    split_and!; try congruence.
    + intros _. by replace (Datatypes.S j - 1) with j by lia.
    + intros b i Hb Hi. destruct (decide (b = j)) as [->|Hne].
      * rewrite Hd1 by done. unfold initialized. rewrite Hfl.
        fold (initialized st j i). destruct (initialized st j i); [done|].
        apply Hrest. lia.
      * rewrite Ho1 by done. apply Hdone; lia.
    + intros b i Hb. rewrite Ho1 by lia. apply Hrest. lia.
Qed.

End V1_data.

(** X16: the first sketch stores every sample it reads in the entry of [data] of
    its endpoint and, unlike the second sketch with its snapshot buffer, leaves
    the entry of an endpoint it does not read as it was: a cycle clears nothing. *)
Theorem first_sketch_keeps_stale_data (drv : Driver) (st : V1.State) (b s : nat) :
  V1.wf_state st ->
  b < V1.NUMBER_OF_BOARDS -> s < V1.NUMBER_OF_SENSORS_PER_BOARD ->
  V1Report.datum (V1.loop drv st) b s =
    if V1Spec.initialized st b s then drv_read drv b s (chan b)
    else V1Report.datum st b s.
Proof.
  intros (Hd & _ & _) Hb Hs.
  destruct (v1_loop_boards_data drv V1.NUMBER_OF_BOARDS st Hd (le_n _)) as (H & _).
  specialize (H b s Hb Hs).
  unfold V1.loop. 
  revert H.
  generalize (for_range 0 V1.NUMBER_OF_BOARDS (V1.loop_board drv) st).
  intros st1 H. 
  unfold V1Report.datum in *.
  cbn [V1.data V1.on_world] in *.
  exact H.
Qed.
Lemma first_sketch_keeps_stale_data_witness :
  V1Report.datum (V1.loop other_driver (V1.loop flaky_driver v1_mixed)) 2 1
    = V1Report.datum (V1.loop flaky_driver v1_mixed) 2 1 /\
  V1Report.datum (V1.loop other_driver (V1.loop flaky_driver v1_mixed)) 2 0
    = Txyz (-4) 5 600.
Proof.
  split.
  - apply (first_sketch_keeps_stale_data other_driver
             (V1.loop flaky_driver v1_mixed) 2 1); by_computation.
  - apply (first_sketch_keeps_stale_data other_driver
             (V1.loop flaky_driver v1_mixed) 2 0); by_computation.
Defined.

(** ** What [setup] prints *)

Section V2_setup_text.
Import V2 V2Spec V2Report.

Variable cfg : list SensorBoard.
Variable drv : Driver.

Lemma v2_init_sensor_text b s st :
  mux_reg (world (init_sensor cfg drv b s st)) = mux_reg (world st) /\
  serial (world (init_sensor cfg drv b s st)) =
    serial (world st) +:+
    slot_report cfg b s
      (drv_begin drv b s (mux_reg (world st)) (address_at cfg b s) mod 256)%Z.
Proof.
  unfold init_sensor, status_byte, slot_report. cbv zeta.
  cbn [world on_world Serial_print mux_reg].
  destruct (drv_begin drv b s (mux_reg (world st)) (address_at cfg b s) mod 256 =? 0)%Z;
    cbn [world on_world set_initialized Serial_print Serial_println mlx_begin
         mlx_startBurst delay log mux_reg serial];
    (split; [done|]); by rewrite !sapp_assoc.
Qed.

Lemma v2_init_slots_text b n st :
  mux_reg (world (for_range 0 n (init_sensor cfg drv b) st)) = mux_reg (world st) /\
  serial (world (for_range 0 n (init_sensor cfg drv b) st)) =
    serial (world st) +:+
    text_of (map (fun s => slot_report cfg b s
                   (drv_begin drv b s (mux_reg (world st)) (address_at cfg b s) mod 256)%Z)
                 (seq 0 n)).
Proof.
  induction n as [|n [IHm IHs]].
  - rewrite for_range_empty by lia. simpl. by rewrite sapp_nil_r.
  - rewrite for_range_snoc by lia.
    destruct (v2_init_sensor_text b n (for_range 0 n (init_sensor cfg drv b) st))
      as [Hm Hs].
    rewrite Hm, Hs, IHm, IHs. split; [done|].
    by rewrite (text_of_seq_S (fun s => slot_report cfg b s _)), sapp_assoc.
Qed.

Lemma v2_init_unused_text b lo hi st :
  mux_reg (world (for_range lo hi
     (fun sensor st => set_initialized b sensor false st) st)) = mux_reg (world st) /\
  serial (world (for_range lo hi
     (fun sensor st => set_initialized b sensor false st) st)) = serial (world st).
Proof.
  destruct (Nat.le_gt_cases lo hi) as [Hle|Hgt].
  - apply (for_range_inv (fun (_ : nat) st' =>
      mux_reg (world st') = mux_reg (world st) /\
      serial (world st') = serial (world st))); [done|done|].
    by intros j st' _ [Hm Hs].
  - by rewrite for_range_empty by lia.
Qed.

Lemma v2_init_board_text b st :
  b <= 255 ->
  (b <> 0 -> mux_reg (world st) = chan (b - 1)) ->
  mux_reg (world (init_board cfg drv b st)) = chan b /\
  serial (world (init_board cfg drv b st)) =
    serial (world st) +:+ board_report cfg (status_of cfg drv b) b.
Proof.
  intros Hb Hprev. unfold init_board. cbv zeta.
  pose proof (chan_step b (world st) Hb Hprev) as Hmux0.
  destruct (tcaSelect_board b (world st) Hb) as (_ & Hser0 & _).
  match goal with
  | |- context [for_range 0 (count_at cfg b) _ ?s] => set (st2 := s)
  end.
  assert (Hmux2 : mux_reg (world st2) = chan b) by exact Hmux0.
  assert (Hser2 : serial (world st2) =
    serial (world st) +:+ "--- Initializing Board " +:+ print_uint b +:+ " (" +:+
    classification (board_at cfg b) +:+ ") - " +:+ print_uint (count_at cfg b) +:+
    " sensor(s) ---" +:+ CRLF).
  { subst st2. cbn [world on_world Serial_print Serial_println delay log serial].
    rewrite Hser0. by rewrite !sapp_assoc. }
  clearbody st2.
  destruct (v2_init_slots_text b (count_at cfg b) st2) as [Hm3 Hs3].
  destruct (v2_init_unused_text b (count_at cfg b) 5
              (for_range 0 (count_at cfg b) (init_sensor cfg drv b) st2)) as [Hm4 Hs4].
  rewrite Hm4, Hs4, Hm3, Hs3, Hmux2, Hser2. split; [done|].
  unfold board_report, status_of. by rewrite !sapp_assoc.
Qed.

Lemma v2_initializeAll_text st :
  length cfg <= 255 ->
  serial (world (initializeAll cfg drv st)) =
    serial (world st) +:+
    text_of (map (fun b => board_report cfg (status_of cfg drv b) b)
                 (seq 0 (length cfg))).
Proof.
  intros Hlen. unfold initializeAll, NUMBER_OF_BOARDS.
  cut (length cfg <= length cfg ->
    (length cfg <> 0 ->
       mux_reg (world (for_range 0 (length cfg) (init_board cfg drv) st)) =
         chan (length cfg - 1)) /\
    serial (world (for_range 0 (length cfg) (init_board cfg drv) st)) =
      serial (world st) +:+
      text_of (map (fun b => board_report cfg (status_of cfg drv b) b)
                   (seq 0 (length cfg)))).
  { intros H. by apply H. }
  apply (for_range_inv (fun k st' =>
    k <= length cfg ->
    (k <> 0 -> mux_reg (world st') = chan (k - 1)) /\
    serial (world st') =
      serial (world st) +:+
      text_of (map (fun b => board_report cfg (status_of cfg drv b) b) (seq 0 k))));
    [lia| | ].
  - intros _. split; [done|]. simpl. by rewrite sapp_nil_r.
  - intros k s [_ Hk] IH _. destruct IH as [Hm Hs]; [lia|].
    destruct (v2_init_board_text k s ltac:(lia) Hm) as [Hm1 Hs1].
    split.
    + intros _. by replace (Datatypes.S k - 1) with k by lia.
    + rewrite Hs1, Hs.
      by rewrite (text_of_seq_S (fun b => board_report cfg (status_of cfg drv b) b)),
                 sapp_assoc.
Qed.

Lemma v2_zero_buffer_world k st :
  world (for_range 0 k (fun board st => for_range 0 5 (clear_cell board) st) st) =
  world st.
Proof.
  apply (for_range_inv (fun (_ : nat) st' => world st' = world st)); [lia|done|].
  intros j st' _ Hw.
  apply (for_range_inv (fun (_ : nat) st'' => world st'' = world st)); [lia|done|].
  by intros i st'' _ Hw'.
Qed.

Lemma v2_setup_text st :
  length cfg <= 255 ->
  serial (world (setup cfg drv st)) = serial (world st) +:+ setup_text cfg drv.
Proof.
  intros Hlen. unfold setup. cbv zeta.
  match goal with
  | |- context [initializeAll cfg drv ?s] => set (st1 := s)
  end.
  assert (Hs1 : serial (world st1) = serial (world st) +:+ banner_text cfg).
  { subst st1. cbn [world on_world]. unfold NUMBER_OF_BOARDS.
    set (w1 := delay 10 _).
    assert (Hw1 : serial w1 = serial (world st) +:+
      "Qwiic Mux Shield Multi-Sensor V2 - All Boards Simultaneous Reading" +:+ CRLF).
    { subst w1. unfold Serial_println.
      cbn [delay log Serial_print serial]. by rewrite sapp_assoc. }
    clearbody w1. unfold Serial_println.
    rewrite print_print, v2_banner_loop, !print_print.
    cbn [Serial_print serial]. rewrite Hw1. unfold banner_text.
    by rewrite !sapp_assoc. }
  clearbody st1.
  pose proof (v2_initializeAll_text st1 Hlen) as Hs2.
  match goal with
  | |- context [for_range 0 (NUMBER_OF_BOARDS cfg) _ ?s] => set (st3 := s)
  end.
  pose proof (v2_zero_buffer_world (NUMBER_OF_BOARDS cfg) st3) as Hw4.
  cbn [world on_world]. rewrite Hw4. subst st3.
  cbn [world on_world]. unfold Serial_println. rewrite !print_print.
  cbn [Serial_print serial]. rewrite Hs2, Hs1.
  unfold setup_text, closing_text. by rewrite !sapp_assoc.
Qed.

End V2_setup_text.

Section V1_setup_text.
Import V1 V1Spec V1Report.

Variable drv : Driver.

Lemma v1_init_sensor_text b s st :
  mux_reg (world (init_sensor drv b s st)) = mux_reg (world st) /\
  serial (world (init_sensor drv b s st)) =
    serial (world st) +:+
    slot_report s (drv_begin drv b s (mux_reg (world st)) (address_at s) mod 256)%Z.
Proof.
  unfold init_sensor, status_byte, slot_report. cbv zeta.
  cbn [world on_world Serial_print Serial_println mux_reg].
  destruct (drv_begin drv b s (mux_reg (world st)) (address_at s) mod 256 =? 0)%Z;
    cbn [world on_world set_initialized Serial_print Serial_println mlx_begin
         mlx_startBurst delay log mux_reg serial];
    (split; [done|]); by rewrite !sapp_assoc.
Qed.

Lemma v1_init_slots_text b n st :
  mux_reg (world (for_range 0 n (init_sensor drv b) st)) = mux_reg (world st) /\
  serial (world (for_range 0 n (init_sensor drv b) st)) =
    serial (world st) +:+
    text_of (map (fun s => slot_report s
                   (drv_begin drv b s (mux_reg (world st)) (address_at s) mod 256)%Z)
                 (seq 0 n)).
Proof.
  induction n as [|n [IHm IHs]].
  - rewrite for_range_empty by lia. simpl. by rewrite sapp_nil_r.
  - rewrite for_range_snoc by lia.
    destruct (v1_init_sensor_text b n (for_range 0 n (init_sensor drv b) st))
      as [Hm Hs].
    rewrite Hm, Hs, IHm, IHs. split; [done|].
    by rewrite (text_of_seq_S (fun s => slot_report s _)), sapp_assoc.
Qed.

Lemma v1_init_board_text b st :
  b <= 255 ->
  (b <> 0 -> mux_reg (world st) = chan (b - 1)) ->
  mux_reg (world (init_board drv b st)) = chan b /\
  serial (world (init_board drv b st)) =
    serial (world st) +:+ board_report (status_of drv b) b.
Proof.
  intros Hb Hprev. unfold init_board. cbv zeta.
  pose proof (chan_step b (world st) Hb Hprev) as Hmux0.
  destruct (tcaSelect_board b (world st) Hb) as (_ & Hser0 & _).
  match goal with
  | |- context [for_range 0 NUMBER_OF_SENSORS_PER_BOARD _ ?s] => set (st2 := s)
  end.
  assert (Hmux2 : mux_reg (world st2) = chan b) by exact Hmux0.
  assert (Hser2 : serial (world st2) =
    serial (world st) +:+ "--- Initializing sensors on Board " +:+ print_uint b +:+
    " ---" +:+ CRLF).
  { subst st2. cbn [world on_world Serial_print Serial_println delay log serial].
    rewrite Hser0. by rewrite !sapp_assoc. }
  clearbody st2.
  destruct (v1_init_slots_text b NUMBER_OF_SENSORS_PER_BOARD st2) as [Hm3 Hs3].
  revert Hm3 Hs3.
  generalize (for_range 0 NUMBER_OF_SENSORS_PER_BOARD (init_sensor drv b) st2).
  intros st3 Hm3 Hs3.
  cbn [world on_world Serial_print Serial_println mux_reg serial].
  rewrite Hm3, Hs3, Hmux2, Hser2. split; [done|].
  unfold board_report, status_of. by rewrite !sapp_assoc.
Qed.

Lemma v1_init_boards_text k st :
  k <= NUMBER_OF_BOARDS ->
  (k <> 0 -> mux_reg (world (for_range 0 k (init_board drv) st)) = chan (k - 1)) /\
  serial (world (for_range 0 k (init_board drv) st)) =
    serial (world st) +:+
    text_of (map (fun b => board_report (status_of drv b) b) (seq 0 k)).
Proof.
  apply (for_range_inv (fun k st' =>
    k <= NUMBER_OF_BOARDS ->
    (k <> 0 -> mux_reg (world st') = chan (k - 1)) /\
    serial (world st') =
      serial (world st) +:+
      text_of (map (fun b => board_report (status_of drv b) b) (seq 0 k))));
    [lia| | ].
  - intros _. split; [done|]. simpl. by rewrite sapp_nil_r.
  - intros j s [_ Hj] IH Hle. destruct IH as [Hm Hs]; [lia|].
    assert (Hj255 : j <= 255) by (unfold NUMBER_OF_BOARDS in Hle; lia).
    destruct (v1_init_board_text j s Hj255 Hm) as [Hm1 Hs1].
    split.
    + intros _. by replace (Datatypes.S j - 1) with j by lia.
    + rewrite Hs1, Hs.
      by rewrite (text_of_seq_S (fun b => board_report (status_of drv b) b)),
                 sapp_assoc.
Qed.

Lemma v1_setup_text st :
  serial (world (setup drv st)) = serial (world st) +:+ setup_text drv.
Proof.
  unfold setup, initializeAll. cbv zeta.
  match goal with
  | |- context [for_range 0 NUMBER_OF_BOARDS (init_board drv) ?s] => set (st1 := s)
  end.
  assert (Hs1 : serial (world st1) = serial (world st) +:+
    "Qwiic Mux Shield Read Example - Single Board Version" +:+ CRLF).
  { subst st1. cbn [world on_world Serial_print Serial_println delay log serial].
    by rewrite sapp_assoc. }
  clearbody st1.
  destruct (v1_init_boards_text NUMBER_OF_BOARDS st1 (le_n _)) as [_ Hs2].
  revert Hs2. generalize (for_range 0 NUMBER_OF_BOARDS (init_board drv) st1).
  intros st2 Hs2.
  cbn [world on_world Serial_print Serial_println serial].
  rewrite Hs2, Hs1. unfold setup_text. by rewrite !sapp_assoc.
Qed.

End V1_setup_text.

(** X17: everything [setup] of the second sketch prints: the title, the table
    with one line per board, a rule, for every board a heading and one line per
    configured slot that ends in OK when the device answered with status 0 and
    in FAILED with the status in brackets otherwise, and the four closing lines,
    which announce that all sensors are initialised whatever the devices
    answered. The text does not depend on the state [setup] starts from. *)
Theorem setup_report (cfg : list V2.SensorBoard) (drv : Driver) (st : V2.State) :
  V2.wf_config cfg ->
  printed_since (V2.world st) (V2.world (V2.setup cfg drv st)) =
    V2Report.banner_text cfg +:+
    text_of (map (fun b =>
        "--- Initializing Board " +:+ print_uint b +:+ " (" +:+
        V2.classification (V2.board_at cfg b) +:+ ") - " +:+
        print_uint (V2.count_at cfg b) +:+ " sensor(s) ---" +:+ CRLF +:+
        text_of (map (fun s =>
            "  Sensor " +:+ print_uint s +:+ " @ 0x" +:+
            print_hex (V2.address_at cfg b s) +:+ ": " +:+
            (if (V2Spec.status_of cfg drv b s =? 0)%Z then "OK" +:+ CRLF
             else "FAILED (" +:+ print_int (V2Spec.status_of cfg drv b s) +:+ ")" +:+ CRLF))
          (seq 0 (V2.count_at cfg b))))
      (seq 0 (V2.NUMBER_OF_BOARDS cfg))) +:+
    V2Report.closing_text.
Proof.
  intros [Hlen _]. apply printed_since_app.
  exact (v2_setup_text cfg drv st Hlen).
Qed.

Lemma setup_report_witness :
  printed_since (V2.world (V2.power_on two_boards))
    (V2.world (V2.setup two_boards demo_driver (V2.power_on two_boards))) =
  V2Report.setup_text two_boards demo_driver /\
  V2Report.board_report two_boards (V2Spec.status_of two_boards demo_driver 1) 1 =
    "--- Initializing Board 1 (1XF) - 1 sensor(s) ---" +:+ CRLF +:+
    "  Sensor 0 @ 0xF: FAILED (1)" +:+ CRLF.
Proof.
  split; [|reflexivity].
  apply (setup_report two_boards demo_driver (V2.power_on two_boards)).
  by_computation.
Defined.

(** X18: everything [setup] of the first sketch prints: the title, for each of
    the twenty boards a heading, two lines per sensor (the attempt with the
    address, then either the success or the failure with the status) and a rule,
    and the closing line, which announces that all sensors are initialised
    whatever the devices answered. The text does not depend on the state [setup]
    starts from. *)
Theorem first_sketch_setup_report (drv : Driver) (st : V1.State) :
  printed_since (V1.world st) (V1.world (V1.setup drv st)) =
    "Qwiic Mux Shield Read Example - Single Board Version" +:+ CRLF +:+
    text_of (map (fun b =>
        "--- Initializing sensors on Board " +:+ print_uint b +:+ " ---" +:+ CRLF +:+
        text_of (map (fun s =>
            "Attempting to initialize Sensor " +:+ print_uint s +:+
            " at address 0x" +:+ print_hex (V1.address_at s) +:+ CRLF +:+
            (if (V1Spec.status_of drv b s =? 0)%Z
             then "Initialization successful!" +:+ CRLF
             else "Initialization FAILED! Status: " +:+
                  print_int (V1Spec.status_of drv b s) +:+ CRLF))
          (seq 0 V1.NUMBER_OF_SENSORS_PER_BOARD)) +:+
        "------------------------------------" +:+ CRLF)
      (seq 0 V1.NUMBER_OF_BOARDS)) +:+
    "All sensors initialized. Mux Shield online." +:+ CRLF.
Proof. apply printed_since_app. exact (v1_setup_text drv st). Qed.
